(** * chatbot-query-library: the worker, the merge and the cookie manager

    A shallow embedding of [src/chatbot_query_library/cookies.py],
    of the [query] methods of [chatbot.py] and of
    [MultiChatbot._query_chatbot] / [MultiChatbot.query] in
    [multichatbot.py], followed by the properties of the orchestration core:
    resumption, merging, the failure counter, the cool-down and the
    credential list.

    Conventions.
    - Python [int] is [Z]; Python [float] (time stamps, random draws,
      temperatures) is [Q].
    - Text is [string], restricted to ASCII.
    - A file holds a JSON document; [json.load (json.dumps rs)] gives [rs]
      back for lists of result records, so a completely written file is
      represented by the list it encodes.
    - Everything the code obtains from outside (the answer or the exception
      of the backend, [time.time()], [random.uniform]) is read from a
      script, one entry per turn of the [while] loop. *)

From Stdlib Require Import ZArith QArith Qround Lqa String Ascii List Lia Permutation Bool.
From stdpp Require Import base option list strings pretty gmap.
Import ListNotations.

Local Open Scope string_scope.
Local Open Scope list_scope.
Local Open Scope Z_scope.

(* ===================================================================== *)
(** ** Python helpers                                                     *)
(* ===================================================================== *)

Module Py.

(** [pat in s] on [str]. *)
Fixpoint contains (pat s : string) : bool :=
  String.prefix pat s ||
  match s with
  | EmptyString => false
  | String _ s' => contains pat s'
  end.

Definition lower_ascii (c : ascii) : ascii :=
  let n := nat_of_ascii c in
  if (Nat.leb 65 n && Nat.leb n 90)%bool then ascii_of_nat (n + 32) else c.

(** [s.lower()] on ASCII text. *)
Fixpoint lower (s : string) : string :=
  match s with
  | EmptyString => EmptyString
  | String c s' => String (lower_ascii c) (lower s')
  end.

Definition starts_with_slash (s : string) : bool :=
  match s with
  | String "/"%char _ => true
  | _ => false
  end.

Fixpoint ends_with_slash (s : string) : bool :=
  match s with
  | EmptyString => false
  | String c EmptyString => Ascii.eqb c "/"%char
  | String _ s' => ends_with_slash s'
  end.

(** [os.path.join(a, b)] of [posixpath]. *)
Definition path_join (a b : string) : string :=
  if starts_with_slash b then b
  else if (String.eqb a "" || ends_with_slash a)%bool then (a ++ b)%string
  else (a ++ "/" ++ b)%string.

(** [sum(1 for x in l if f x)]. *)
Definition count {A} (f : A -> bool) (l : list A) : Z :=
  Z.of_nat (length (List.filter f l)).

(** [round(x)] of a float: to the nearest integer, ties to even. *)
Definition round (x : Q) : Z :=
  let f := Qfloor x in
  let d := (x - inject_Z f)%Q in
  match Qcompare d (1 # 2) with
  | Lt => f
  | Gt => f + 1
  | Eq => if Z.even f then f else f + 1
  end.

End Py.

(* ===================================================================== *)
(** ** Exceptions                                                         *)
(* ===================================================================== *)

(** The classes the [except] clauses of [_query_chatbot] tell apart.
    [BaseExceptionOnly] stands for what [except Exception] does not catch
    ([KeyboardInterrupt], [SystemExit]). *)
Inductive ExnClass :=
| TimeoutError
| RuntimeError
| OtherException
| BaseExceptionOnly.

(** One element of [ex.args]: the code only asks whether it is a [str]. *)
Inductive Arg :=
| ArgStr (s : string)
| ArgOther.

Record Exn := mkExn { exn_class : ExnClass; exn_args : list Arg }.

Definition Exception (msg : string) : Exn := mkExn OtherException [ArgStr msg].
Definition IndexError : Exn := mkExn OtherException [ArgStr "tuple index out of range"].
Definition JSONDecodeError : Exn := mkExn OtherException [ArgStr "Expecting value"].

(** A computation that returns or raises. *)
Inductive Exc (A : Type) :=
| Ok (a : A)
| Raise (ex : Exn).
Arguments Ok {A} a.
Arguments Raise {A} ex.

Definition bindE {A B} (m : Exc A) (k : A -> Exc B) : Exc B :=
  match m with
  | Ok a => k a
  | Raise ex => Raise ex
  end.

Notation "'let*' x ':=' m 'in' k" := (bindE m (fun x => k))
  (at level 10, x pattern, m at level 100, k at level 200).

(* ===================================================================== *)
(** ** cookies.py                                                         *)
(* ===================================================================== *)

Module CookieManager.

(** [cookie_files] may be [None]; [current_cookie_file] may be [None]. *)
Record t := mk {
  domain_name : string;
  cookie_files : option (list string);
  current_cookie_file : option string
}.

(** Truth value of a list attribute that may be [None]. *)
Definition truthy (fs : option (list string)) : bool :=
  match fs with
  | Some (_ :: _) => true
  | _ => false
  end.

(** The stored credentials, [None] read as no credential. *)
Definition files (cm : t) : list string := default [] (cookie_files cm).

(** [__init__]; [generated] is what [generate_edge_cookie_files()] returns
    on this machine, used when the browser is Edge and no list is given. *)
Definition init (domain : string) (browser_is_edge : bool)
    (generated : list string) (files_arg : option (list string)) : t :=
  let fs := if (browser_is_edge && negb (truthy files_arg))%bool
            then Some generated else files_arg in
  mk domain fs (if truthy fs then head (default [] fs) else None).

(** [l[1:] + l[:1]]. *)
Definition rotl (l : list string) : list string := drop 1 l ++ take 1 l.

(** [rotate_cookie_file]. *)
Definition rotate_cookie_file (cm : t) : t :=
  match cookie_files cm with
  | Some l =>
      if (truthy (Some l) && Nat.ltb 1 (length l))%bool then
        let l' := rotl l in
        mk (domain_name cm) (Some l') (head l')
      else cm
  | None => cm
  end.

(** [kill_cookie_file]: the manager afterwards, and the exception if one
    is raised. *)
Definition kill_cookie_file (cm : t) : t * option Exn :=
  match cookie_files cm with
  | Some l =>
      if (truthy (Some l) && Nat.ltb 1 (length l))%bool then
        let l' := drop 1 l in
        (mk (domain_name cm) (Some l') (head l'), None)
      else (cm, Some (Exception "Cannot kill the last cookie file."))
  | None => (cm, Some (Exception "Cannot kill the last cookie file."))
  end.

(** [not self.current_cookie_file]: [None] and the empty string. *)
Definition no_current (cm : t) : bool :=
  match current_cookie_file cm with
  | None => true
  | Some s => String.eqb s ""
  end.

(** The current credential is the first stored one. *)
Definition wf (cm : t) : Prop :=
  current_cookie_file cm = head (files cm).

End CookieManager.

(* ===================================================================== *)
(** ** chatbot.py                                                         *)
(* ===================================================================== *)

(** [EdgeGPT.ConversationStyle]. *)
Inductive ConversationStyle := creative | balanced | precise.

(** The four adapters. [Copilot] and [Gemini] are the subclasses of
    [_UnofficialChatbot] and carry a cookie manager. *)
Inductive Chatbot :=
| OpenAI (api_key name model : string) (timeout : Z) (temperature : Q)
         (max_tokens : Z)
| Copilot (cookie_manager : CookieManager.t) (name : string) (timeout : Z)
          (temperature : ConversationStyle)
| Gemini (cookie_manager : CookieManager.t) (name : string) (timeout : Z)
| HuggingFace (api_key name model : string) (timeout : Z) (temperature : Q)
              (max_tokens : Z) (top_p : Q) (top_k : Z).

Module Bot.

Definition name (cb : Chatbot) : string :=
  match cb with
  | OpenAI _ n _ _ _ _ => n
  | Copilot _ n _ _ => n
  | Gemini _ n _ => n
  | HuggingFace _ n _ _ _ _ _ _ => n
  end.

(** [isinstance(chatbot, _UnofficialChatbot)]. *)
Definition is_unofficial (cb : Chatbot) : bool :=
  match cb with
  | Copilot _ _ _ _ | Gemini _ _ _ => true
  | _ => false
  end.

Definition is_OpenAI (cb : Chatbot) : bool :=
  match cb with OpenAI _ _ _ _ _ _ => true | _ => false end.
Definition is_HuggingFace (cb : Chatbot) : bool :=
  match cb with HuggingFace _ _ _ _ _ _ _ _ => true | _ => false end.
Definition is_Gemini (cb : Chatbot) : bool :=
  match cb with Gemini _ _ _ => true | _ => false end.
Definition is_Copilot (cb : Chatbot) : bool :=
  match cb with Copilot _ _ _ _ => true | _ => false end.

(** The cookie manager of an unofficial adapter. *)
Definition cookie_manager (cb : Chatbot) : option CookieManager.t :=
  match cb with
  | Copilot cm _ _ _ | Gemini cm _ _ => Some cm
  | _ => None
  end.

(** [Copilot.temperature_to_string]. *)
Definition temperature_to_string (t : ConversationStyle) : string :=
  match t with
  | balanced => "Balanced"
  | precise => "Precise"
  | creative => "Creative"
  end.

(** [_UnofficialChatbot.kill_cookie_file], which only the two unofficial
    adapters have. *)
Definition kill_cookie_file (cb : Chatbot) : Chatbot * option Exn :=
  match cb with
  | Copilot cm n t s =>
      let '(cm', r) := CookieManager.kill_cookie_file cm in (Copilot cm' n t s, r)
  | Gemini cm n t =>
      let '(cm', r) := CookieManager.kill_cookie_file cm in (Gemini cm' n t, r)
  | _ => (cb, Some (mkExn OtherException [ArgStr "object has no attribute 'kill_cookie_file'"]))
  end.

(** [chatbot.query(prompt)]. [backend] is what the remote service does
    with the request: the text it answers, or the exception the client
    library (or, for Hugging Face, the check of the response) raises.
    The unofficial adapters first rotate their cookie file and read the
    cookies of the current one. *)
Definition query (cb : Chatbot) (prompt : string) (backend : Exc string)
  : Chatbot * Exc string :=
  match cb with
  | Copilot cm n t s =>
      let cm' := CookieManager.rotate_cookie_file cm in
      (Copilot cm' n t s,
       if CookieManager.no_current cm'
       then Raise (Exception "No current cookie file.") else backend)
  | Gemini cm n t =>
      let cm' := CookieManager.rotate_cookie_file cm in
      (Gemini cm' n t,
       if CookieManager.no_current cm'
       then Raise (Exception "No current cookie file.") else backend)
  | _ => (cb, backend)
  end.

End Bot.

(* ===================================================================== *)
(** ** Result records and files                                           *)
(* ===================================================================== *)

(** The value stored under ["temperature"]: a number, a string or [null]. *)
Inductive JsonScalar :=
| JNull
| JNumber (q : Q)
| JString (s : string).

(** One entry of the checkpoint and output documents. *)
Record ResultRecord := mkRecord {
  r_timestamp : Q;
  r_chatbot : string;
  r_prompt : string;
  r_temperature : JsonScalar;
  r_response : string
}.

(** What a path holds: a complete document, nothing at all (a file just
    opened with mode ["w"]), or only the first [n] characters of the text of
    a document (a write that did not finish). *)
Inductive FileContent :=
| Json (rs : list ResultRecord)
| Empty
| Partial (rs : list ResultRecord) (n : nat).

Module Fs.

(** [os.path.exists]. *)
Definition exists_ (fs : gmap string FileContent) (path : string) : bool :=
  match fs !! path with
  | Some _ => true
  | None => false
  end.

(** [with open(path, "r") as f: json.load(f)]. *)
Definition json_load (fs : gmap string FileContent) (path : string)
  : Exc (list ResultRecord) :=
  match fs !! path with
  | Some (Json rs) => Ok rs
  | Some _ => Raise JSONDecodeError
  | None => Raise (mkExn OtherException [ArgOther; ArgStr "No such file or directory"])
  end.

(** The pattern of both functions: an empty list unless the file exists. *)
Definition load_if_exists (fs : gmap string FileContent) (path : string)
  : Exc (list ResultRecord) :=
  if exists_ fs path then json_load fs path else Ok [].

(** The steps of [with open(path, "w") as f: f.write(json.dumps(rs))]:
    [open] with mode ["w"] creates the file or truncates it, [write]
    hands over the text, leaving the block closes the file. *)
Inductive Op :=
| OpenW (path : string)
| Write (path : string) (rs : list ResultRecord)
| Close (path : string).

Definition exec (fs : gmap string FileContent) (op : Op) : gmap string FileContent :=
  match op with
  | OpenW path => <[path := Empty]> fs
  | Write path rs => <[path := Json rs]> fs
  | Close _ => fs
  end.

Definition write_ops (path : string) (rs : list ResultRecord) : list Op :=
  [OpenW path; Write path rs; Close path].

(** The block, once it has been left. *)
Definition write_json (fs : gmap string FileContent) (path : string)
    (rs : list ResultRecord) : gmap string FileContent :=
  fold_left exec (write_ops path rs) fs.

(** [os.remove]. *)
Definition remove (fs : gmap string FileContent) (path : string)
  : gmap string FileContent :=
  delete path fs.

(** The file systems a kill of the process can leave behind while a list
    of steps runs: the one before a step, or, inside a [Write], the file
    with only part of the text. *)
Inductive killed (fs : gmap string FileContent)
  : list Op -> gmap string FileContent -> Prop :=
| killed_here ops : killed fs ops fs
| killed_writing path rs n ops :
    killed fs (Write path rs :: ops) (<[path := Partial rs n]> fs)
| killed_later op ops fs' :
    killed (exec fs op) ops fs' -> killed fs (op :: ops) fs'.

End Fs.

(* ===================================================================== *)
(** ** multichatbot.py                                                    *)
(* ===================================================================== *)

(** The attributes set by [MultiChatbot.__init__]. *)
Record MultiChatbot := mkMultiChatbot {
  chatbots : list Chatbot;
  prompts : list string;
  temp_dir : string;
  output_dir : string;
  output_filename : string;
  runs : Z;
  max_errors : Z
}.

(** What a worker does that can be observed from outside, in order. *)
Inductive Event :=
| EvSleep (seconds : Q)                      (* time.sleep *)
| EvLogError (args : list Arg)               (* _log_error(ex, chatbot) *)
| EvLogWaiting (error_count minutes : Z)     (* _log_error of the cool-down text *)
| EvQuery (prompt : string).                 (* chatbot.query(prompt) *)

(** One turn of the [while] loop as seen from outside: the two random
    draws ([random.uniform(15, 45)] and [random.uniform(55, 65)], read only
    where the code draws them), the clock, and the backend's behaviour. *)
Record Turn := mkTurn {
  delay : Q;
  cooldown : Q;
  now : Q;
  backend : Exc string
}.

(** The variables of [_query_chatbot] that outlive a turn, the file system
    and the trace. *)
Record Worker := mkWorker {
  temp_results : list ResultRecord;
  fs : gmap string FileContent;
  chatbot : Chatbot;
  progress : Z;
  trace : list Event
}.

(** After one turn: the loop goes on with new [run] and [error_count], or an
    exception leaves [_query_chatbot]. *)
Inductive Step :=
| Next (w : Worker) (run error_count : Z)
| Abort (w : Worker) (ex : Exn).

(** How a call of [_query_chatbot] ends: it returns, an exception leaves it,
    or the process is stopped from outside while a turn is due (the script
    has no further entry). *)
Inductive Result :=
| Completed (w : Worker)
| Raised (w : Worker) (ex : Exn)
| Stopped (w : Worker).

Definition step_worker (s : Step) : Worker :=
  match s with
  | Next w _ _ | Abort w _ => w
  end.

Definition worker_of (r : Result) : Worker :=
  match r with
  | Completed w | Raised w _ | Stopped w => w
  end.

Definition is_completed (r : Result) : bool :=
  match r with Completed _ => true | _ => false end.

Section Worker.

Variable self : MultiChatbot.

(** [_temp_filename]. *)
Definition _temp_filename (cb : Chatbot) : string :=
  Py.path_join (temp_dir self) (Py.lower (Bot.name cb) ++ ".json")%string.

Definition output_path : string :=
  Py.path_join (output_dir self) (output_filename self).

(** [sum(1 for result in temp_results if result["prompt"] == prompt)]. *)
Definition temp_count (temp : list ResultRecord) (prompt : string) : Z :=
  Py.count (fun r => String.eqb (r_prompt r) prompt) temp.

(** [sum(1 for result in results if result["prompt"] == prompt and
    result["chatbot"] == chatbot.name)]. *)
Definition results_count (results : list ResultRecord) (cb_name prompt : string) : Z :=
  Py.count (fun r => (String.eqb (r_prompt r) prompt && String.eqb (r_chatbot r) cb_name)%bool)
           results.

(** [prompt_runs], line 113. *)
Definition prompt_runs (temp results : list ResultRecord) (cb_name prompt : string) : Z :=
  Z.min (temp_count temp prompt) (runs self)
  + Z.min (results_count results cb_name prompt) (runs self).

(** The initial value of the progress bar, lines 100-107. *)
Definition initial_progress (temp results : list ResultRecord) (cb_name : string) : Z :=
  fold_left (fun acc p => acc + prompt_runs temp results cb_name p) (prompts self) 0.

(** The value stored under ["temperature"], line 135. *)
Definition record_temperature (cb : Chatbot) : JsonScalar :=
  match cb with
  | OpenAI _ _ _ _ t _ => JNumber t
  | Copilot _ _ _ s => JString (Bot.temperature_to_string s)
  | Gemini _ _ _ => JNull
  | HuggingFace _ _ _ _ t _ _ _ => JNumber t
  end.

Definition emit (w : Worker) (evs : list Event) : Worker :=
  mkWorker (temp_results w) (fs w) (chatbot w) (progress w) (trace w ++ evs).

Definition set_chatbot (w : Worker) (cb : Chatbot) : Worker :=
  mkWorker (temp_results w) (fs w) cb (progress w) (trace w).

(** [waiting_time], line 126. *)
Definition waiting_time (error_count : Z) (u : Q) : Q :=
  (inject_Z (Z.min (error_count - max_errors self + 1) 10) * u)%Q.

(** Lines 120-128: the two rate limits before the query. *)
Definition rate_limit (w : Worker) (error_count : Z) (t : Turn) : Worker :=
  let w1 := if Bot.is_unofficial (chatbot w) then emit w [EvSleep (delay t)] else w in
  if max_errors self <=? error_count then
    let wt := waiting_time error_count (cooldown t) in
    emit w1 [EvLogWaiting error_count (Py.round (wt / 60)%Q); EvSleep wt]
  else w1.

(** Lines 139-146: the record is in [temp_results]; rewrite the checkpoint
    and advance. *)
Definition store (w : Worker) (prompt : string) (t : Turn) (response : string)
    (run : Z) : Step :=
  let cb := chatbot w in
  let rec := mkRecord (now t) (Bot.name cb) prompt (record_temperature cb) response in
  let temp := temp_results w ++ [rec] in
  Next (mkWorker temp (Fs.write_json (fs w) (_temp_filename cb) temp) cb
                 (progress w + 1) (trace w))
       (run + 1) 0.

(** [type(ex.args[0]) is str and pat in ex.args[0]]; indexing an empty
    tuple raises. *)
Definition first_arg_has (pats : list string) (ex : Exn) : Exc bool :=
  match exn_args ex with
  | [] => Raise IndexError
  | ArgStr s :: _ => Ok (existsb (fun pat => Py.contains pat s) pats)
  | ArgOther :: _ => Ok false
  end.

(** Lines 158-177: the clause [except Exception]. *)
Definition handle_exception (w : Worker) (ex : Exn) (run error_count : Z) : Step :=
  let w := emit w [EvLogError (exn_args ex)] in
  let cb := chatbot w in
  let chain : Exc Step :=
    let* c1 := (if Bot.is_OpenAI cb then first_arg_has ["Rate limit reached"] ex
                else Ok false) in
    if c1 then Ok (Next (emit w [EvSleep 1%Q]) run error_count) else
    let* c2 := (if Bot.is_HuggingFace cb then first_arg_has ["Model is overloaded"] ex
                else Ok false) in
    if c2 then Ok (Next (emit w [EvSleep 1%Q]) run error_count) else
    let* c3 := (if Bot.is_Gemini cb then first_arg_has ["SNlM0e value not found"] ex
                else Ok false) in
    let kill :=
      match Bot.kill_cookie_file cb with
      | (cb', None) => Ok (Next (set_chatbot w cb') run error_count)
      | (_, Some ex') => Raise ex'
      end in
    if c3 then kill else
    let* c4 := (if Bot.is_Copilot cb
                then first_arg_has ["CaptchaChallenge"; "Authentication failed"] ex
                else Ok false) in
    if c4 then kill else
    Ok (Next w run (error_count + 1)) in
  match chain with
  | Ok s => s
  | Raise ex' => Abort w ex'
  end.

(** Lines 148-177: the three [except] clauses, and what none of them
    catches. *)
Definition handle (w : Worker) (ex : Exn) (run error_count : Z) : Step :=
  match exn_class ex with
  | TimeoutError | RuntimeError =>
      Next (emit w [EvLogError (exn_args ex)]) run (error_count + 1)
  | OtherException => handle_exception w ex run error_count
  | BaseExceptionOnly => Abort w ex
  end.

(** Lines 119-177: one turn of the [while] loop. *)
Definition attempt (w : Worker) (prompt : string) (run error_count : Z) (t : Turn)
  : Step :=
  let w1 := rate_limit w error_count t in
  let '(cb', r) := Bot.query (chatbot w1) prompt (backend t) in
  let w2 := set_chatbot (emit w1 [EvQuery prompt]) cb' in
  match r with
  | Ok response => store w2 prompt t response run
  | Raise ex => handle w2 ex run error_count
  end.

(** Lines 118-177: [while run < self.runs - prompt_runs]. The second
    component is what is left of the script. *)
Fixpoint while_runs (prompt : string) (bound : Z) (script : list Turn)
    (w : Worker) (run error_count : Z) : Result * list Turn :=
  if run <? bound then
    match script with
    | [] => (Stopped w, [])
    | t :: script' =>
        match attempt w prompt run error_count t with
        | Next w' run' error_count' =>
            while_runs prompt bound script' w' run' error_count'
        | Abort w' ex => (Raised w' ex, script')
        end
    end
  else (Completed w, script).

(** After the [while] loop of a prompt: go on with the next prompts if the
    loop was left normally. *)
Definition then_prompts (next : list Turn -> Worker -> Result)
    (r : Result * list Turn) : Result :=
  match r with
  | (Completed w', script') => next script' w'
  | (r', _) => r'
  end.

(** Lines 111-177: [for prompt in self.prompts]. [results] is the output
    file as read when the worker started. *)
Fixpoint for_prompts (results : list ResultRecord) (ps : list string)
    (script : list Turn) (w : Worker) : Result :=
  match ps with
  | [] => Completed w
  | p :: ps' =>
      let pr := prompt_runs (temp_results w) results (Bot.name (chatbot w)) p in
      then_prompts (for_prompts results ps')
                   (while_runs p (runs self - pr) script w 0 0)
  end.

(** The worker somewhere inside the loops: in the [while] loop of prompt
    [p], with [ps] still to come. *)
Definition from_position (results : list ResultRecord) (p : string) (bound : Z)
    (ps : list string) (script : list Turn) (w : Worker) (run error_count : Z)
  : Result :=
  then_prompts (for_prompts results ps)
               (while_runs p bound script w run error_count).

(** [_query_chatbot], lines 81-180. *)
Definition _query_chatbot (cb : Chatbot) (script : list Turn)
    (fs0 : gmap string FileContent) : Result :=
  let idle := mkWorker [] fs0 cb 0 [] in
  match Fs.load_if_exists fs0 (_temp_filename cb) with
  | Raise ex => Raised idle ex
  | Ok temp =>
      match Fs.load_if_exists fs0 output_path with
      | Raise ex => Raised (mkWorker temp fs0 cb 0 []) ex
      | Ok results =>
          for_prompts results (prompts self) script
            (mkWorker temp fs0 cb (initial_progress temp results (Bot.name cb)) [])
      end
  end.

(** Lines 44-60 of [query]: what follows the [join] of the workers. *)
Fixpoint combine_temp (cbs : list Chatbot) (results : list ResultRecord)
    (fs0 : gmap string FileContent)
  : Exc (list ResultRecord * gmap string FileContent) :=
  match cbs with
  | [] => Ok (results, fs0)
  | cb :: cbs' =>
      let temp_filename := _temp_filename cb in
      if Fs.exists_ fs0 temp_filename then
        let* rs := Fs.json_load fs0 temp_filename in
        combine_temp cbs' (results ++ rs) (Fs.remove fs0 temp_filename)
      else combine_temp cbs' results fs0
  end.

Definition merge (fs0 : gmap string FileContent) : Exc (gmap string FileContent) :=
  let* results := Fs.load_if_exists fs0 output_path in
  let* merged := combine_temp (chatbots self) results fs0 in
  Ok (Fs.write_json (snd merged) output_path (fst merged)).

End Worker.

(* ===================================================================== *)
(** ** Vocabulary of the properties                                       *)
(* ===================================================================== *)

(** The kinds of failure the handler of [_query_chatbot] tells apart, read
    off its clauses in their order: the class of the exception first, then,
    for [except Exception], the adapter and the text of [ex.args[0]].
    [None]: the exception is not caught, or the handler itself fails on
    [ex.args[0]]. *)
Inductive ErrorKind :=
| Timeout
| Transient
| RateLimited
| AuthExhausted
| Unclassified.

Definition arg_has (pats : list string) (a : Arg) : bool :=
  match a with
  | ArgStr s => existsb (fun pat => Py.contains pat s) pats
  | ArgOther => false
  end.

Definition kind_of (cb : Chatbot) (ex : Exn) : option ErrorKind :=
  match exn_class ex with
  | TimeoutError => Some Timeout
  | RuntimeError => Some Transient
  | BaseExceptionOnly => None
  | OtherException =>
      match exn_args ex with
      | [] => None
      | a :: _ =>
          match cb with
          | OpenAI _ _ _ _ _ _ =>
              Some (if arg_has ["Rate limit reached"] a then RateLimited else Unclassified)
          | HuggingFace _ _ _ _ _ _ _ _ =>
              Some (if arg_has ["Model is overloaded"] a then RateLimited else Unclassified)
          | Gemini _ _ _ =>
              Some (if arg_has ["SNlM0e value not found"] a then AuthExhausted
                    else Unclassified)
          | Copilot _ _ _ _ =>
              Some (if arg_has ["CaptchaChallenge"; "Authentication failed"] a
                    then AuthExhausted else Unclassified)
          end
      end
  end.

(** The number of stored credentials of an adapter. *)
Definition credentials (cb : Chatbot) : nat :=
  match Bot.cookie_manager cb with
  | Some cm => length (CookieManager.files cm)
  | None => 0
  end.

(** The runs still owed to a prompt, from the two counts. *)
Definition deficit (self : MultiChatbot) (temp results : list ResultRecord)
    (cb_name prompt : string) : Z :=
  Z.max 0 (runs self - prompt_runs self temp results cb_name prompt).

(** The successful queries for a prompt between two values of
    [temp_results]. *)
Definition successes (before after : list ResultRecord) (prompt : string) : Z :=
  temp_count after prompt - temp_count before prompt.

(** The calls of [chatbot.query] in a trace. *)
Definition queries (tr : list Event) : nat :=
  length (List.filter (fun e => match e with EvQuery _ => true | _ => false end) tr).

(** Every turn of the script is answered by the backend. *)
Definition all_answered (script : list Turn) : Prop :=
  Forall (fun t => exists s, backend t = Ok s) script.

(** The adapter can send a request: an unofficial one has a cookie file to
    read after rotating. *)
Definition can_query (cb : Chatbot) : Prop :=
  match Bot.cookie_manager cb with
  | Some cm =>
      CookieManager.files cm <> [] /\ Forall (fun f => f <> "") (CookieManager.files cm)
      /\ CookieManager.wf cm
  | None => True
  end.

(** What the two rate limits of a turn add to the trace. *)
Definition rate_limit_events (self : MultiChatbot) (cb : Chatbot) (error_count : Z)
    (t : Turn) : list Event :=
  (if Bot.is_unofficial cb then [EvSleep (delay t)] else [])
  ++ (if max_errors self <=? error_count
      then [EvLogWaiting error_count
              (Py.round (waiting_time self error_count (cooldown t) / 60)%Q);
            EvSleep (waiting_time self error_count (cooldown t))]
      else []).

(** [w'] differs from [w] by events that are not queries (and perhaps by the
    cookie files of the adapter). *)
Definition quiet (w w' : Worker) : Prop :=
  temp_results w' = temp_results w
  /\ fs w' = fs w
  /\ Bot.name (chatbot w') = Bot.name (chatbot w)
  /\ exists post, trace w' = trace w ++ post /\ queries post = 0%nat.

(** [w'] is a later state of the worker [w]: the same adapter name, no file
    changed but the checkpoint under [path], and the checkpoint holds
    [temp_results] as soon as something was appended. *)
Record synced (path : string) (w w' : Worker) : Prop := mkSynced {
  synced_name : Bot.name (chatbot w') = Bot.name (chatbot w);
  synced_others : forall other, other <> path -> fs w' !! other = fs w !! other;
  synced_file :
    (temp_results w' = temp_results w /\ fs w' !! path = fs w !! path)
    \/ fs w' !! path = Some (Json (temp_results w'))
}.

(** A path that [load_if_exists] can read: no file, or a complete
    document. *)
Definition readable (fs0 : gmap string FileContent) (path : string) : Prop :=
  fs0 !! path = None \/ exists rs, fs0 !! path = Some (Json rs).

(** The records under a path, none if there is no complete document. *)
Definition document (fs0 : gmap string FileContent) (path : string) : list ResultRecord :=
  match fs0 !! path with
  | Some (Json rs) => rs
  | _ => []
  end.

(** Replacing a file atomically: whenever the process is killed during the
    rewrite, the file holds what it held before or the new document. *)
Definition atomic_replace : Prop :=
  forall (fs fs' : gmap string FileContent) path rs,
    Fs.killed fs (Fs.write_ops path rs) fs' ->
    fs' !! path = fs !! path \/ fs' !! path = Some (Json rs).

(* ===================================================================== *)
(** ** profiles.py                                                        *)
(* ===================================================================== *)

(** The values profiles and questions are made of, as far as [str] and [+]
    tell them apart. *)
Inductive PyValue :=
| PStr (s : string)
| PInt (z : Z)
| PBool (b : bool)
| PNone.

Module Profiles.



Definition TypeError : Exn :=
  mkExn OtherException [ArgStr "can only concatenate str to str"].


(** The attributes of a [ProfileGenerator]. A profile is a [dict], given by
    its keys in the order [for key in _dict] meets them, each with
    [_dict[key]]. *)
Record t := mk {
  profiles : list (list (PyValue * PyValue));
  questions : list PyValue
}.

(** [__init__]: [None] stands for the empty list. *)
Definition init (profiles_arg : option (list (list (PyValue * PyValue))))
    (questions_arg : option (list PyValue)) : t :=
  mk (default [] profiles_arg) (default [] questions_arg).












End Profiles.

(* ===================================================================== *)
(** ** cookies.py: reading the cookies                                    *)
(* ===================================================================== *)

(** What the getters read of an [http.cookiejar.Cookie]; [c_rest] are the
    keys of [cookie._rest]. *)
Record Cookie := mkCookie {
  c_name : string;
  c_value : string;
  c_domain : string;
  c_path : string;
  c_expires : option Z;
  c_domain_initial_dot : bool;
  c_secure : bool;
  c_discard : bool;
  c_rest : list string
}.

(** One entry of [get_cookie_list]. *)
Record CookieEntry := mkCookieEntry {
  e_domain : string;
  e_expirationDate : option Q;
  e_hostOnly : bool;
  e_httpOnly : bool;
  e_name : string;
  e_path : string;
  e_sameSite : string;
  e_secure : bool;
  e_session : bool;
  e_storeId : option string;
  e_value : string
}.

Module Getters.

(** [self.current_cookie_file] once [not self.current_cookie_file] has been
    ruled out. *)
Definition current (cm : CookieManager.t) : Exc string :=
  match CookieManager.current_cookie_file cm with
  | Some f => if CookieManager.no_current cm
              then Raise (Exception "No current cookie file.") else Ok f
  | None => Raise (Exception "No current cookie file.")
  end.

(** [not self.prefix or cookie.name.startswith(self.prefix)]. *)
Definition keep (prefix : option string) (c : Cookie) : bool :=
  match prefix with
  | None => true
  | Some p => (String.eqb p "" || String.prefix p (c_name c))%bool
  end.

(** The cookies the three getters go through. [prefix] and [browser] are the
    attributes of the manager that no method changes; [browser domain file]
    is the call [self.browser(domain_name=..., cookie_file=...)], which
    returns the cookies or raises. *)
Definition selected (prefix : option string)
    (browser : string -> string -> Exc (list Cookie)) (cm : CookieManager.t)
  : Exc (list Cookie) :=
  let* file := current cm in
  let* jar := browser (CookieManager.domain_name cm) file in
  Ok (List.filter (keep prefix) jar).

(** [get_cookie_dict]: a later cookie of the same name replaces an earlier
    one. *)
Definition get_cookie_dict (prefix : option string)
    (browser : string -> string -> Exc (list Cookie)) (cm : CookieManager.t)
  : Exc (gmap string string) :=
  let* cs := selected prefix browser cm in
  Ok (fold_left (fun d c => <[c_name c := c_value c]> d) cs ∅).

(** [get_u_cookie]: [cookie_dict.get("_U")]. *)
Definition get_u_cookie (prefix : option string)
    (browser : string -> string -> Exc (list Cookie)) (cm : CookieManager.t)
  : Exc (option string) :=
  let* d := get_cookie_dict prefix browser cm in
  Ok (d !! "_U").

Definition entry (c : Cookie) : CookieEntry :=
  mkCookieEntry (c_domain c)
    (match c_expires c with
     | Some z => if Z.eqb z 0 then None else Some (inject_Z z)
     | None => None
     end)
    (negb (c_domain_initial_dot c))
    (existsb (String.eqb "HTTPOnly") (c_rest c))
    (c_name c) (c_path c) "no_restriction" (c_secure c) (c_discard c) None (c_value c).

(** [get_cookie_list]. *)
Definition get_cookie_list (prefix : option string)
    (browser : string -> string -> Exc (list Cookie)) (cm : CookieManager.t)
  : Exc (list CookieEntry) :=
  let* cs := selected prefix browser cm in
  Ok (map entry cs).

(** The value of the last entry of a name. *)
Definition last_value (name : string) (es : list CookieEntry) : option string :=
  e_value <$> last (List.filter (fun e => String.eqb (e_name e) name) es).

End Getters.

(** What [generate_edge_cookie_files] asks of the machine: [platform.system()],
    [os.getenv], [os.path.exists], [os.listdir] and the [os.path.join] of the
    platform with two and with three arguments. *)
Record Host := mkHost {
  system : string;
  getenv : string -> option string;
  path_exists : string -> bool;
  listdir : string -> list string;
  join2 : string -> string -> string;
  join3 : string -> string -> string -> string
}.

Module Edge.

Definition TypeError : Exn :=
  mkExn OtherException [ArgStr "expected str, bytes or os.PathLike object, not NoneType"].

(** [os.path.join(os.getenv(var), rest)]. *)
Definition join_env (h : Host) (var rest : string) : Exc string :=
  match getenv h var with
  | Some v => Ok (join2 h v rest)
  | None => Raise TypeError
  end.

(** Lines 92-102: the two directories of the platform. *)
Definition directories (h : Host) : Exc (string * string) :=
  if String.eqb (system h) "Windows" then
    let* dir1 := join_env h "LOCALAPPDATA" "Microsoft/Edge/User Data" in
    Ok (dir1, "Network/Cookies")
  else if String.eqb (system h) "Darwin" then
    let* dir1 := join_env h "HOME" "Library/Application Support/Microsoft Edge" in
    Ok (dir1, "Cookies")
  else if String.eqb (system h) "Linux" then
    let* dir1 := join_env h "HOME" ".config/microsoft-edge" in
    Ok (dir1, "Cookies")
  else Raise (Exception "Unsupported platform.").

(** [generate_edge_cookie_files]. *)
Definition generate_edge_cookie_files (h : Host) (default_profile : bool)
  : Exc (list string) :=
  let* dirs := directories h in
  let dir1 := fst dirs in
  let dir2 := snd dirs in
  if negb (path_exists h dir1)
  then Raise (Exception ("Directory " ++ dir1 ++ " does not exist."))
  else
    let cookie_files :=
      map (fun folder => join3 h dir1 folder dir2)
          (List.filter (String.prefix "Profile ") (listdir h dir1)) in
    let default_cookie_file := join3 h dir1 "Default" dir2 in
    Ok (if (default_profile && path_exists h default_cookie_file)%bool
        then cookie_files ++ [default_cookie_file] else cookie_files).

End Edge.

(** The decoded JSON body of a Hugging Face response: what
    [requests.request(...).json()] returns.  An object is given by its items;
    their keys are strings. *)
#[warnings="-register-all"] Inductive Response :=
| RNull
| RBool (b : bool)
| RInt (z : Z)
| RFloat (q : Q)
| RStr (s : string)
| RList (l : list Response)
| RDict (items : list (string * Response)).

Module HuggingFaceQuery.

Definition TypeError (msg : string) : Exn := mkExn OtherException [ArgStr msg].
Definition KeyError (key : Arg) : Exn := mkExn OtherException [key].
Definition IndexError (msg : string) : Exn := mkExn OtherException [ArgStr msg].

Definition type_name (r : Response) : string :=
  match r with
  | RNull => "NoneType"
  | RBool _ => "bool"
  | RInt _ => "int"
  | RFloat _ => "float"
  | RStr _ => "str"
  | RList _ => "list"
  | RDict _ => "dict"
  end.

(** [d[key]] and [key in d] on the items of an object. *)
Fixpoint lookup (key : string) (items : list (string * Response)) : option Response :=
  match items with
  | [] => None
  | (k, v) :: items' => if String.eqb k key then Some v else lookup key items'
  end.

(** [len(r)]. *)
Definition len (r : Response) : Exc nat :=
  match r with
  | RStr s => Ok (String.length s)
  | RList l => Ok (length l)
  | RDict items => Ok (length items)
  | _ => Raise (TypeError ("object of type '" ++ type_name r ++ "' has no len()"))
  end.

(** [x == "error"]. *)
Definition is_error_text (x : Response) : bool :=
  match x with
  | RStr s => String.eqb s "error"
  | _ => false
  end.

(** ["error" in r], for the values that have a length. *)
Definition has_error (r : Response) : bool :=
  match r with
  | RStr s => Py.contains "error" s
  | RList l => existsb is_error_text l
  | RDict items => match lookup "error" items with Some _ => true | None => false end
  | _ => false
  end.

(** [r[key]] for a text [key]. *)
Definition getitem (r : Response) (key : string) : Exc Response :=
  match r with
  | RDict items =>
      match lookup key items with
      | Some v => Ok v
      | None => Raise (KeyError (ArgStr key))
      end
  | RStr _ => Raise (TypeError "string indices must be integers, not 'str'")
  | RList _ => Raise (TypeError "list indices must be integers or slices, not str")
  | _ => Raise (TypeError ("'" ++ type_name r ++ "' object is not subscriptable"))
  end.

(** [r[0]]; no key of an object is the number 0. *)
Definition getitem0 (r : Response) : Exc Response :=
  match r with
  | RList (x :: _) => Ok x
  | RList [] => Raise (IndexError "list index out of range")
  | RStr (String c _) => Ok (RStr (String c EmptyString))
  | RStr EmptyString => Raise (IndexError "string index out of range")
  | RDict _ => Raise (KeyError ArgOther)
  | _ => Raise (TypeError ("'" ++ type_name r ++ "' object is not subscriptable"))
  end.

(** [Exception(v)]. *)
Definition exception_of (v : Response) : Exn :=
  mkExn OtherException [match v with RStr s => ArgStr s | _ => ArgOther end].

(** Lines 154-160 of [HuggingFace.query]: the check of the response. *)
Definition check (response : Response) : Exc Response :=
  let* n := len response in
  if Nat.eqb n 0 then Raise (Exception "No response.")
  else if has_error response then
    let* v := getitem response "error" in
    Raise (exception_of v)
  else
    let* first := getitem0 response in
    getitem first "generated_text".

(** [HuggingFace.query] from the request on: [network] is what the request
    and the decoding of its body give. *)
Definition query (network : Exc Response) : Exc Response :=
  let* response := network in check response.

(** The message is the one the worker retries on without counting. *)
Definition overloaded (v : Response) : bool :=
  match v with
  | RStr s => Py.contains "Model is overloaded" s
  | _ => false
  end.

End HuggingFaceQuery.

Module Hosts.

(** A Linux machine with two Edge profiles, one folder whose name only
    contains the word, and the default profile. *)
Definition laptop : Host := {|
  system := "Linux";
  getenv := fun v => if String.eqb v "HOME" then Some "/home/u" else None;
  path_exists := fun p =>
    (String.eqb p "/home/u/.config/microsoft-edge"
     || String.eqb p "/home/u/.config/microsoft-edge/Default/Cookies")%bool;
  listdir := fun _ => ["Default"; "Profile 1"; "Guest Profile"; "Profile 2"];
  join2 := fun a b => (a ++ "/" ++ b)%string;
  join3 := fun a b c => (a ++ "/" ++ b ++ "/" ++ c)%string
|}.

End Hosts.

(* ===================================================================== *)
(** ** Vocabulary of further properties                                   *)
(* ===================================================================== *)

Module CookieOps.

(** The two calls that change a cookie manager; a [kill_cookie_file] that
    raises leaves it as it was. *)
Inductive Op := Rotate | Kill.

Definition apply (cm : CookieManager.t) (op : Op) : CookieManager.t :=
  match op with
  | Rotate => CookieManager.rotate_cookie_file cm
  | Kill => fst (CookieManager.kill_cookie_file cm)
  end.

Definition run (cm : CookieManager.t) (ops : list Op) : CookieManager.t :=
  fold_left apply ops cm.

Definition kills (ops : list Op) : nat :=
  length (List.filter (fun op => match op with Kill => true | Rotate => false end) ops).

End CookieOps.


(** The adapter of a later state is the adapter of the earlier one, up to
    its cookie files. *)
Definition same_adapter (cb cb' : Chatbot) : Prop :=
  Bot.name cb' = Bot.name cb
  /\ record_temperature cb' = record_temperature cb
  /\ (forall ex, kind_of cb' ex = kind_of cb ex).

(** [w'] is [w] after [added] was appended: the checkpoint is rewritten with
    all records as soon as one is appended, no other file changes, the
    progress bar advances by one per record. *)
Record extends (self : MultiChatbot) (w w' : Worker) (added : list ResultRecord)
  : Prop := mkExtends {
  ext_temp : temp_results w' = temp_results w ++ added;
  ext_fs : fs w' = match added with
                   | [] => fs w
                   | _ :: _ => <[_temp_filename self (chatbot w) := Json (temp_results w')]>
                                 (fs w)
                   end;
  ext_adapter : same_adapter (chatbot w) (chatbot w');
  ext_progress : progress w' = progress w + Z.of_nat (length added)
}.

(** The record [r] was made by adapter [cb] for prompt [p] in a turn of
    [script] that the backend answered. *)
Definition made_in (cb : Chatbot) (script : list Turn) (p : string) (r : ResultRecord)
  : Prop :=
  r_chatbot r = Bot.name cb
  /\ r_prompt r = p
  /\ r_temperature r = record_temperature cb
  /\ exists t, In t script /\ backend t = Ok (r_response r) /\ now t = r_timestamp r.

(** The prompts of [rs] come in the order of [ps]: some number of records
    for the first prompt, then some for the second, and so on. *)
Definition grouped (ps : list string) (rs : list ResultRecord) : Prop :=
  exists ks, length ks = length ps
             /\ map r_prompt rs = concat (zip_with (fun k p => replicate k p) ks ps).


(** The backend refuses the turn because of the session. *)
Definition denies (cb : Chatbot) (t : Turn) : Prop :=
  exists ex, backend t = Raise ex /\ kind_of cb ex = Some AuthExhausted.

(** Nothing is owed to any prompt of the list. *)
Definition nothing_owed (self : MultiChatbot) (temp results : list ResultRecord)
    (cb_name : string) : Prop :=
  forall p, In p (prompts self) ->
    runs self - prompt_runs self temp results cb_name p <= 0.

(** A worker seen without its file system. *)
Definition without_fs (w : Worker) : Worker :=
  mkWorker (temp_results w) ∅ (chatbot w) (progress w) (trace w).

(** Two turns, or two calls of the worker, that differ in nothing but the
    file systems they ran on. *)
Definition same_step (s1 s2 : Step) : Prop :=
  match s1, s2 with
  | Next w1 run1 ec1, Next w2 run2 ec2 =>
      without_fs w1 = without_fs w2 /\ run1 = run2 /\ ec1 = ec2
  | Abort w1 ex1, Abort w2 ex2 => without_fs w1 = without_fs w2 /\ ex1 = ex2
  | _, _ => False
  end.

Definition same_run (r1 r2 : Result) : Prop :=
  match r1, r2 with
  | Completed w1, Completed w2 | Stopped w1, Stopped w2 =>
      without_fs w1 = without_fs w2
  | Raised w1 ex1, Raised w2 ex2 => without_fs w1 = without_fs w2 /\ ex1 = ex2
  | _, _ => False
  end.

(** Two workers that started on the file systems [f1] and [f2] have both
    left them alone, or have both put their records under [path]. *)
Definition written_alike (f1 f2 : gmap string FileContent) (path : string)
    (w1 w2 : Worker) : Prop :=
  (fs w1 = f1 /\ fs w2 = f2)
  \/ (fs w1 = <[path := Json (temp_results w1)]> f1
      /\ fs w2 = <[path := Json (temp_results w2)]> f2).

Section Query.

Variable self : MultiChatbot.

(** Lines 31-42 of [query]: one process per adapter runs [_query_chatbot]
    on its own copy of the adapter, with the script of its position; the
    processes meet only in the file system. They are taken here one after
    the other, in the order of the list. *)
Fixpoint run_workers (cbs : list Chatbot) (scripts : nat -> list Turn) (i : nat)
    (fs0 : gmap string FileContent) : gmap string FileContent :=
  match cbs with
  | [] => fs0
  | cb :: cbs' =>
      run_workers cbs' scripts (S i)
        (fs (worker_of (_query_chatbot self cb (scripts i) fs0)))
  end.

(** [query], lines 24-60, the directories apart: the workers, then the
    merge. *)
Definition query (scripts : nat -> list Turn) (fs0 : gmap string FileContent)
  : Exc (gmap string FileContent) :=
  merge self (run_workers (chatbots self) scripts 0 fs0).

(** The queries the workers of [query] make. *)
Fixpoint queries_of_workers (cbs : list Chatbot) (scripts : nat -> list Turn) (i : nat)
    (fs0 : gmap string FileContent) : nat :=
  match cbs with
  | [] => 0
  | cb :: cbs' =>
      (queries (trace (worker_of (_query_chatbot self cb (scripts i) fs0)))
       + queries_of_workers cbs' scripts (S i)
           (fs (worker_of (_query_chatbot self cb (scripts i) fs0))))%nat
  end.

End Query.

Section MergeFiles.

Variable self : MultiChatbot.



End MergeFiles.

(* ===================================================================== *)
(** ** Sample runs                                                        *)
(* ===================================================================== *)

Module Samples.

Definition gpt : Chatbot := OpenAI "key" "GPT-3.5" "gpt-3.5-turbo" 60 1 2048.
Definition gemini : Chatbot :=
  Gemini (CookieManager.init "google.com" false [] (Some ["c1"])) "Gemini" 60.
Definition config : MultiChatbot :=
  mkMultiChatbot [gpt; gemini] ["a"; "b"] "temp" "output" "results.json" 2 2.

Definition answers : Turn := mkTurn 20 60 1000 (Ok "hello").
Definition refused : Turn :=
  mkTurn 20 60 1000 (Raise (Exception "Rate limit reached for requests")).
Definition broken : Turn := mkTurn 20 60 1000 (Raise (Exception "boom")).
Definition denied : Turn :=
  mkTurn 20 60 1000 (Raise (Exception "SNlM0e value not found")).

End Samples.

(* ===================================================================== *)
(** ** The cookie manager                                                 *)
(* ===================================================================== *)

Module CookieFacts.
Import CookieManager.

Lemma rotl_cons a l : rotl (a :: l) = l ++ [a].
Proof. unfold rotl. simpl. now rewrite drop_0, take_0. Qed.

Lemma rotl_length l : length (rotl l) = length l.
Proof. destruct l as [|a l]; [reflexivity|]. rewrite rotl_cons, length_app. simpl. lia. Qed.

Lemma rotl_perm l : Permutation (rotl l) l.
Proof.
  destruct l as [|a l]; [reflexivity|]. rewrite rotl_cons.
  symmetry. apply Permutation_cons_append.
Qed.

(** Shifting once per element of [pre] brings [post] to the front. *)
Lemma rotl_iter pre : forall post,
  Nat.iter (length pre) rotl (pre ++ post) = post ++ pre.
Proof.
  induction pre as [|a pre IH]; intros post.
  - simpl. now rewrite app_nil_r.
  - change (length (a :: pre)) with (S (length pre)).
    rewrite Nat.iter_succ_r. change ((a :: pre) ++ post) with (a :: (pre ++ post)).
    rewrite rotl_cons, <- app_assoc, IH, <- app_assoc. reflexivity.
Qed.

Lemma rotl_iter_length l : Nat.iter (length l) rotl l = l.
Proof. rewrite <- (app_nil_r l) at 2. rewrite rotl_iter. reflexivity. Qed.

Lemma rotl_iter_preserves_length k l : length (Nat.iter k rotl l) = length l.
Proof. induction k; simpl; [reflexivity|]. now rewrite rotl_length. Qed.

Lemma rotate_many cm l :
  cookie_files cm = Some l -> (1 < length l)%nat ->
  rotate_cookie_file cm = mk (domain_name cm) (Some (rotl l)) (head (rotl l)).
Proof.
  intros Hf Hl. unfold rotate_cookie_file. rewrite Hf.
  destruct l as [|a l]; [simpl in Hl; lia|].
  destruct (Nat.ltb_spec 1 (length (a :: l))); [reflexivity | lia].
Qed.

Lemma rotate_few cm : (length (files cm) <= 1)%nat -> rotate_cookie_file cm = cm.
Proof.
  unfold files, rotate_cookie_file. destruct (cookie_files cm) as [l|]; [|reflexivity].
  simpl. intros Hl. destruct l as [|a l]; [reflexivity|].
  destruct (Nat.ltb_spec 1 (length (a :: l))); [lia | reflexivity].
Qed.

Lemma rotate_iter_many k : forall cm l,
  cookie_files cm = Some l -> (1 < length l)%nat ->
  Nat.iter (S k) rotate_cookie_file cm
  = mk (domain_name cm) (Some (Nat.iter (S k) rotl l)) (head (Nat.iter (S k) rotl l)).
Proof.
  induction k as [|k IH]; intros cm l Hf Hl.
  - simpl. now apply rotate_many.
  - change (Nat.iter (S (S k)) rotate_cookie_file cm)
      with (rotate_cookie_file (Nat.iter (S k) rotate_cookie_file cm)).
    rewrite (IH cm l Hf Hl).
    erewrite rotate_many; [reflexivity | reflexivity |].
    change (1 < length (Nat.iter (S k) rotl l))%nat.
    rewrite rotl_iter_preserves_length. exact Hl.
Qed.

Lemma rotate_wf cm : wf cm -> wf (rotate_cookie_file cm).
Proof.
  intros Hwf. unfold rotate_cookie_file.
  destruct (cookie_files cm) as [l|] eqn:Hf; [|exact Hwf].
  destruct (truthy (Some l) && Nat.ltb 1 (length l))%bool; [reflexivity | exact Hwf].
Qed.

Lemma kill_many cm l :
  cookie_files cm = Some l -> (1 < length l)%nat ->
  kill_cookie_file cm = (mk (domain_name cm) (Some (drop 1 l)) (head (drop 1 l)), None).
Proof.
  intros Hf Hl. unfold kill_cookie_file. rewrite Hf.
  destruct l as [|a l]; [simpl in Hl; lia|].
  destruct (Nat.ltb_spec 1 (length (a :: l))); [reflexivity | lia].
Qed.

Lemma kill_few cm :
  (length (files cm) <= 1)%nat ->
  kill_cookie_file cm = (cm, Some (Exception "Cannot kill the last cookie file.")).
Proof.
  unfold files, kill_cookie_file. destruct (cookie_files cm) as [l|]; [|reflexivity].
  simpl. intros Hl. destruct l as [|a l]; [reflexivity|].
  destruct (Nat.ltb_spec 1 (length (a :: l))); [lia | reflexivity].
Qed.

Lemma init_wf domain edge generated files_arg :
  wf (init domain edge generated files_arg).
Proof.
  unfold wf, files, init. simpl.
  destruct (edge && negb (truthy files_arg))%bool.
  - destruct generated; reflexivity.
  - destruct files_arg as [[|a l]|]; reflexivity.
Qed.

End CookieFacts.

Example temp_filename_gpt :
  _temp_filename Samples.config Samples.gpt = "temp/gpt-3.5.json".
Proof. reflexivity. Qed.

(** Every query answered: two records per prompt, then the worker returns. *)
Example run_answered :
  let r := _query_chatbot Samples.config Samples.gpt (repeat Samples.answers 5) ∅ in
  is_completed r = true
  /\ map r_prompt (temp_results (worker_of r)) = ["a"; "a"; "b"; "b"]
  /\ trace (worker_of r) = [EvQuery "a"; EvQuery "a"; EvQuery "b"; EvQuery "b"]
  /\ fs (worker_of r) !! "temp/gpt-3.5.json" = Some (Json (temp_results (worker_of r))).
Proof. repeat split; reflexivity. Qed.

(** Two unrecognised failures reach the maximum of 2: the next turn starts
    with a cool-down of one draw, a refusal in between leaves the counter,
    a third failure makes it two draws. *)
Example run_escalating :
  let script := [Samples.broken; Samples.broken; Samples.refused; Samples.broken;
                 Samples.answers; Samples.answers] in
  trace (worker_of (_query_chatbot Samples.config Samples.gpt script ∅))
  = [EvQuery "a"; EvLogError [ArgStr "boom"];
     EvQuery "a"; EvLogError [ArgStr "boom"];
     EvLogWaiting 2 1; EvSleep 60; EvQuery "a";
     EvLogError [ArgStr "Rate limit reached for requests"]; EvSleep 1;
     EvLogWaiting 2 1; EvSleep 60; EvQuery "a"; EvLogError [ArgStr "boom"];
     EvLogWaiting 3 2; EvSleep 120; EvQuery "a";
     EvQuery "a"].
Proof. reflexivity. Qed.

(** A Gemini adapter with a single cookie file: the first denied session
    ends the worker, the turns that follow are not used. *)
Example run_exhausted :
  let script := [Samples.answers; Samples.denied; Samples.answers; Samples.answers] in
  let r := _query_chatbot Samples.config Samples.gemini script ∅ in
  r = Raised (worker_of r) (Exception "Cannot kill the last cookie file.")
  /\ trace (worker_of r)
     = [EvSleep 20; EvQuery "a"; EvSleep 20; EvQuery "a";
        EvLogError [ArgStr "SNlM0e value not found"]]
  /\ map r_prompt (temp_results (worker_of r)) = ["a"].
Proof. repeat split; reflexivity. Qed.

(** C9. [rotate_cookie_file] is a cyclic left shift of the credential
    sequence. With more than one credential stored, the current credential
    (the first one) goes to the end and the next one becomes current; the
    credentials are the same up to order; with at most one credential the
    call changes nothing; and as many calls as there are credentials bring
    back the original sequence and the original current credential. *)
Theorem rotate_cookie_file_cyclic (cm : CookieManager.t) :
  CookieManager.wf cm ->
  let l := CookieManager.files cm in
  let cm' := CookieManager.rotate_cookie_file cm in
  (forall c c' rest, l = c :: c' :: rest ->
     CookieManager.current_cookie_file cm = Some c
     /\ CookieManager.files cm' = c' :: rest ++ [c]
     /\ CookieManager.current_cookie_file cm' = Some c')
  /\ Permutation (CookieManager.files cm') l
  /\ ((length l <= 1)%nat -> cm' = cm)
  /\ Nat.iter (length l) CookieManager.rotate_cookie_file cm = cm.
Proof.
  intros Hwf l cm'. subst l cm'.
  destruct (le_lt_dec (length (CookieManager.files cm)) 1) as [Hfew|Hmany].
  - pose proof (CookieFacts.rotate_few cm Hfew) as Hid.
    split; [|split; [|split]].
    + intros c c' rest E. rewrite E in Hfew. simpl in Hfew. lia.
    + now rewrite Hid.
    + intros _. exact Hid.
    + induction (length (CookieManager.files cm)) as [|n IH]; [reflexivity|].
      simpl. rewrite IH; [exact Hid | lia].
  - assert (Hf : CookieManager.cookie_files cm = Some (CookieManager.files cm)).
    { unfold CookieManager.files in *.
      destruct (CookieManager.cookie_files cm); [reflexivity | simpl in Hmany; lia]. }
    pose proof (CookieFacts.rotate_many cm _ Hf Hmany) as Hrot.
    split; [|split; [|split]].
    + intros c c' rest E. rewrite Hrot, Hwf, E, CookieFacts.rotl_cons.
      unfold CookieManager.files. simpl. auto.
    + rewrite Hrot. unfold CookieManager.files at 1. simpl. apply CookieFacts.rotl_perm.
    + intros Hfew. lia.
    + assert (Hlen : exists k, length (CookieManager.files cm) = S k)
        by (exists (pred (length (CookieManager.files cm))); lia).
      destruct Hlen as [k Hlen].
      rewrite Hlen, (CookieFacts.rotate_iter_many k cm _ Hf Hmany).
      rewrite <- Hlen, CookieFacts.rotl_iter_length, <- Hwf, <- Hf.
      destruct cm; reflexivity.
Qed.

Lemma rotate_cookie_file_cyclic_witness :
  let cm := CookieManager.init "bing.com" false [] (Some ["a"; "b"; "c"]) in
  CookieManager.wf cm
  /\ CookieManager.files (CookieManager.rotate_cookie_file cm) = ["b"; "c"; "a"]
  /\ Nat.iter 3 CookieManager.rotate_cookie_file cm = cm.
Proof.
  intros cm.
  assert (Hwf : CookieManager.wf cm) by reflexivity.
  destruct (rotate_cookie_file_cyclic cm Hwf) as (Hshift & _ & _ & Hiter).
  split; [exact Hwf|]. split.
  - destruct (Hshift "a" "b" ["c"] eq_refl) as (_ & Hfiles & _). exact Hfiles.
  - exact Hiter.
Defined.

(** Writing a document leaves it under the path and nothing else changed. *)
Lemma write_json_insert (fs0 : gmap string FileContent) path rs :
  Fs.write_json fs0 path rs = <[path := Json rs]> fs0.
Proof. unfold Fs.write_json. simpl. apply insert_insert_eq. Qed.

Lemma write_json_lookup (fs0 : gmap string FileContent) path rs :
  Fs.write_json fs0 path rs !! path = Some (Json rs).
Proof. rewrite write_json_insert. apply lookup_insert_eq. Qed.

Lemma write_json_other (fs0 : gmap string FileContent) path rs other :
  other <> path -> Fs.write_json fs0 path rs !! other = fs0 !! other.
Proof. intros Hne. rewrite write_json_insert. now apply lookup_insert_ne. Qed.

(* ===================================================================== *)
(** ** One turn of the loop                                               *)
(* ===================================================================== *)

Section Turns.

Variable self : MultiChatbot.

Lemma rate_limit_spec w ec t :
  rate_limit self w ec t = emit w (rate_limit_events self (chatbot w) ec t).
Proof.
  unfold rate_limit, rate_limit_events, emit.
  destruct w as [temp fs0 cb pr tr]; simpl.
  destruct (Bot.is_unofficial cb), (max_errors self <=? ec); simpl;
    rewrite <- ?app_assoc, ?app_nil_r; reflexivity.
Qed.

Lemma queries_app tr1 tr2 : queries (tr1 ++ tr2) = (queries tr1 + queries tr2)%nat.
Proof. unfold queries. now rewrite List.filter_app, length_app. Qed.

Lemma rate_limit_events_no_query cb ec t :
  queries (rate_limit_events self cb ec t) = 0%nat.
Proof.
  unfold rate_limit_events.
  destruct (Bot.is_unofficial cb), (max_errors self <=? ec); reflexivity.
Qed.

Lemma query_name cb p b : Bot.name (fst (Bot.query cb p b)) = Bot.name cb.
Proof. destruct cb; reflexivity. Qed.

Lemma query_official cb p b :
  Bot.is_unofficial cb = false -> Bot.query cb p b = (cb, b).
Proof. destruct cb; simpl; intros H; try discriminate; reflexivity. Qed.

Ltac quiet_step :=
  split;
  [ split; [reflexivity|]; split; [reflexivity|]; split; [reflexivity|];
    eexists; split; [try rewrite <- app_assoc; reflexivity | reflexivity]
  | try reflexivity; exact I ].

(** The handlers add log entries and at most a one-second sleep, and may
    drop a cookie file; they never query, never touch the records or the
    files, and leave [run] as it is. *)
Lemma handle_quiet w ex run ec :
  quiet w (step_worker (handle w ex run ec))
  /\ match handle w ex run ec with
     | Next _ run' _ => run' = run
     | Abort _ _ => True
     end.
Proof.
  unfold handle, quiet. destruct (exn_class ex).
  - quiet_step.
  - quiet_step.
  - unfold handle_exception, first_arg_has.
    destruct w as [temp fs0 cb pr tr].
    destruct cb as [k n m to te mt | cm n to te | cm n to | k n m to te mt tp tk];
      simpl; destruct (exn_args ex) as [|[s|] args]; simpl;
      try quiet_step.
    + destruct (Py.contains "Rate limit reached" s || false)%bool; simpl; quiet_step.
    + destruct (Py.contains "CaptchaChallenge" s
                || (Py.contains "Authentication failed" s || false))%bool; simpl.
      * destruct (CookieManager.kill_cookie_file cm) as [cm' [ex'|]]; simpl; quiet_step.
      * quiet_step.
    + destruct (Py.contains "SNlM0e value not found" s || false)%bool; simpl.
      * destruct (CookieManager.kill_cookie_file cm) as [cm' [ex'|]]; simpl; quiet_step.
      * quiet_step.
    + destruct (Py.contains "Model is overloaded" s || false)%bool; simpl; quiet_step.
  - split; [|exact I]. simpl. split; [reflexivity|]. split; [reflexivity|].
    split; [reflexivity|]. exists []. split; [now rewrite app_nil_r | reflexivity].
Qed.

(** The trace of a turn: the rate limits, the query, and a rest without
    query. *)
Lemma attempt_trace w p run ec t :
  exists post,
    trace (step_worker (attempt self w p run ec t))
    = trace w ++ rate_limit_events self (chatbot w) ec t ++ EvQuery p :: post
    /\ queries post = 0%nat.
Proof.
  unfold attempt. rewrite rate_limit_spec.
  destruct (Bot.query (chatbot (emit w (rate_limit_events self (chatbot w) ec t))) p (backend t))
    as [cb' r] eqn:Hq.
  destruct r as [response|ex].
  - exists []. split; [|reflexivity]. simpl. now rewrite <- app_assoc.
  - destruct (handle_quiet
                (set_chatbot (emit (emit w (rate_limit_events self (chatbot w) ec t)) [EvQuery p]) cb')
                ex run ec) as [(_ & _ & _ & post & Htr & Hq0) _].
    exists post. split; [|exact Hq0]. rewrite Htr. simpl.
    rewrite <- !app_assoc. reflexivity.
Qed.

Lemma temp_filename_name cb cb' :
  Bot.name cb' = Bot.name cb -> _temp_filename self cb' = _temp_filename self cb.
Proof. unfold _temp_filename. now intros ->. Qed.

(** What a turn does to the records and the files: a record for the
    prompt is appended and the checkpoint rewritten, with [run] advanced
    by one, or nothing changes and [run] stays. *)
Lemma attempt_effect w p run ec t :
  let s := attempt self w p run ec t in
  synced (_temp_filename self (chatbot w)) w (step_worker s)
  /\ match s with
     | Next w' run' _ =>
         (run' = run + 1
          /\ exists rec, temp_results w' = temp_results w ++ [rec] /\ r_prompt rec = p)
         \/ (run' = run /\ temp_results w' = temp_results w)
     | Abort w' _ => temp_results w' = temp_results w
     end.
Proof.
  unfold attempt. rewrite rate_limit_spec. simpl.
  pose proof (query_name (chatbot w) p (backend t)) as Hname.
  destruct (Bot.query (chatbot w) p (backend t)) as [cb' r]. simpl in Hname.
  destruct r as [response|ex].
  - unfold store. simpl. split.
    + constructor; simpl.
      * exact Hname.
      * intros other Hne. rewrite (temp_filename_name _ _ Hname).
        now apply write_json_other.
      * right. rewrite (temp_filename_name _ _ Hname). apply write_json_lookup.
    + left. split; [reflexivity|]. eexists. split; reflexivity.
  - set (w2 := set_chatbot _ cb').
    destruct (handle_quiet w2 ex run ec) as [(Ht & Hf & Hn & _) Hrun].
    split.
    + constructor.
      * rewrite Hn. exact Hname.
      * intros other _. now rewrite Hf.
      * left. rewrite Ht, Hf. split; reflexivity.
    + destruct (handle w2 ex run ec) as [w' run' ec'|w' ex']; simpl in *.
      * right. split; [exact Hrun | exact Ht].
      * exact Ht.
Qed.

End Turns.

Lemma inject_Z_bounds k (u : Q) :
  1 <= k -> (55 <= u)%Q -> (u < 65)%Q ->
  (inject_Z k * 55 <= inject_Z k * u)%Q /\ (inject_Z k * u < inject_Z k * 65)%Q.
Proof.
  intros Hk Hlo Hhi.
  assert (Hq : (1 <= inject_Z k)%Q) by (rewrite (Zle_Qle 1 k) in Hk; exact Hk).
  split; nra.
Qed.

(** C5. In a turn entered with the failure counter at or above the
    configured maximum, the last thing the worker does before the query is
    to sleep [min(excess + 1, 10) * u] seconds, where
    [excess = counter - maximum] and [u] is the draw of
    [random.uniform(55, 65)]; for a draw in [55, 65) this lies between
    [min(excess + 1, 10) * 55] and [min(excess + 1, 10) * 65], the factor
    being between 1 and 10. In a turn entered with the counter below the
    maximum no cool-down is imposed: before the query there is nothing but
    the delay of an unofficial adapter. *)
Theorem cooldown_before_query (self : MultiChatbot) (w : Worker) (p : string)
    (run counter : Z) (t : Turn) :
  let excess := counter - max_errors self in
  let factor := Z.min (excess + 1) 10 in
  let w' := step_worker (attempt self w p run counter t) in
  (max_errors self <= counter ->
     (exists pre post,
        trace w' = trace w ++ pre ++ EvSleep (inject_Z factor * cooldown t)%Q
                                   :: EvQuery p :: post
        /\ queries pre = 0%nat /\ queries post = 0%nat)
     /\ 1 <= factor <= 10
     /\ ((55 <= cooldown t)%Q -> (cooldown t < 65)%Q ->
         (inject_Z factor * 55 <= waiting_time self counter (cooldown t))%Q
         /\ (waiting_time self counter (cooldown t) < inject_Z factor * 65)%Q))
  /\ (counter < max_errors self ->
     exists post,
       trace w' = trace w
                  ++ (if Bot.is_unofficial (chatbot w) then [EvSleep (delay t)] else [])
                  ++ EvQuery p :: post
       /\ queries post = 0%nat).
Proof.
  intros excess factor w'. subst excess factor w'.
  destruct (attempt_trace self w p run counter t) as (post & Htr & Hq0).
  split.
  - intros Hge. split; [|split].
    + unfold rate_limit_events in Htr.
      destruct (Z.leb_spec (max_errors self) counter) as [_|Hlt]; [|lia].
      exists ((if Bot.is_unofficial (chatbot w) then [EvSleep (delay t)] else [])
              ++ [EvLogWaiting counter
                    (Py.round (waiting_time self counter (cooldown t) / 60)%Q)]), post.
      split; [|split].
      * rewrite Htr. unfold waiting_time. rewrite <- !app_assoc. reflexivity.
      * destruct (Bot.is_unofficial (chatbot w)); reflexivity.
      * exact Hq0.
    + lia.
    + intros Hlo Hhi. unfold waiting_time. apply inject_Z_bounds; [lia | exact Hlo | exact Hhi].
  - intros Hlt. exists post. split; [|exact Hq0].
    rewrite Htr. unfold rate_limit_events.
    destruct (Z.leb_spec (max_errors self) counter) as [Hge|_]; [lia|].
    rewrite app_nil_r. reflexivity.
Qed.

Lemma cooldown_before_query_witness :
  let self := mkMultiChatbot [] ["p"] "temp" "output" "results.json" 1 5 in
  let cb := OpenAI "key" "GPT-3.5" "gpt-3.5-turbo" 60 1 2048 in
  let w := mkWorker [] ∅ cb 0 [] in
  let t := mkTurn 20 60 1000 (Ok "answer") in
  5 <= 7 /\ (55 <= 60)%Q /\ (60 < 65)%Q
  /\ (inject_Z 3 * 55 <= waiting_time self 7 60)%Q
  /\ (exists post, trace (step_worker (attempt self w "p" 0 2 t)) = EvQuery "p" :: post).
Proof.
  intros self cb w t.
  assert (H57 : max_errors self <= 7) by (simpl; lia).
  assert (Hlo : (55 <= cooldown t)%Q) by (simpl; lra).
  assert (Hhi : (cooldown t < 65)%Q) by (simpl; lra).
  assert (H25 : 2 < max_errors self) by (simpl; lia).
  split; [lia|]. split; [exact Hlo|]. split; [exact Hhi|]. split.
  - destruct (cooldown_before_query self w "p" 0 7 t) as [Hge _].
    destruct (Hge H57) as (_ & _ & Hb). exact (proj1 (Hb Hlo Hhi)).
  - destruct (cooldown_before_query self w "p" 0 2 t) as [_ Hlt].
    destruct (Hlt H25) as (post & Htr & _). exists post. exact Htr.
Defined.

(** C6, as the code has it. With the counter [e] above the configured
    maximum the computed cool-down is [min(e + 1, 10)] times the draw of
    [random.uniform(55, 65)]: once the draw at [e = 0], ten times the draw
    at [e = 9] and, capped, ten times the draw at [e = 15]; for a draw in
    [55, 65) it lies in [min(e + 1, 10) * 55, min(e + 1, 10) * 65). *)
Theorem escalation_cooldown (self : MultiChatbot) (e : Z) (u : Q) :
  waiting_time self (max_errors self + e) u = (inject_Z (Z.min (e + 1) 10) * u)%Q
  /\ (waiting_time self (max_errors self + 0) u == 1 * u)%Q
  /\ (waiting_time self (max_errors self + 9) u == 10 * u)%Q
  /\ (waiting_time self (max_errors self + 15) u == 10 * u)%Q
  /\ (0 <= e -> (55 <= u)%Q -> (u < 65)%Q ->
      (inject_Z (Z.min (e + 1) 10) * 55 <= waiting_time self (max_errors self + e) u)%Q
      /\ (waiting_time self (max_errors self + e) u < inject_Z (Z.min (e + 1) 10) * 65)%Q).
Proof.
  assert (Hw : forall d, waiting_time self (max_errors self + d) u
                         = (inject_Z (Z.min (d + 1) 10) * u)%Q).
  { intros d. unfold waiting_time. do 3 f_equal. lia. }
  split; [apply Hw|]. split; [rewrite Hw; reflexivity|].
  split; [rewrite Hw; reflexivity|]. split; [rewrite Hw; reflexivity|].
  intros He Hlo Hhi. rewrite Hw. apply inject_Z_bounds; [lia | exact Hlo | exact Hhi].
Qed.

Lemma escalation_cooldown_witness :
  let self := mkMultiChatbot [] ["p"] "temp" "output" "results.json" 1 5 in
  0 <= 9 /\ (55 <= 60)%Q /\ (60 < 65)%Q
  /\ (inject_Z (Z.min (9 + 1) 10) * 55 <= waiting_time self (max_errors self + 9) 60)%Q.
Proof.
  intros self.
  assert (He : 0 <= 9) by lia.
  assert (Hlo : (55 <= 60)%Q) by lra.
  assert (Hhi : (60 < 65)%Q) by lra.
  split; [exact He|]. split; [exact Hlo|]. split; [exact Hhi|].
  destruct (escalation_cooldown self 9 60) as (_ & _ & _ & _ & Hb).
  exact (proj1 (Hb He Hlo Hhi)).
Defined.

(** C6, as stated, fails at [e = 0]: with a maximum of 5, the counter at 5
    and a draw of 60 the worker computes a cool-down of 60 seconds, which is
    not [min(0, 10)] times any value. *)
Lemma escalation_bound_counterexample :
  let self := mkMultiChatbot [] ["p"] "temp" "output" "results.json" 1 5 in
  (waiting_time self (max_errors self + 0) 60 == 60)%Q
  /\ ~ (exists u', (55 <= u')%Q /\ (u' < 65)%Q
        /\ (waiting_time self (max_errors self + 0) 60 == inject_Z (Z.min 0 10) * u')%Q).
Proof.
  intros self. split; [reflexivity|].
  intros (u' & _ & _ & H).
  assert (Hw : (waiting_time self (max_errors self + 0) 60 == 60)%Q) by reflexivity.
  rewrite Hw in H. change (inject_Z (Z.min 0 10)) with 0%Q in H. lra.
Qed.

(* ===================================================================== *)
(** ** The handler, kind by kind                                          *)
(* ===================================================================== *)

Lemma kind_of_query cb p b ex : kind_of (fst (Bot.query cb p b)) ex = kind_of cb ex.
Proof. destruct cb; reflexivity. Qed.

(** What [handle] does with an exception of each kind. *)
Lemma handle_by_kind w ex run ec k :
  kind_of (chatbot w) ex = Some k ->
  let logged := emit w [EvLogError (exn_args ex)] in
  handle w ex run ec =
  match k with
  | Timeout | Transient | Unclassified => Next logged run (ec + 1)
  | RateLimited => Next (emit logged [EvSleep 1%Q]) run ec
  | AuthExhausted =>
      match Bot.kill_cookie_file (chatbot w) with
      | (cb', None) => Next (set_chatbot logged cb') run ec
      | (_, Some ex') => Abort logged ex'
      end
  end.
Proof.
  unfold kind_of, handle, handle_exception, first_arg_has.
  destruct w as [temp fs0 cb pr tr]; simpl.
  destruct (exn_class ex); simpl; intros Hk.
  - injection Hk as <-. reflexivity.
  - injection Hk as <-. reflexivity.
  - destruct (exn_args ex) as [|a args]; [discriminate|].
    destruct cb as [key n m to te mt | cm n to te | cm n to | key n m to te mt tp tk];
      simpl in *; destruct a as [s|]; simpl in *; injection Hk as <-;
      try reflexivity.
    + destruct (Py.contains "Rate limit reached" s || false)%bool; reflexivity.
    + destruct (Py.contains "CaptchaChallenge" s
                || (Py.contains "Authentication failed" s || false))%bool; [|reflexivity].
      simpl. destruct (CookieManager.kill_cookie_file cm) as [cm' [ex'|]]; reflexivity.
    + destruct (Py.contains "SNlM0e value not found" s || false)%bool; [|reflexivity].
      simpl. destruct (CookieManager.kill_cookie_file cm) as [cm' [ex'|]]; reflexivity.
    + destruct (Py.contains "Model is overloaded" s || false)%bool; reflexivity.
  - discriminate.
Qed.

(** A turn whose query raises. *)
Lemma attempt_raise self w p run ec t ex :
  snd (Bot.query (chatbot w) p (backend t)) = Raise ex ->
  attempt self w p run ec t
  = handle (set_chatbot (emit (rate_limit self w ec t) [EvQuery p])
                        (fst (Bot.query (chatbot w) p (backend t))))
           ex run ec.
Proof.
  intros Hq. unfold attempt. rewrite rate_limit_spec. simpl.
  destruct (Bot.query (chatbot w) p (backend t)) as [cb' r]. simpl in *.
  subst r. reflexivity.
Qed.

(** A turn whose query returns. *)
Lemma attempt_return self w p run ec t response :
  snd (Bot.query (chatbot w) p (backend t)) = Ok response ->
  attempt self w p run ec t
  = store self (set_chatbot (emit (rate_limit self w ec t) [EvQuery p])
                            (fst (Bot.query (chatbot w) p (backend t))))
          p t response run.
Proof.
  intros Hq. unfold attempt. rewrite rate_limit_spec. simpl.
  destruct (Bot.query (chatbot w) p (backend t)) as [cb' r]. simpl in *.
  subst r. reflexivity.
Qed.

(** C8. A query that fails with a time-out ([asyncio.TimeoutError]), with a
    transient failure ([RuntimeError]) or with a failure the handler does
    not recognise leaves the run count as it is and adds one to the
    failure counter; after the query only the log entry follows, no sleep.
    A query that returns puts the counter back to zero (and counts as a
    run). *)
Theorem failure_counter_dynamics (self : MultiChatbot) (w : Worker) (p : string)
    (run counter : Z) (t : Turn) :
  let before := trace (rate_limit self w counter t) in
  (forall ex k,
     snd (Bot.query (chatbot w) p (backend t)) = Raise ex ->
     kind_of (chatbot w) ex = Some k ->
     k = Timeout \/ k = Transient \/ k = Unclassified ->
     exists w',
       attempt self w p run counter t = Next w' run (counter + 1)
       /\ trace w' = before ++ [EvQuery p; EvLogError (exn_args ex)]
       /\ temp_results w' = temp_results w /\ fs w' = fs w)
  /\ (forall response,
     snd (Bot.query (chatbot w) p (backend t)) = Ok response ->
     exists w',
       attempt self w p run counter t = Next w' (run + 1) 0
       /\ trace w' = before ++ [EvQuery p]).
Proof.
  intros before. subst before. split.
  - intros ex k Hq Hk Hcases.
    rewrite (attempt_raise self w p run counter t ex Hq).
    set (w2 := set_chatbot _ _).
    assert (Hk2 : kind_of (chatbot w2) ex = Some k).
    { subst w2. simpl. rewrite kind_of_query. exact Hk. }
    rewrite (handle_by_kind w2 ex run counter k Hk2).
    exists (emit w2 [EvLogError (exn_args ex)]).
    split; [destruct Hcases as [->|[->| ->]]; reflexivity|].
    subst w2. rewrite rate_limit_spec. simpl.
    split; [now rewrite <- !app_assoc | split; reflexivity].
  - intros response Hq.
    rewrite (attempt_return self w p run counter t response Hq).
    unfold store. eexists. split; [reflexivity|]. reflexivity.
Qed.

Lemma failure_counter_dynamics_witness :
  let self := mkMultiChatbot [] ["p"] "temp" "output" "results.json" 1 5 in
  let cb := OpenAI "key" "GPT-3.5" "gpt-3.5-turbo" 60 1 2048 in
  let w := mkWorker [] ∅ cb 0 [] in
  let boom := mkTurn 20 60 1000 (Raise (Exception "boom")) in
  let late := mkTurn 20 60 1000 (Raise (mkExn TimeoutError [])) in
  let fine := mkTurn 20 60 1000 (Ok "answer") in
  (exists w', attempt self w "p" 0 3 boom = Next w' 0 (3 + 1))
  /\ (exists w', attempt self w "p" 0 3 late = Next w' 0 (3 + 1))
  /\ (exists w', attempt self w "p" 0 3 fine = Next w' (0 + 1) 0).
Proof.
  intros self cb w boom late fine. split; [|split].
  - destruct (failure_counter_dynamics self w "p" 0 3 boom) as [Hfail _].
    destruct (Hfail (Exception "boom") Unclassified eq_refl eq_refl
                (or_intror (or_intror eq_refl))) as (w' & Hw' & _).
    exists w'. exact Hw'.
  - destruct (failure_counter_dynamics self w "p" 0 3 late) as [Hfail _].
    destruct (Hfail (mkExn TimeoutError []) Timeout eq_refl eq_refl
                (or_introl eq_refl)) as (w' & Hw' & _).
    exists w'. exact Hw'.
  - destruct (failure_counter_dynamics self w "p" 0 3 fine) as [_ Hok].
    destruct (Hok "answer" eq_refl) as (w' & Hw' & _).
    exists w'. exact Hw'.
Defined.

(** C3, as the code has it. When a query fails with a rate-limit error
    (OpenAI answering "Rate limit reached", Hugging Face answering "Model is
    overloaded"), the worker logs it and pauses one second before the next
    turn; the run count is not changed, and the failure counter is left as
    it is, neither incremented nor put back to zero. *)
Theorem rate_limited_retry (self : MultiChatbot) (w : Worker) (p : string)
    (run counter : Z) (t : Turn) (ex : Exn) :
  backend t = Raise ex ->
  kind_of (chatbot w) ex = Some RateLimited ->
  exists w',
    attempt self w p run counter t = Next w' run counter
    /\ trace w' = trace (rate_limit self w counter t)
                  ++ [EvQuery p; EvLogError (exn_args ex); EvSleep 1%Q]
    /\ temp_results w' = temp_results w /\ fs w' = fs w.
Proof.
  intros Hb Hk.
  assert (Hoff : Bot.is_unofficial (chatbot w) = false).
  { unfold kind_of in Hk. destruct (exn_class ex); try discriminate.
    destruct (exn_args ex); [discriminate|].
    destruct (chatbot w); try reflexivity;
      simpl in Hk; match type of Hk with Some (if ?c then _ else _) = _ =>
                     destruct c end; discriminate. }
  assert (Hq : Bot.query (chatbot w) p (backend t) = (chatbot w, Raise ex)).
  { rewrite query_official by exact Hoff. now rewrite Hb. }
  rewrite (attempt_raise self w p run counter t ex) by (now rewrite Hq).
  set (w2 := set_chatbot _ _).
  assert (Hk2 : kind_of (chatbot w2) ex = Some RateLimited).
  { subst w2. simpl. rewrite kind_of_query. exact Hk. }
  rewrite (handle_by_kind w2 ex run counter RateLimited Hk2).
  eexists. split; [reflexivity|].
  subst w2. rewrite rate_limit_spec. simpl.
  split; [now rewrite <- !app_assoc | split; reflexivity].
Qed.

Lemma rate_limited_retry_witness :
  let self := mkMultiChatbot [] ["p"] "temp" "output" "results.json" 1 5 in
  let cb := OpenAI "key" "GPT-3.5" "gpt-3.5-turbo" 60 1 2048 in
  let w := mkWorker [] ∅ cb 0 [] in
  let ex := Exception "Rate limit reached for requests" in
  let t := mkTurn 20 60 1000 (Raise ex) in
  exists w', attempt self w "p" 0 3 t = Next w' 0 3.
Proof.
  intros self cb w ex t.
  destruct (rate_limited_retry self w "p" 0 3 t ex eq_refl eq_refl) as (w' & Hw' & _).
  exists w'. exact Hw'.
Defined.

(** C3, as stated, fails: an OpenAI adapter whose query is refused with
    "Rate limit reached" while the failure counter is 3 goes on with the
    counter at 3, not at zero. *)
Lemma rate_limit_counter_counterexample :
  let self := mkMultiChatbot [] ["p"] "temp" "output" "results.json" 1 5 in
  let cb := OpenAI "key" "GPT-3.5" "gpt-3.5-turbo" 60 1 2048 in
  let w := mkWorker [] ∅ cb 0 [] in
  let ex := Exception "Rate limit reached for requests" in
  let t := mkTurn 20 60 1000 (Raise ex) in
  kind_of cb ex = Some RateLimited
  /\ (exists w', attempt self w "p" 0 3 t = Next w' 0 3)
  /\ ~ (exists w', attempt self w "p" 0 3 t = Next w' 0 0).
Proof.
  intros self cb w ex t. split; [reflexivity|]. split.
  - eexists. reflexivity.
  - intros (w' & H). vm_compute in H. discriminate.
Qed.

(* ===================================================================== *)
(** ** Rewriting the checkpoint                                           *)
(* ===================================================================== *)

(** The states a kill can leave while a checkpoint is rewritten. *)
Lemma killed_write_cases (fs0 fs' : gmap string FileContent) path rs :
  Fs.killed fs0 (Fs.write_ops path rs) fs' ->
  fs' = fs0 \/ fs' = <[path := Empty]> fs0
  \/ (exists n, fs' = <[path := Partial rs n]> fs0)
  \/ fs' = <[path := Json rs]> fs0.
Proof.
  unfold Fs.write_ops. intros H.
  inversion H as [ | | op ops fs1 H1]; subst; [now left|].
  simpl in H1.
  inversion H1 as [ | p' rs' n ops' | op ops fs2 H2]; subst.
  - right; left; reflexivity.
  - right; right; left. exists n. apply insert_insert_eq.
  - simpl in H2. right; right; right.
    inversion H2 as [ | | op ops fs3 H3]; subst; [apply insert_insert_eq|].
    simpl in H3. inversion H3; subst. apply insert_insert_eq.
Qed.

(** C4, as the code has it. After a successful query the worker rewrites
    the adapter's checkpoint in place: it opens the file with mode ["w"],
    which truncates it, and then writes the whole list. Once the call has
    returned the file holds every record, the new one last, and no other
    file has changed. A kill during the rewrite leaves the checkpoint with
    its prior content (before the file is opened), empty, with a part of the
    new text, or with the new document; no other file is touched. *)
Theorem checkpoint_rewrite_in_place (self : MultiChatbot) (w : Worker) (p : string)
    (t : Turn) (response : string) (run : Z) :
  let path := _temp_filename self (chatbot w) in
  let rec := mkRecord (now t) (Bot.name (chatbot w)) p
                      (record_temperature (chatbot w)) response in
  let temp := temp_results w ++ [rec] in
  (exists w',
     store self w p t response run = Next w' (run + 1) 0
     /\ temp_results w' = temp
     /\ fs w' !! path = Some (Json temp)
     /\ forall other, other <> path -> fs w' !! other = fs w !! other)
  /\ (forall fs',
        Fs.killed (fs w) (Fs.write_ops path temp) fs' ->
        (fs' !! path = fs w !! path
         \/ fs' !! path = Some Empty
         \/ (exists n, fs' !! path = Some (Partial temp n))
         \/ fs' !! path = Some (Json temp))
        /\ forall other, other <> path -> fs' !! other = fs w !! other).
Proof.
  intros path rec temp. split.
  - eexists. split; [reflexivity|]. simpl. split; [reflexivity|]. split.
    + apply write_json_lookup.
    + intros other Hne. now apply write_json_other.
  - intros fs' Hk.
    destruct (killed_write_cases _ _ _ _ Hk) as [-> | [-> | [[n ->] | ->]]].
    + split; [now left | reflexivity].
    + split; [right; left; apply lookup_insert_eq|].
      intros other Hne. now apply lookup_insert_ne.
    + split; [right; right; left; exists n; apply lookup_insert_eq|].
      intros other Hne. now apply lookup_insert_ne.
    + split; [right; right; right; apply lookup_insert_eq|].
      intros other Hne. now apply lookup_insert_ne.
Qed.

Lemma checkpoint_rewrite_in_place_witness :
  let self := mkMultiChatbot [] ["p"] "temp" "output" "results.json" 2 5 in
  let cb := OpenAI "key" "GPT-3.5" "gpt-3.5-turbo" 60 1 2048 in
  let old := mkRecord 999 "GPT-3.5" "p" (JNumber 1) "first" in
  let new := mkRecord 1000 "GPT-3.5" "p" (JNumber 1) "second" in
  let fs0 : gmap string FileContent := {[ "temp/gpt-3.5.json" := Json [old] ]} in
  let w := mkWorker [old] fs0 cb 1 [] in
  let t := mkTurn 20 60 1000 (Ok "second") in
  let fs' := <[ "temp/gpt-3.5.json" := Empty ]> fs0 in
  Fs.killed fs0 (Fs.write_ops "temp/gpt-3.5.json" [old; new]) fs'
  /\ forall other, other <> "temp/gpt-3.5.json" -> fs' !! other = fs0 !! other.
Proof.
  intros self cb old new fs0 w t fs'.
  assert (Hk : Fs.killed (fs w)
                 (Fs.write_ops (_temp_filename self (chatbot w))
                    (temp_results w ++ [mkRecord (now t) (Bot.name (chatbot w)) "p"
                                          (record_temperature (chatbot w)) "second"]))
                 fs').
  { apply Fs.killed_later. apply Fs.killed_here. }
  split; [exact Hk|].
  destruct (checkpoint_rewrite_in_place self w "p" t "second" 0) as [_ Hkill].
  exact (proj2 (Hkill fs' Hk)).
Defined.

(** C4, as stated, fails: the rewrite is not an atomic replace. A checkpoint
    that holds one record is empty, the record lost, when the process is
    killed right after the file has been opened for the rewrite. *)
Lemma checkpoint_durability_counterexample :
  let old := mkRecord 999 "GPT-3.5" "p" (JNumber 1) "first" in
  let new := mkRecord 1000 "GPT-3.5" "p" (JNumber 1) "second" in
  let path := "temp/gpt-3.5.json" in
  let fs0 : gmap string FileContent := {[ path := Json [old] ]} in
  let fs' := <[ path := Empty ]> fs0 in
  Fs.killed fs0 (Fs.write_ops path [old; new]) fs'
  /\ fs0 !! path = Some (Json [old])
  /\ fs' !! path = Some Empty
  /\ ~ atomic_replace.
Proof.
  intros old new path fs0 fs'.
  assert (Hk : Fs.killed fs0 (Fs.write_ops path [old; new]) fs').
  { apply Fs.killed_later. apply Fs.killed_here. }
  split; [exact Hk|]. split; [reflexivity|]. split; [reflexivity|].
  intros Hatomic. destruct (Hatomic fs0 fs' path [old; new] Hk) as [H|H];
    vm_compute in H; discriminate.
Qed.

(* ===================================================================== *)
(** ** The merge                                                          *)
(* ===================================================================== *)

Section Merge.

Variable self : MultiChatbot.

Lemma load_readable (fs0 : gmap string FileContent) path :
  readable fs0 path -> Fs.load_if_exists fs0 path = Ok (document fs0 path).
Proof.
  unfold readable, Fs.load_if_exists, Fs.exists_, Fs.json_load, document.
  intros [-> | [rs ->]]; reflexivity.
Qed.

(** Folding the checkpoints in: the records are appended in the order of
    the adapters, every checkpoint is gone afterwards, no other path has
    changed. *)
Lemma combine_temp_spec cbs : forall results (fs0 : gmap string FileContent),
  NoDup (map (_temp_filename self) cbs) ->
  Forall (fun cb => readable fs0 (_temp_filename self cb)) cbs ->
  exists fs1,
    combine_temp self cbs results fs0
    = Ok (results ++ concat (map (fun cb => document fs0 (_temp_filename self cb)) cbs),
          fs1)
    /\ (forall cb, In cb cbs -> fs1 !! _temp_filename self cb = None)
    /\ (forall path, ~ In path (map (_temp_filename self) cbs) ->
        fs1 !! path = fs0 !! path).
Proof.
  induction cbs as [|cb cbs IH]; intros results fs0 Hnd Hread.
  - exists fs0. simpl. rewrite app_nil_r.
    split; [reflexivity|]. split; [intros cb []|reflexivity].
  - apply NoDup_cons in Hnd as [Hnotin Hnd].
    apply Forall_cons in Hread as [Hcb Hread].
    assert (Hsame : forall fs1 : gmap string FileContent,
               (forall path, path <> _temp_filename self cb -> fs1 !! path = fs0 !! path) ->
               Forall (fun cb' => readable fs1 (_temp_filename self cb')) cbs
               /\ map (fun cb' => document fs1 (_temp_filename self cb')) cbs
                  = map (fun cb' => document fs0 (_temp_filename self cb')) cbs).
    { intros fs1 Hfs1. split.
      - rewrite Forall_forall in *. intros cb' Hin.
        assert (Hne : _temp_filename self cb' <> _temp_filename self cb).
        { intros E. apply Hnotin. rewrite <- E. apply list_elem_of_In.
          apply in_map. apply list_elem_of_In. exact Hin. }
        unfold readable. rewrite (Hfs1 _ Hne). apply Hread. exact Hin.
      - apply map_ext_in. intros cb' Hin.
        assert (Hne : _temp_filename self cb' <> _temp_filename self cb).
        { intros E. apply Hnotin. rewrite <- E. apply list_elem_of_In.
          now apply in_map. }
        unfold document. now rewrite (Hfs1 _ Hne). }
    simpl. unfold Fs.exists_, Fs.json_load, Fs.remove.
    destruct Hcb as [Hnone | [rs Hsome]].
    + rewrite Hnone.
      destruct (IH results fs0 Hnd Hread) as (fs1 & Hres & Hgone & Hkeep).
      exists fs1. split; [|split].
      * rewrite Hres. unfold document at 2. rewrite Hnone. reflexivity.
      * intros cb' [<- | Hin]; [|now apply Hgone].
        destruct (in_dec string_dec (_temp_filename self cb)
                    (map (_temp_filename self) cbs)) as [Hin'|Hnin].
        -- apply list_elem_of_In in Hin'. contradiction.
        -- rewrite (Hkeep _ Hnin). exact Hnone.
      * intros path Hnin. apply Hkeep. intros Hin. apply Hnin. now right.
    + rewrite Hsome. simpl.
      destruct (Hsame (delete (_temp_filename self cb) fs0)) as [Hread' Hdocs].
      { intros path Hne. now apply lookup_delete_ne. }
      destruct (IH (results ++ rs) (delete (_temp_filename self cb) fs0) Hnd Hread')
        as (fs1 & Hres & Hgone & Hkeep).
      exists fs1. split; [|split].
      * rewrite Hres, Hdocs. unfold document at 2. rewrite Hsome.
        now rewrite <- app_assoc.
      * intros cb' [<- | Hin]; [|now apply Hgone].
        destruct (in_dec string_dec (_temp_filename self cb)
                    (map (_temp_filename self) cbs)) as [Hin'|Hnin].
        -- apply list_elem_of_In in Hin'. contradiction.
        -- rewrite (Hkeep _ Hnin). apply lookup_delete_eq.
      * intros path Hnin. rewrite Hkeep.
        -- apply lookup_delete_ne. intros E. apply Hnin. left. exact E.
        -- intros Hin. apply Hnin. now right.
Qed.

End Merge.

(** The merge for any number of adapters whose checkpoints are different
    files, none of them the output file. *)
Lemma merge_spec (self : MultiChatbot) (fs0 : gmap string FileContent) :
  NoDup (map (_temp_filename self) (chatbots self)) ->
  ~ In (output_path self) (map (_temp_filename self) (chatbots self)) ->
  readable fs0 (output_path self) ->
  Forall (fun cb => readable fs0 (_temp_filename self cb)) (chatbots self) ->
  exists fs',
    merge self fs0 = Ok fs'
    /\ fs' !! output_path self
       = Some (Json (document fs0 (output_path self)
                     ++ concat (map (fun cb => document fs0 (_temp_filename self cb))
                                    (chatbots self))))
    /\ (forall cb, In cb (chatbots self) -> fs' !! _temp_filename self cb = None)
    /\ (forall path, path <> output_path self ->
        ~ In path (map (_temp_filename self) (chatbots self)) ->
        fs' !! path = fs0 !! path).
Proof.
  intros Hnd Hout Hro Hrt. unfold merge.
  rewrite (load_readable fs0 _ Hro). simpl.
  destruct (combine_temp_spec self (chatbots self) (document fs0 (output_path self))
              fs0 Hnd Hrt) as (fs1 & Hres & Hgone & Hkeep).
  rewrite Hres. simpl. eexists. split; [reflexivity|]. split; [|split].
  - apply write_json_lookup.
  - intros cb Hin. rewrite write_json_other; [now apply Hgone|].
    intros E. apply Hout. rewrite <- E. now apply in_map.
  - intros path Hne Hnin. rewrite write_json_other by exact Hne. now apply Hkeep.
Qed.

(** C2. With two adapters whose checkpoints are different files (and not
    the output file), the merge reads the output file if there is one
    ([j] records), appends the first adapter's checkpoint ([m] records) and
    then the second's ([k] records), removes both checkpoints and writes
    the [j + m + k] records back: the prior output first and unchanged,
    every checkpoint record once, nothing else. *)
Theorem merge_two_checkpoints (self : MultiChatbot) (a b : Chatbot)
    (fs0 : gmap string FileContent) :
  chatbots self = [a; b] ->
  _temp_filename self a <> _temp_filename self b ->
  output_path self <> _temp_filename self a ->
  output_path self <> _temp_filename self b ->
  readable fs0 (output_path self) ->
  readable fs0 (_temp_filename self a) ->
  readable fs0 (_temp_filename self b) ->
  let prior := document fs0 (output_path self) in
  let of_a := document fs0 (_temp_filename self a) in
  let of_b := document fs0 (_temp_filename self b) in
  exists fs',
    merge self fs0 = Ok fs'
    /\ fs' !! output_path self = Some (Json (prior ++ of_a ++ of_b))
    /\ length (document fs' (output_path self))
       = (length of_a + length of_b + length prior)%nat
    /\ fs' !! _temp_filename self a = None
    /\ fs' !! _temp_filename self b = None
    /\ (forall path, path <> output_path self -> path <> _temp_filename self a ->
        path <> _temp_filename self b -> fs' !! path = fs0 !! path).
Proof.
  intros Hcbs Hab Hoa Hob Hro Hra Hrb prior of_a of_b.
  destruct (merge_spec self fs0) as (fs' & Hm & Hout & Hgone & Hkeep).
  - rewrite Hcbs. simpl. apply NoDup_cons. split.
    + intros Hin. apply list_elem_of_In in Hin. simpl in Hin. destruct Hin as [E|[]].
      now apply Hab.
    + apply NoDup_singleton.
  - rewrite Hcbs. simpl. intros [E|[E|[]]]; [now apply Hoa | now apply Hob].
  - exact Hro.
  - rewrite Hcbs. constructor; [exact Hra|]. constructor; [exact Hrb|]. constructor.
  - rewrite Hcbs in Hout, Hgone, Hkeep. simpl in Hout. rewrite app_nil_r in Hout.
    exists fs'. split; [exact Hm|]. split; [exact Hout|]. split; [|split; [|split]].
    + unfold document at 1. rewrite Hout. subst prior of_a of_b.
      rewrite !length_app. lia.
    + apply Hgone. now left.
    + apply Hgone. right. now left.
    + intros path Hno Hna Hnb. apply Hkeep; [exact Hno|].
      simpl. intros [E|[E|[]]]; congruence.
Qed.

Lemma merge_two_checkpoints_witness :
  let gpt := OpenAI "key" "GPT-3.5" "gpt-3.5-turbo" 60 1 2048 in
  let llama := HuggingFace "key" "Llama 2" "meta-llama/Llama-2-70b-chat-hf" 60 (6 # 10)
                 2048 (9 # 10) 0 in
  let self := mkMultiChatbot [gpt; llama] ["p"] "temp" "output" "results.json" 2 5 in
  let r1 := mkRecord 1 "GPT-3.5" "p" (JNumber 1) "one" in
  let r2 := mkRecord 2 "GPT-3.5" "p" (JNumber 1) "two" in
  let r3 := mkRecord 3 "Llama 2" "p" (JNumber (6 # 10)) "three" in
  let r0 := mkRecord 0 "Gemini" "p" JNull "zero" in
  let fs0 : gmap string FileContent :=
    {[ "output/results.json" := Json [r0];
       "temp/gpt-3.5.json" := Json [r1; r2];
       "temp/llama 2.json" := Json [r3] ]} in
  exists fs',
    merge self fs0 = Ok fs'
    /\ fs' !! "output/results.json" = Some (Json [r0; r1; r2; r3])
    /\ fs' !! "temp/gpt-3.5.json" = None
    /\ fs' !! "temp/llama 2.json" = None.
Proof.
  intros gpt llama self r1 r2 r3 r0 fs0.
  destruct (merge_two_checkpoints self gpt llama fs0)
    as (fs' & Hm & Hout & _ & Hga & Hgb & _).
  - reflexivity.
  - vm_compute. discriminate.
  - vm_compute. discriminate.
  - vm_compute. discriminate.
  - right. exists [r0]. reflexivity.
  - right. exists [r1; r2]. reflexivity.
  - right. exists [r3]. reflexivity.
  - exists fs'. split; [exact Hm|]. split; [exact Hout|]. split; [exact Hga | exact Hgb].
Defined.

(* ===================================================================== *)
(** ** The loops                                                          *)
(* ===================================================================== *)

Section Loops.

Variable self : MultiChatbot.

Lemma synced_refl path w : synced path w w.
Proof. constructor; [reflexivity | reflexivity | left; split; reflexivity]. Qed.

Lemma synced_trans path w0 w1 w2 :
  synced path w0 w1 -> synced path w1 w2 -> synced path w0 w2.
Proof.
  intros [Hn1 Ho1 Hf1] [Hn2 Ho2 Hf2]. constructor.
  - now rewrite Hn2.
  - intros other Hne. now rewrite Ho2, Ho1.
  - destruct Hf2 as [[Ht2 Hp2]|Hj2]; [|now right].
    destruct Hf1 as [[Ht1 Hp1]|Hj1].
    + left. split; [now rewrite Ht2 | now rewrite Hp2].
    + right. now rewrite Hp2, Ht2.
Qed.

Lemma temp_count_app l1 l2 q :
  temp_count (l1 ++ l2) q = temp_count l1 q + temp_count l2 q.
Proof. unfold temp_count, Py.count. rewrite List.filter_app, length_app. lia. Qed.

Lemma temp_count_nonneg l q : 0 <= temp_count l q.
Proof. unfold temp_count, Py.count. lia. Qed.

Lemma results_count_nonneg l n q : 0 <= results_count l n q.
Proof. unfold results_count, Py.count. lia. Qed.

Lemma temp_count_same added p :
  Forall (fun r => r_prompt r = p) added ->
  temp_count added p = Z.of_nat (length added).
Proof.
  unfold temp_count, Py.count. induction 1 as [|r l Hr _ IH]; [reflexivity|].
  simpl. rewrite Hr, String.eqb_refl. simpl. lia.
Qed.

Lemma temp_count_other added p q :
  Forall (fun r => r_prompt r = p) added -> q <> p -> temp_count added q = 0.
Proof.
  unfold temp_count, Py.count. intros Hall Hne.
  induction Hall as [|r l Hr _ IH]; [reflexivity|].
  simpl. rewrite Hr. destruct (String.eqb_spec p q) as [E|_]; [congruence|].
  exact IH.
Qed.

(** The [while] loop of a prompt appends records of that prompt only, and
    never more than [bound - run] of them; it appends exactly that many
    when it is left normally. *)
Lemma while_runs_spec p bound : forall script w run ec,
  exists added,
    temp_results (worker_of (fst (while_runs self p bound script w run ec)))
    = temp_results w ++ added
    /\ Forall (fun rec => r_prompt rec = p) added
    /\ synced (_temp_filename self (chatbot w)) w
              (worker_of (fst (while_runs self p bound script w run ec)))
    /\ run + Z.of_nat (length added) <= Z.max run bound
    /\ (is_completed (fst (while_runs self p bound script w run ec)) = true ->
        run + Z.of_nat (length added) = Z.max run bound).
Proof.
  induction script as [|t script IH]; intros w run ec; simpl.
  - destruct (Z.ltb_spec run bound); simpl;
      (exists []; rewrite app_nil_r; split; [reflexivity|]; split; [constructor|];
       split; [apply synced_refl|]; simpl; split; [lia|]; intros; try discriminate; lia).
  - destruct (Z.ltb_spec run bound) as [Hlt|Hge]; simpl.
    2:{ exists []. rewrite app_nil_r. split; [reflexivity|]. split; [constructor|].
        split; [apply synced_refl|]. simpl. split; [lia|]. intros _. lia. }
    destruct (attempt_effect self w p run ec t) as [Hsync Hcase].
    destruct (attempt self w p run ec t) as [w' run' ec'|w' ex]; simpl in *.
    + destruct (IH w' run' ec') as (added & Ht & Hall & Hs & Hle & Heq).
      rewrite (temp_filename_name self _ _ (synced_name _ _ _ Hsync)) in Hs.
      destruct Hcase as [[-> (rec & Hrec & Hp)] | [-> Hsame]].
      * exists (rec :: added). split; [rewrite Ht, Hrec, <- app_assoc; reflexivity|].
        split; [constructor; assumption|].
        split; [eapply synced_trans; eassumption|].
        simpl length. split; [lia|]. intros Hc. specialize (Heq Hc). lia.
      * exists added. split; [rewrite Ht, Hsame; reflexivity|].
        split; [assumption|].
        split; [eapply synced_trans; eassumption|].
        split; [lia|]. exact Heq.
    + exists []. rewrite app_nil_r. split; [exact Hcase|]. split; [constructor|].
      split; [exact Hsync|]. simpl. split; [lia|]. intros; discriminate.
Qed.

(** The arithmetic of the remaining runs: after [l] of the [d] runs owed
    to a prompt have been added to the checkpoint, [d - l] are owed. *)
Lemma deficit_after (c r l : Z) :
  0 <= runs self -> 0 <= c -> 0 <= r ->
  0 <= l <= Z.max 0 (runs self - (Z.min c (runs self) + Z.min r (runs self))) ->
  Z.max 0 (runs self - (Z.min (c + l) (runs self) + Z.min r (runs self))) + l
  = Z.max 0 (runs self - (Z.min c (runs self) + Z.min r (runs self))).
Proof. lia. Qed.

(** The loop over the prompts: for every prompt text, whatever its
    positions in the list, the records appended are at most the runs owed
    to it at the start, and exactly those once the loop is through. *)
Lemma for_prompts_spec results ps : forall script w,
  0 <= runs self ->
  exists added,
    temp_results (worker_of (for_prompts self results ps script w))
    = temp_results w ++ added
    /\ synced (_temp_filename self (chatbot w)) w
              (worker_of (for_prompts self results ps script w))
    /\ (forall q, 0 <= temp_count added q
                  <= deficit self (temp_results w) results (Bot.name (chatbot w)) q)
    /\ (forall q, ~ In q ps -> temp_count added q = 0)
    /\ (is_completed (for_prompts self results ps script w) = true ->
        forall q, In q ps ->
          temp_count added q
          = deficit self (temp_results w) results (Bot.name (chatbot w)) q).
Proof.
  induction ps as [|p ps IH]; intros script w Hruns.
  - exists []. rewrite app_nil_r. simpl. split; [reflexivity|].
    split; [apply synced_refl|]. split; [|split].
    + intros q. unfold deficit, temp_count, Py.count. simpl. lia.
    + reflexivity.
    + intros _ q [].
  - simpl.
    set (bound := runs self - prompt_runs self (temp_results w) results
                                (Bot.name (chatbot w)) p).
    destruct (while_runs_spec p bound script w 0 0)
      as (a1 & Ht1 & Hall1 & Hs1 & Hle1 & Heq1).
    assert (Hd : Z.max 0 bound
                 = deficit self (temp_results w) results (Bot.name (chatbot w)) p)
      by reflexivity.
    assert (Hother : forall q, q <> p ->
               deficit self (temp_results w ++ a1) results (Bot.name (chatbot w)) q
               = deficit self (temp_results w) results (Bot.name (chatbot w)) q).
    { intros q Hne. unfold deficit, prompt_runs.
      now rewrite temp_count_app, (temp_count_other a1 p q Hall1 Hne), Z.add_0_r. }
    destruct (while_runs self p bound script w 0 0) as [r1 rest] eqn:Hw.
    simpl in Ht1, Hs1, Heq1.
    destruct r1 as [w1|w1 ex|w1]; simpl in *.
    + (* the loop of [p] was left normally *)
      specialize (Heq1 eq_refl).
      destruct (IH rest w1 Hruns) as (a2 & Ht2 & Hs2 & Hle2 & Hnot2 & Heq2).
      pose proof (synced_name _ _ _ Hs1) as Hn1.
      rewrite (temp_filename_name self _ _ Hn1) in Hs2.
      rewrite Hn1, Ht1 in Hle2, Heq2.
      assert (Hsum : forall q, temp_count (a1 ++ a2) q
                               = temp_count a1 q + temp_count a2 q)
        by (intros; apply temp_count_app).
      assert (Hp0 : temp_count a2 p = 0).
      { pose proof (Hle2 p) as Hb. unfold deficit, prompt_runs in Hb, Hd, Hle1.
        rewrite temp_count_app, (temp_count_same a1 p Hall1) in Hb.
        pose proof (temp_count_nonneg (temp_results w) p).
        pose proof (results_count_nonneg results (Bot.name (chatbot w)) p).
        pose proof (deficit_after (temp_count (temp_results w) p)
                      (results_count results (Bot.name (chatbot w)) p)
                      (Z.of_nat (length a1)) Hruns) as Hda.
        unfold prompt_runs in bound. subst bound. lia. }
      exists (a1 ++ a2). split; [rewrite Ht2, Ht1, <- app_assoc; reflexivity|].
      split; [eapply synced_trans; eassumption|]. split; [|split].
      * intros q. rewrite Hsum. destruct (string_dec q p) as [->|Hne].
        -- rewrite Hp0, (temp_count_same a1 p Hall1), <- Hd. lia.
        -- rewrite (temp_count_other a1 p q Hall1 Hne), <- (Hother q Hne).
           apply Hle2.
      * intros q Hnin. rewrite Hsum.
        rewrite (temp_count_other a1 p q Hall1) by (intros ->; apply Hnin; now left).
        rewrite Hnot2; [reflexivity|]. intros Hin. apply Hnin. now right.
      * intros Hc q Hin. rewrite Hsum. destruct (string_dec q p) as [->|Hne].
        -- rewrite Hp0, (temp_count_same a1 p Hall1), <- Hd. lia.
        -- rewrite (temp_count_other a1 p q Hall1 Hne), <- (Hother q Hne).
           apply Heq2; [exact Hc|]. destruct Hin as [E|Hin]; [congruence | exact Hin].
    + (* an exception left the loop of [p] *)
      exists a1. split; [exact Ht1|]. split; [exact Hs1|]. split; [|split].
      * intros q. destruct (string_dec q p) as [->|Hne].
        -- rewrite (temp_count_same a1 p Hall1), <- Hd. lia.
        -- rewrite (temp_count_other a1 p q Hall1 Hne). unfold deficit. lia.
      * intros q Hnin. apply (temp_count_other a1 p q Hall1).
        intros ->. apply Hnin. now left.
      * intros; discriminate.
    + (* the process was stopped in the loop of [p] *)
      exists a1. split; [exact Ht1|]. split; [exact Hs1|]. split; [|split].
      * intros q. destruct (string_dec q p) as [->|Hne].
        -- rewrite (temp_count_same a1 p Hall1), <- Hd. lia.
        -- rewrite (temp_count_other a1 p q Hall1 Hne). unfold deficit. lia.
      * intros q Hnin. apply (temp_count_other a1 p q Hall1).
        intros ->. apply Hnin. now left.
      * intros; discriminate.
Qed.

End Loops.

(* ===================================================================== *)
(** ** A backend that always answers                                      *)
(* ===================================================================== *)

Section Answered.

Variable self : MultiChatbot.

Lemma rotate_ready cm :
  CookieManager.files cm <> []
  /\ Forall (fun f => f <> "") (CookieManager.files cm) /\ CookieManager.wf cm ->
  let cm' := CookieManager.rotate_cookie_file cm in
  (CookieManager.files cm' <> []
   /\ Forall (fun f => f <> "") (CookieManager.files cm') /\ CookieManager.wf cm')
  /\ CookieManager.no_current cm' = false.
Proof.
  intros (Hne & Hall & Hwf) cm'.
  assert (Hready : CookieManager.files cm' <> []
                   /\ Forall (fun f => f <> "") (CookieManager.files cm')
                   /\ CookieManager.wf cm').
  { subst cm'.
    destruct (le_lt_dec (length (CookieManager.files cm)) 1) as [Hfew|Hmany].
    - rewrite (CookieFacts.rotate_few cm Hfew). auto.
    - assert (Hf : CookieManager.cookie_files cm = Some (CookieManager.files cm)).
      { unfold CookieManager.files in *.
        destruct (CookieManager.cookie_files cm); [reflexivity | simpl in Hmany; lia]. }
      split; [|split; [|now apply CookieFacts.rotate_wf]];
        rewrite (CookieFacts.rotate_many cm _ Hf Hmany);
        unfold CookieManager.files at 1; simpl;
        destruct (CookieManager.files cm) as [|a l]; try congruence;
        rewrite CookieFacts.rotl_cons.
      + destruct l; discriminate.
      + apply Forall_cons in Hall as [Ha Hl].
        apply Forall_app. split; [exact Hl|]. constructor; [exact Ha | constructor]. }
  split; [exact Hready|].
  destruct Hready as (Hne' & Hall' & Hwf').
  unfold CookieManager.no_current. rewrite Hwf'.
  destruct (CookieManager.files cm') as [|f l]; [congruence|]. simpl.
  apply Forall_cons in Hall' as [Hf _]. now apply String.eqb_neq.
Qed.

Lemma query_answered cb p s :
  can_query cb ->
  snd (Bot.query cb p (Ok s)) = Ok s /\ can_query (fst (Bot.query cb p (Ok s))).
Proof.
  unfold can_query.
  destruct cb as [k n m to te mt | cm n to te | cm n to | k n m to te mt tp tk];
    simpl; intros Hready; try (split; [reflexivity | exact I]);
    destruct (rotate_ready cm Hready) as [Hready' ->]; split;
      [reflexivity | exact Hready' | reflexivity | exact Hready'].
Qed.

Lemma attempt_answered w p run ec t s :
  can_query (chatbot w) -> backend t = Ok s ->
  exists w', attempt self w p run ec t = Next w' (run + 1) 0
             /\ can_query (chatbot w').
Proof.
  intros Hcan Hb.
  destruct (query_answered (chatbot w) p s Hcan) as [Hq Hcan'].
  rewrite <- Hb in Hq at 1. rewrite <- Hb in Hcan'.
  rewrite (attempt_return self w p run ec t s Hq). unfold store.
  eexists. split; [reflexivity|]. exact Hcan'.
Qed.

(** With answers only, the [while] loop is left normally after
    [bound - run] turns. *)
Lemma while_runs_answered p bound : forall script w run ec,
  all_answered script -> can_query (chatbot w) ->
  bound - run <= Z.of_nat (length script) ->
  exists w' rest,
    while_runs self p bound script w run ec = (Completed w', rest)
    /\ can_query (chatbot w') /\ all_answered rest
    /\ Z.of_nat (length script) - Z.max 0 (bound - run) <= Z.of_nat (length rest).
Proof.
  induction script as [|t script IH]; intros w run ec Hall Hcan Hlen;
    cbn [while_runs].
  - destruct (Z.ltb_spec run bound) as [Hlt|Hge]; [simpl in Hlen; lia|].
    exists w, []. split; [reflexivity|]. split; [exact Hcan|]. split; [exact Hall|].
    simpl length. lia.
  - destruct (Z.ltb_spec run bound) as [Hlt|Hge].
    + apply Forall_cons in Hall as [[s Hs] Hall].
      destruct (attempt_answered w p run ec t s Hcan Hs) as (w' & -> & Hcan').
      destruct (IH w' (run + 1) 0 Hall Hcan') as (w'' & rest & Hw & Hc & Ha & Hl).
      { simpl length in Hlen. lia. }
      exists w'', rest. split; [exact Hw|]. split; [exact Hc|]. split; [exact Ha|].
      simpl length. lia.
    + exists w, (t :: script). split; [reflexivity|]. split; [exact Hcan|].
      split; [exact Hall|]. lia.
Qed.

(** With answers only and [runs] turns available per prompt, the worker
    gets through all prompts. *)
Lemma for_prompts_answered results ps : forall script w,
  0 <= runs self ->
  all_answered script -> can_query (chatbot w) ->
  Z.of_nat (length ps) * runs self <= Z.of_nat (length script) ->
  is_completed (for_prompts self results ps script w) = true.
Proof.
  induction ps as [|p ps IH]; intros script w Hruns Hall Hcan Hlen; [reflexivity|].
  simpl.
  set (pr := prompt_runs self (temp_results w) results (Bot.name (chatbot w)) p).
  assert (Hpr : 0 <= pr).
  { subst pr. unfold prompt_runs.
    pose proof (temp_count_nonneg (temp_results w) p).
    pose proof (results_count_nonneg results (Bot.name (chatbot w)) p). lia. }
  change (length (p :: ps)) with (S (length ps)) in Hlen.
  rewrite Nat2Z.inj_succ, Z.mul_succ_l in Hlen.
  destruct (while_runs_answered p (runs self - pr) script w 0 0 Hall Hcan)
    as (w' & rest & -> & Hcan' & Hall' & Hrest); [lia|].
  simpl. apply IH; [exact Hruns | exact Hall' | exact Hcan' | lia].
Qed.

End Answered.

(* ===================================================================== *)
(** ** The worker as a whole                                              *)
(* ===================================================================== *)

(** With a readable checkpoint and a readable output file the worker gets
    past its first lines and enters the loop over the prompts. *)
Lemma query_chatbot_start (self : MultiChatbot) cb script
    (fs0 : gmap string FileContent) :
  readable fs0 (_temp_filename self cb) ->
  readable fs0 (output_path self) ->
  _query_chatbot self cb script fs0
  = for_prompts self (document fs0 (output_path self)) (prompts self) script
      (mkWorker (document fs0 (_temp_filename self cb)) fs0 cb
         (initial_progress self (document fs0 (_temp_filename self cb))
            (document fs0 (output_path self)) (Bot.name cb)) []).
Proof.
  intros Ht Ho. unfold _query_chatbot.
  now rewrite (load_readable fs0 _ Ht), (load_readable fs0 _ Ho).
Qed.

(** A later state still has a readable checkpoint, holding [temp_results],
    and every other file as before. *)
Lemma synced_checkpoint path w w' :
  synced path w w' ->
  readable (fs w) path -> document (fs w) path = temp_results w ->
  readable (fs w') path /\ document (fs w') path = temp_results w'.
Proof.
  intros [_ _ [[Ht Hf]|Hj]] Hr Hd.
  - unfold readable, document in *. rewrite Hf, Ht. split; assumption.
  - unfold readable, document. rewrite Hj. split; [right; eauto | reflexivity].
Qed.

Lemma synced_other path w w' other :
  synced path w w' -> other <> path ->
  (readable (fs w) other -> readable (fs w') other)
  /\ document (fs w') other = document (fs w) other.
Proof.
  intros [_ Ho _] Hne. unfold readable, document. rewrite (Ho other Hne). auto.
Qed.

(** The whole worker: where it ends, what it appended, and the files it
    leaves, for a start with a readable checkpoint and output file. *)
Lemma query_chatbot_spec (self : MultiChatbot) cb script
    (fs0 : gmap string FileContent) :
  0 <= runs self ->
  readable fs0 (_temp_filename self cb) ->
  readable fs0 (output_path self) ->
  let checkpoint := document fs0 (_temp_filename self cb) in
  let output := document fs0 (output_path self) in
  let w' := worker_of (_query_chatbot self cb script fs0) in
  (forall q, 0 <= successes checkpoint (temp_results w') q
             <= deficit self checkpoint output (Bot.name cb) q)
  /\ (forall q, ~ In q (prompts self) -> successes checkpoint (temp_results w') q = 0)
  /\ (is_completed (_query_chatbot self cb script fs0) = true ->
      forall q, In q (prompts self) ->
        successes checkpoint (temp_results w') q
        = deficit self checkpoint output (Bot.name cb) q)
  /\ readable (fs w') (_temp_filename self cb)
  /\ document (fs w') (_temp_filename self cb) = temp_results w'
  /\ (forall other, other <> _temp_filename self cb -> fs w' !! other = fs0 !! other).
Proof.
  intros Hruns Ht Ho checkpoint output w'. subst w'.
  rewrite (query_chatbot_start self cb script fs0 Ht Ho).
  fold checkpoint output.
  set (w0 := mkWorker checkpoint fs0 cb _ []).
  destruct (for_prompts_spec self output (prompts self) script w0 Hruns)
    as (added & Hadd & Hs & Hle & Hnot & Heq).
  simpl in Hs, Hle, Heq.
  assert (Hsucc : forall q, successes checkpoint
                              (temp_results (worker_of
                                 (for_prompts self output (prompts self) script w0))) q
                            = temp_count added q).
  { intros q. unfold successes. rewrite Hadd, temp_count_app. simpl. lia. }
  split; [intros q; rewrite Hsucc; apply Hle|].
  split; [intros q Hn; rewrite Hsucc; now apply Hnot|].
  split; [intros Hc q Hin; rewrite Hsucc; now apply Heq|].
  destruct (synced_checkpoint _ _ _ Hs Ht eq_refl) as [Hr Hd].
  split; [exact Hr|]. split; [exact Hd|].
  intros other Hne. exact (synced_others _ _ _ Hs other Hne).
Qed.

Lemma query_credentials cb p b : credentials (fst (Bot.query cb p b)) = credentials cb.
Proof.
  assert (Hrot : forall cm, length (CookieManager.files (CookieManager.rotate_cookie_file cm))
                            = length (CookieManager.files cm)).
  { intros cm. unfold CookieManager.rotate_cookie_file, CookieManager.files.
    destruct (CookieManager.cookie_files cm) as [l|] eqn:Hf; [|now rewrite Hf].
    destruct (CookieManager.truthy (Some l) && Nat.ltb 1 (length l))%bool.
    - simpl. apply CookieFacts.rotl_length.
    - now rewrite Hf. }
  unfold credentials. destruct cb; simpl; try reflexivity; apply Hrot.
Qed.

Lemma kill_last cb ex :
  kind_of cb ex = Some AuthExhausted -> (credentials cb <= 1)%nat ->
  Bot.kill_cookie_file cb = (cb, Some (Exception "Cannot kill the last cookie file.")).
Proof.
  intros Hk Hc. unfold kind_of in Hk.
  destruct (exn_class ex); try discriminate.
  destruct (exn_args ex) as [|a args]; [discriminate|].
  unfold credentials in Hc.
  destruct cb as [k n m to te mt | cm n to te | cm n to | k n m to te mt tp tk];
    simpl in *.
  - destruct (arg_has ["Rate limit reached"] a); discriminate.
  - now rewrite (CookieFacts.kill_few cm Hc).
  - now rewrite (CookieFacts.kill_few cm Hc).
  - destruct (arg_has ["Model is overloaded"] a); discriminate.
Qed.



(** C10. The runs owed to a prompt are computed from its text and the
    adapter name, against the records in memory when its position in the
    list is reached. So for a prompt text that stands at two or more
    positions of the list, the successful queries over all its positions
    are at most the runs owed to the text at the start (at most [runs] when
    there are no records for it yet) and exactly that many when the worker
    returns, not that many per position. *)
Theorem duplicate_prompts_single_budget (self : MultiChatbot) (cb : Chatbot)
    (script : list Turn) (fs0 : gmap string FileContent) (q : string) :
  0 <= runs self ->
  readable fs0 (_temp_filename self cb) ->
  readable fs0 (output_path self) ->
  (2 <= count_occ string_dec (prompts self) q)%nat ->
  let checkpoint := document fs0 (_temp_filename self cb) in
  let output := document fs0 (output_path self) in
  let res := _query_chatbot self cb script fs0 in
  let performed := successes checkpoint (temp_results (worker_of res)) q in
  performed <= deficit self checkpoint output (Bot.name cb) q
  /\ performed <= runs self
  /\ (is_completed res = true ->
      performed = deficit self checkpoint output (Bot.name cb) q)
  /\ (temp_count checkpoint q = 0 -> results_count output (Bot.name cb) q = 0 ->
      is_completed res = true -> performed = runs self).
Proof.
  intros Hruns Ht Ho Hocc checkpoint output res performed.
  destruct (query_chatbot_spec self cb script fs0 Hruns Ht Ho)
    as (Hle & _ & Heq & _).
  fold checkpoint output res in Hle, Heq.
  assert (Hin : In q (prompts self)).
  { apply (count_occ_In string_dec). lia. }
  pose proof (Hle q) as Hq. fold performed in Hq.
  pose proof (temp_count_nonneg checkpoint q).
  pose proof (results_count_nonneg output (Bot.name cb) q).
  split; [lia|]. split; [unfold deficit, prompt_runs in Hq; lia|]. split.
  - intros Hc. exact (Heq Hc q Hin).
  - intros Hnone Hnone' Hc. subst performed. rewrite (Heq Hc q Hin).
    unfold deficit, prompt_runs. rewrite Hnone, Hnone'. lia.
Qed.

Lemma duplicate_prompts_single_budget_witness :
  let gpt := OpenAI "key" "GPT-3.5" "gpt-3.5-turbo" 60 1 2048 in
  let self := mkMultiChatbot [gpt] ["a"; "b"; "a"] "temp" "output" "results.json" 2 5 in
  let answer := mkTurn 20 60 1000 (Ok "answer") in
  let res := _query_chatbot self gpt (repeat answer 10) ∅ in
  is_completed res = true
  /\ map r_prompt (temp_results (worker_of res)) = ["a"; "a"; "b"; "b"]
  /\ successes [] (temp_results (worker_of res)) "a" = 2.
Proof.
  intros gpt self answer res.
  assert (Hruns : 0 <= runs self) by (simpl; lia).
  assert (Ht : readable (∅ : gmap string FileContent) (_temp_filename self gpt))
    by (left; reflexivity).
  assert (Ho : readable (∅ : gmap string FileContent) (output_path self))
    by (left; reflexivity).
  assert (Hocc : (2 <= count_occ string_dec (prompts self) "a")%nat)
    by (vm_compute; lia).
  assert (Hc : is_completed res = true) by reflexivity.
  split; [exact Hc|]. split; [reflexivity|].
  destruct (duplicate_prompts_single_budget self gpt (repeat answer 10) ∅ "a"
              Hruns Ht Ho Hocc) as (_ & _ & _ & Hexact).
  exact (Hexact eq_refl eq_refl Hc).
Defined.

(** C7. [kill_cookie_file] raises if and only if at most one credential is
    stored, and then leaves the manager as it was; with more than one it
    removes the current credential, the first one, and makes the next one
    current. When it raises inside the worker's handler (the query of a
    Gemini or Copilot adapter with at most one credential failed on its
    session), the exception leaves the worker: the call ends there, whatever
    prompts and turns were still to come, with that one query as its last
    and no record or file changed. *)
Theorem credential_exhaustion_terminal :
  (forall cm,
     (exists ex, snd (CookieManager.kill_cookie_file cm) = Some ex)
     <-> (length (CookieManager.files cm) <= 1)%nat)
  /\ (forall cm ex,
        snd (CookieManager.kill_cookie_file cm) = Some ex ->
        fst (CookieManager.kill_cookie_file cm) = cm
        /\ ex = Exception "Cannot kill the last cookie file.")
  /\ (forall cm c c' rest,
        CookieManager.wf cm -> CookieManager.files cm = c :: c' :: rest ->
        let cm' := fst (CookieManager.kill_cookie_file cm) in
        CookieManager.current_cookie_file cm = Some c
        /\ snd (CookieManager.kill_cookie_file cm) = None
        /\ CookieManager.files cm' = c' :: rest
        /\ CookieManager.current_cookie_file cm' = Some c')
  /\ (forall self results p bound ps script w run counter t ex,
        run < bound ->
        snd (Bot.query (chatbot w) p (backend t)) = Raise ex ->
        kind_of (chatbot w) ex = Some AuthExhausted ->
        (credentials (chatbot w) <= 1)%nat ->
        exists w',
          from_position self results p bound ps (t :: script) w run counter
          = Raised w' (Exception "Cannot kill the last cookie file.")
          /\ queries (trace w') = S (queries (trace w))
          /\ temp_results w' = temp_results w /\ fs w' = fs w
          /\ credentials (chatbot w') = credentials (chatbot w)).
Proof.
  split; [|split; [|split]].
  - intros cm. destruct (le_lt_dec (length (CookieManager.files cm)) 1) as [Hfew|Hmany].
    + rewrite (CookieFacts.kill_few cm Hfew). simpl. split; [intros _; exact Hfew|eauto].
    + assert (Hf : CookieManager.cookie_files cm = Some (CookieManager.files cm)).
      { unfold CookieManager.files in *.
        destruct (CookieManager.cookie_files cm); [reflexivity | simpl in Hmany; lia]. }
      rewrite (CookieFacts.kill_many cm _ Hf Hmany). simpl.
      split; [intros [ex Hex]; discriminate | lia].
  - intros cm ex. destruct (le_lt_dec (length (CookieManager.files cm)) 1) as [Hfew|Hmany].
    + rewrite (CookieFacts.kill_few cm Hfew). simpl. intros [= <-]. auto.
    + assert (Hf : CookieManager.cookie_files cm = Some (CookieManager.files cm)).
      { unfold CookieManager.files in *.
        destruct (CookieManager.cookie_files cm); [reflexivity | simpl in Hmany; lia]. }
      rewrite (CookieFacts.kill_many cm _ Hf Hmany). simpl. discriminate.
  - intros cm c c' rest Hwf Hfiles cm'. subst cm'.
    assert (Hf : CookieManager.cookie_files cm = Some (CookieManager.files cm)).
    { unfold CookieManager.files in *.
      destruct (CookieManager.cookie_files cm); [reflexivity | discriminate]. }
    assert (Hmany : (1 < length (CookieManager.files cm))%nat)
      by (rewrite Hfiles; simpl; lia).
    rewrite (CookieFacts.kill_many cm _ Hf Hmany), Hwf, Hfiles.
    unfold CookieManager.files. simpl. auto.
  - intros self results p bound ps script w run counter t ex Hlt Hq Hk Hc.
    unfold from_position. cbn [while_runs].
    destruct (Z.ltb_spec run bound) as [_|Hge]; [|lia].
    rewrite (attempt_raise self w p run counter t ex Hq).
    set (w2 := set_chatbot _ _).
    assert (Hk2 : kind_of (chatbot w2) ex = Some AuthExhausted).
    { subst w2. simpl. rewrite kind_of_query. exact Hk. }
    assert (Hc2 : (credentials (chatbot w2) <= 1)%nat).
    { subst w2. simpl. rewrite query_credentials. exact Hc. }
    rewrite (handle_by_kind w2 ex run counter AuthExhausted Hk2).
    rewrite (kill_last (chatbot w2) ex Hk2 Hc2). simpl.
    eexists. split; [reflexivity|]. subst w2. rewrite rate_limit_spec. simpl.
    split; [|split; [reflexivity|split; [reflexivity|apply query_credentials]]].
    rewrite !queries_app, rate_limit_events_no_query.
    change (queries [EvQuery p]) with 1%nat.
    change (queries [EvLogError (exn_args ex)]) with 0%nat. lia.
Qed.

Lemma credential_exhaustion_terminal_witness :
  let two := CookieManager.init "google.com" false [] (Some ["c1"; "c2"]) in
  let one := CookieManager.init "google.com" false [] (Some ["c1"]) in
  let gemini := Gemini one "Gemini" 60 in
  let self := mkMultiChatbot [gemini] ["p"; "q"] "temp" "output" "results.json" 2 5 in
  let w := mkWorker [] ∅ gemini 0 [] in
  let ex := Exception "SNlM0e value not found. Double-check cookies" in
  let denied := mkTurn 20 60 1000 (Raise ex) in
  let answer := mkTurn 20 60 1000 (Ok "answer") in
  CookieManager.files (fst (CookieManager.kill_cookie_file two)) = ["c2"]
  /\ fst (CookieManager.kill_cookie_file one) = one
  /\ exists w',
       from_position self [] "p" 2 ["q"] [denied; answer; answer] w 0 0
       = Raised w' (Exception "Cannot kill the last cookie file.")
       /\ queries (trace w') = 1%nat.
Proof.
  intros two one gemini self w ex denied answer.
  destruct credential_exhaustion_terminal as (_ & Hfail & Hkill & Hworker).
  split; [|split].
  - destruct (Hkill two "c1" "c2" [] eq_refl eq_refl) as (_ & _ & Hfiles & _).
    exact Hfiles.
  - exact (proj1 (Hfail one (Exception "Cannot kill the last cookie file.") eq_refl)).
  - destruct (Hworker self [] "p" 2 ["q"] [answer; answer] w 0 0 denied ex)
      as (w' & Hres & Hq & _).
    + lia.
    + reflexivity.
    + reflexivity.
    + vm_compute. lia.
    + exists w'. split; [exact Hres | exact Hq].
Defined.

(* ===================================================================== *)
(** ** The profile generator                                              *)
(* ===================================================================== *)

Module ProfileFacts.
Import Profiles.










End ProfileFacts.








(* ===================================================================== *)
(** ** Reading the cookies                                                *)
(* ===================================================================== *)

Module GetterFacts.
Import Getters.

Lemma fold_insert_snoc (cs : list Cookie) c (d0 : gmap string string) :
  fold_left (fun d c => <[c_name c := c_value c]> d) (cs ++ [c]) d0
  = <[c_name c := c_value c]> (fold_left (fun d c => <[c_name c := c_value c]> d) cs d0).
Proof. now rewrite fold_left_app. Qed.

(** Looking a name up in the dictionary gives the value of the last cookie
    of that name. *)
Lemma dict_lookup_last (cs : list Cookie) n :
  fold_left (fun d c => <[c_name c := c_value c]> d) cs (∅ : gmap string string) !! n
  = last_value n (map entry cs).
Proof.
  unfold last_value.
  induction cs as [|c cs IH] using rev_ind; [reflexivity|].
  rewrite fold_insert_snoc, map_app, List.filter_app. simpl.
  destruct (String.eqb_spec (c_name c) n) as [->|Hne].
  - rewrite lookup_insert_eq, last_snoc. reflexivity.
  - rewrite lookup_insert_ne by exact Hne. now rewrite app_nil_r.
Qed.

Lemma selected_prefix p browser cm cs :
  p <> "" -> selected (Some p) browser cm = Ok cs ->
  Forall (fun c => String.prefix p (c_name c) = true) cs.
Proof.
  unfold selected. intros Hp.
  destruct (current cm) as [f|ex]; simpl; [|discriminate].
  destruct (browser (CookieManager.domain_name cm) f) as [jar|ex]; simpl; [|discriminate].
  intros [= <-]. apply Forall_forall. intros c Hin.
  apply list_elem_of_In, filter_In in Hin as [_ Hk]. unfold keep in Hk.
  apply String.eqb_neq in Hp. rewrite Hp in Hk. exact Hk.
Qed.

Lemma current_first cm f rest :
  CookieManager.wf cm -> CookieManager.files cm = f :: rest -> f <> "" ->
  current cm = Ok f.
Proof.
  unfold CookieManager.wf, current, CookieManager.no_current.
  intros -> -> Hf. simpl. apply String.eqb_neq in Hf. now rewrite Hf.
Qed.

End GetterFacts.

(** X5. The three getters agree. They fail together, with the same
    exception; when [get_cookie_list] returns, [get_cookie_dict] maps every
    name to the value of the last entry of that name in the list,
    [get_u_cookie] is the value of the last entry named [_U] (or [None]),
    the entries come in the order of the browser's cookies, and with a
    non-empty prefix every entry's name starts with it. *)
Theorem getters_agree (prefix : option string)
    (browser : string -> string -> Exc (list Cookie)) (cm : CookieManager.t) :
  (forall ex,
     Getters.get_cookie_list prefix browser cm = Raise ex
     <-> Getters.get_cookie_dict prefix browser cm = Raise ex)
  /\ (forall ex,
        Getters.get_cookie_dict prefix browser cm = Raise ex
        <-> Getters.get_u_cookie prefix browser cm = Raise ex)
  /\ (forall es,
        Getters.get_cookie_list prefix browser cm = Ok es ->
        exists d,
          Getters.get_cookie_dict prefix browser cm = Ok d
          /\ (forall n, d !! n = Getters.last_value n es)
          /\ Getters.get_u_cookie prefix browser cm = Ok (Getters.last_value "_U" es)
          /\ (forall p, prefix = Some p -> p <> "" ->
              Forall (fun e => String.prefix p (e_name e) = true) es)).
Proof.
  unfold Getters.get_cookie_list, Getters.get_u_cookie, Getters.get_cookie_dict.
  destruct (Getters.selected prefix browser cm) as [cs|ex0] eqn:Hsel; simpl.
  - split; [|split].
    + intros ex. split; discriminate.
    + intros ex. split; discriminate.
    + intros es [= <-]. eexists. split; [reflexivity|]. split; [|split].
      * intros n. apply GetterFacts.dict_lookup_last.
      * f_equal. apply GetterFacts.dict_lookup_last.
      * intros p -> Hp. apply Forall_fmap.
        exact (GetterFacts.selected_prefix p browser cm cs Hp Hsel).
  - split; [|split].
    + intros ex. split; intros [= ->]; reflexivity.
    + intros ex. split; intros [= ->]; reflexivity.
    + discriminate.
Qed.

Lemma getters_agree_witness :
  let one := mkCookie "_U" "old" ".bing.com" "/" (Some 0) true true false [] in
  let two := mkCookie "_U" "new" ".bing.com" "/" (Some 99) true true false ["HTTPOnly"] in
  let other := mkCookie "SID" "x" ".bing.com" "/" None false false true [] in
  let browser := fun (_ _ : string) => Ok [one; other; two] in
  let cm := CookieManager.init "bing.com" false [] (Some ["Cookies"]) in
  Getters.get_u_cookie (Some "_") browser cm = Ok (Some "new")
  /\ exists es, Getters.get_cookie_list (Some "_") browser cm = Ok es
                /\ length es = 2%nat.
Proof.
  intros one two other browser cm.
  destruct (getters_agree (Some "_") browser cm) as (_ & _ & Hok).
  destruct (Hok _ eq_refl) as (d & _ & _ & Hu & _).
  split; [exact Hu|]. eexists. split; reflexivity.
Defined.

(** X6. A query of an unofficial adapter reads the cookie file after the
    current one: with at least two files stored, the first of them current,
    the getters applied after [rotate_cookie_file] ask the browser for the
    second file, and for nothing else. *)
Theorem rotate_then_read (prefix : option string)
    (browser : string -> string -> Exc (list Cookie)) (cm : CookieManager.t)
    (a b : string) (rest : list string) :
  CookieManager.wf cm ->
  CookieManager.files cm = a :: b :: rest ->
  b <> "" ->
  let cm' := CookieManager.rotate_cookie_file cm in
  Getters.selected prefix browser cm'
  = (let* jar := browser (CookieManager.domain_name cm) b in
     Ok (List.filter (Getters.keep prefix) jar))
  /\ Getters.get_cookie_list prefix browser cm'
     = (let* jar := browser (CookieManager.domain_name cm) b in
        Ok (map Getters.entry (List.filter (Getters.keep prefix) jar))).
Proof.
  intros Hwf Hfiles Hb cm'.
  assert (Hf : CookieManager.cookie_files cm = Some (a :: b :: rest)).
  { unfold CookieManager.files in Hfiles.
    destruct (CookieManager.cookie_files cm); [simpl in Hfiles; congruence | discriminate]. }
  assert (Hcm' : cm' = CookieManager.mk (CookieManager.domain_name cm)
                         (Some (b :: rest ++ [a])) (Some b)).
  { subst cm'. rewrite (CookieFacts.rotate_many cm _ Hf) by (simpl; lia).
    now rewrite CookieFacts.rotl_cons. }
  assert (Hsel : Getters.selected prefix browser cm'
                 = (let* jar := browser (CookieManager.domain_name cm) b in
                    Ok (List.filter (Getters.keep prefix) jar))).
  { unfold Getters.selected. rewrite Hcm'.
    rewrite (GetterFacts.current_first _ b (rest ++ [a]));
      [reflexivity | reflexivity | reflexivity | exact Hb]. }
  split; [exact Hsel|].
  unfold Getters.get_cookie_list. rewrite Hsel.
  destruct (browser (CookieManager.domain_name cm) b); reflexivity.
Qed.

Lemma rotate_then_read_witness :
  let cookie := mkCookie "_U" "v" ".bing.com" "/" None true true false [] in
  let browser := fun (_ file : string) =>
                   if String.eqb file "second" then Ok [cookie]
                   else Raise (Exception "unreadable") in
  let cm := CookieManager.init "bing.com" false [] (Some ["first"; "second"]) in
  Getters.get_cookie_list None browser (CookieManager.rotate_cookie_file cm)
  = Ok [Getters.entry cookie].
Proof.
  intros cookie browser cm.
  assert (Hb : "second" <> "") by discriminate.
  exact (proj2 (rotate_then_read None browser cm "first" "second" [] eq_refl eq_refl Hb)).
Defined.

(* ===================================================================== *)
(** ** Sequences of calls on a cookie manager                             *)
(* ===================================================================== *)

Lemma cookie_files_some cm :
  (1 < length (CookieManager.files cm))%nat ->
  CookieManager.cookie_files cm = Some (CookieManager.files cm).
Proof.
  unfold CookieManager.files.
  destruct (CookieManager.cookie_files cm); [reflexivity | simpl; lia].
Qed.


(** One call: the invariant, the files and their number. *)
Lemma cookie_op_step cm op :
  CookieManager.wf cm ->
  let cm' := CookieOps.apply cm op in
  CookieManager.wf cm'
  /\ (forall f, In f (CookieManager.files cm') -> In f (CookieManager.files cm))
  /\ (NoDup (CookieManager.files cm) -> NoDup (CookieManager.files cm'))
  /\ length (CookieManager.files cm')
     = match op with
       | CookieOps.Rotate => length (CookieManager.files cm)
       | CookieOps.Kill =>
           if Nat.ltb 1 (length (CookieManager.files cm))
           then (length (CookieManager.files cm) - 1)%nat
           else length (CookieManager.files cm)
       end.
Proof.
  intros Hwf cm'. subst cm'.
  destruct (le_lt_dec (length (CookieManager.files cm)) 1) as [Hfew|Hmany].
  - destruct op; simpl.
    + rewrite (CookieFacts.rotate_few cm Hfew). auto.
    + rewrite (CookieFacts.kill_few cm Hfew). simpl.
      destruct (Nat.ltb_spec 1 (length (CookieManager.files cm))); [lia|]. auto.
  - pose proof (cookie_files_some cm Hmany) as Hf.
    destruct (CookieManager.files cm) as [|a l] eqn:Hl; [simpl in Hmany; lia|].
    destruct op; simpl.
    + rewrite (CookieFacts.rotate_many cm _ Hf) by exact Hmany.
      rewrite CookieFacts.rotl_cons. unfold CookieManager.files. simpl.
      split; [reflexivity|]. split; [|split].
      * intros f Hin. apply in_app_or in Hin as [Hin|[<-|[]]]; [now right | now left].
      * intros Hnd. apply NoDup_cons in Hnd as [Hna Hnd].
        apply NoDup_app. split; [exact Hnd|]. split.
        -- intros x Hx Hx'. apply list_elem_of_In in Hx'. simpl in Hx'.
           destruct Hx' as [<-|[]]. contradiction.
        -- apply NoDup_singleton.
      * rewrite length_app. simpl. lia.
    + rewrite (CookieFacts.kill_many cm _ Hf) by exact Hmany.
      unfold CookieManager.files. simpl. rewrite drop_0.
      split; [reflexivity|]. split; [|split].
      * intros f Hin. now right.
      * intros Hnd. now apply NoDup_cons in Hnd as [_ Hnd].
      * destruct (Nat.ltb_spec 1 (S (length l))); simpl in *; lia.
Qed.

(** X7. Whatever calls of [rotate_cookie_file] and [kill_cookie_file] are
    made on a manager whose current file is the first stored one (as after
    [__init__]): the current file stays the first stored one, no file
    appears that was not stored before, files that were distinct stay
    distinct, and the last file is never removed: of [n >= 1] files,
    [max(1, n - k)] are left after [k] calls of [kill_cookie_file]. *)
Theorem cookie_manager_invariants (cm : CookieManager.t) (ops : list CookieOps.Op) :
  CookieManager.wf cm ->
  let cm' := CookieOps.run cm ops in
  let n := length (CookieManager.files cm) in
  CookieManager.wf cm'
  /\ (forall f, In f (CookieManager.files cm') -> In f (CookieManager.files cm))
  /\ (NoDup (CookieManager.files cm) -> NoDup (CookieManager.files cm'))
  /\ length (CookieManager.files cm')
     = Nat.max (Nat.min 1 n) (n - CookieOps.kills ops)
  /\ (CookieManager.files cm <> [] -> CookieManager.files cm' <> []).
Proof.
  intros Hwf cm' n. subst cm' n.
  assert (Hmain : forall ops cm, CookieManager.wf cm ->
            CookieManager.wf (CookieOps.run cm ops)
            /\ (forall f, In f (CookieManager.files (CookieOps.run cm ops)) ->
                          In f (CookieManager.files cm))
            /\ (NoDup (CookieManager.files cm) ->
                NoDup (CookieManager.files (CookieOps.run cm ops)))
            /\ length (CookieManager.files (CookieOps.run cm ops))
               = Nat.max (Nat.min 1 (length (CookieManager.files cm)))
                         (length (CookieManager.files cm) - CookieOps.kills ops)).
  { clear. induction ops as [|op ops IH]; intros cm Hwf.
    - unfold CookieOps.run, CookieOps.kills. cbn [fold_left List.filter length].
      split; [exact Hwf|]. split; [auto|]. split; [auto|]. lia.
    - destruct (cookie_op_step cm op Hwf) as (Hwf1 & Hin1 & Hnd1 & Hlen1).
      destruct (IH _ Hwf1) as (Hwf2 & Hin2 & Hnd2 & Hlen2).
      change (CookieOps.run cm (op :: ops))
        with (CookieOps.run (CookieOps.apply cm op) ops).
      split; [exact Hwf2|]. split; [auto|]. split; [auto|].
      rewrite Hlen2, Hlen1. unfold CookieOps.kills.
      destruct op; cbn [List.filter length].
      + reflexivity.
      + destruct (Nat.ltb_spec 1 (length (CookieManager.files cm))); lia. }
  destruct (Hmain ops cm Hwf) as (H1 & H2 & H3 & H4).
  split; [exact H1|]. split; [exact H2|]. split; [exact H3|]. split; [exact H4|].
  intros Hne Hempty.
  assert (Hl : length (CookieManager.files (CookieOps.run cm ops)) = 0%nat)
    by now rewrite Hempty.
  rewrite H4 in Hl.
  destruct (CookieManager.files cm); [congruence | simpl in Hl; lia].
Qed.

Lemma cookie_manager_invariants_witness :
  let cm := CookieManager.init "bing.com" false [] (Some ["a"; "b"; "c"]) in
  let ops := [CookieOps.Kill; CookieOps.Rotate; CookieOps.Kill;
              CookieOps.Kill; CookieOps.Kill] in
  length (CookieManager.files (CookieOps.run cm ops)) = 1%nat
  /\ CookieManager.wf (CookieOps.run cm ops).
Proof.
  intros cm ops.
  destruct (cookie_manager_invariants cm ops (CookieFacts.init_wf _ _ _ _))
    as (Hwf & _ & _ & Hlen & _).
  split; [exact Hlen | exact Hwf].
Defined.

(* ===================================================================== *)
(** ** The worker, record by record                                       *)
(* ===================================================================== *)

Section Exact.

Variable self : MultiChatbot.

Lemma same_adapter_refl cb : same_adapter cb cb.
Proof. repeat split. Qed.

Lemma same_adapter_trans cb1 cb2 cb3 :
  same_adapter cb1 cb2 -> same_adapter cb2 cb3 -> same_adapter cb1 cb3.
Proof.
  intros (Hn1 & Ht1 & Hk1) (Hn2 & Ht2 & Hk2). split; [|split].
  - now rewrite Hn2.
  - now rewrite Ht2.
  - intros ex. now rewrite Hk2.
Qed.

Lemma same_adapter_query cb p b : same_adapter cb (fst (Bot.query cb p b)).
Proof. destruct cb; repeat split. Qed.

Lemma same_adapter_kill cb : same_adapter cb (fst (Bot.kill_cookie_file cb)).
Proof.
  destruct cb as [k n m to te mt | cm n to te | cm n to | k n m to te mt tp tk];
    simpl; try (repeat split);
    destruct (CookieManager.kill_cookie_file cm); repeat split.
Qed.

Ltac keeps_step := split; [repeat split | reflexivity].

(** The handlers keep the adapter and the progress bar. *)
Lemma handle_keeps w ex run ec :
  same_adapter (chatbot w) (chatbot (step_worker (handle w ex run ec)))
  /\ progress (step_worker (handle w ex run ec)) = progress w.
Proof.
  unfold handle. destruct (exn_class ex).
  - keeps_step.
  - keeps_step.
  - unfold handle_exception, first_arg_has.
    destruct w as [temp fs0 cb pr tr].
    destruct cb as [k n m to te mt | cm n to te | cm n to | k n m to te mt tp tk];
      simpl; destruct (exn_args ex) as [|[s|] args]; simpl;
      try keeps_step.
    + destruct (Py.contains "Rate limit reached" s || false)%bool; simpl; keeps_step.
    + destruct (Py.contains "CaptchaChallenge" s
                || (Py.contains "Authentication failed" s || false))%bool; simpl.
      * destruct (CookieManager.kill_cookie_file cm) as [cm' [ex'|]]; simpl; keeps_step.
      * keeps_step.
    + destruct (Py.contains "SNlM0e value not found" s || false)%bool; simpl.
      * destruct (CookieManager.kill_cookie_file cm) as [cm' [ex'|]]; simpl; keeps_step.
      * keeps_step.
    + destruct (Py.contains "Model is overloaded" s || false)%bool; simpl; keeps_step.
  - keeps_step.
Qed.

(** [chatbot.query] returns only what the backend answered. *)
Lemma query_ok_backend cb p b response :
  snd (Bot.query cb p b) = Ok response -> b = Ok response.
Proof.
  destruct cb; simpl; try (intros H; exact H);
    destruct (CookieManager.no_current _); try discriminate; intros H; exact H.
Qed.

(** One turn: a record is made of the answer, stored and counted, or nothing
    but the trace and the cookie files changes. *)
Lemma attempt_exact w p run ec t :
  same_adapter (chatbot w) (chatbot (step_worker (attempt self w p run ec t)))
  /\ queries (trace (step_worker (attempt self w p run ec t))) = S (queries (trace w))
  /\ ((exists response w',
         backend t = Ok response
         /\ attempt self w p run ec t = Next w' (run + 1) 0
         /\ temp_results w'
            = temp_results w ++ [mkRecord (now t) (Bot.name (chatbot w)) p
                                   (record_temperature (chatbot w)) response]
         /\ fs w' = <[_temp_filename self (chatbot w) := Json (temp_results w')]> (fs w)
         /\ progress w' = progress w + 1)
      \/ ((exists ex, snd (Bot.query (chatbot w) p (backend t)) = Raise ex)
          /\ temp_results (step_worker (attempt self w p run ec t)) = temp_results w
          /\ fs (step_worker (attempt self w p run ec t)) = fs w
          /\ progress (step_worker (attempt self w p run ec t)) = progress w
          /\ match attempt self w p run ec t with
             | Next _ run' _ => run' = run
             | Abort _ _ => True
             end)).
Proof.
  assert (Hq : queries (trace (step_worker (attempt self w p run ec t)))
               = S (queries (trace w))).
  { destruct (attempt_trace self w p run ec t) as (post & -> & Hp).
    rewrite !queries_app, rate_limit_events_no_query.
    change (EvQuery p :: post) with ([EvQuery p] ++ post).
    rewrite queries_app, Hp. change (queries [EvQuery p]) with 1%nat. lia. }
  pose proof (same_adapter_query (chatbot w) p (backend t)) as Hsame.
  destruct (snd (Bot.query (chatbot w) p (backend t))) as [response|ex] eqn:Hr.
  - rewrite (attempt_return self w p run ec t response Hr) in *.
    unfold store in *. simpl in *. split; [exact Hsame|]. split; [exact Hq|].
    left. exists response. eexists. split; [exact (query_ok_backend _ _ _ _ Hr)|].
    split; [reflexivity|]. rewrite rate_limit_spec. simpl.
    destruct Hsame as (Hn & Ht & _). rewrite Hn, Ht.
    split; [reflexivity|]. split; [|reflexivity].
    rewrite (temp_filename_name self _ _ Hn).
    apply write_json_insert.
  - rewrite (attempt_raise self w p run ec t ex Hr) in *.
    set (w2 := set_chatbot _ _) in *.
    destruct (handle_keeps w2 ex run ec) as [Hk Hp].
    destruct (handle_quiet w2 ex run ec) as [(Ht & Hf & _) Hrun].
    split; [exact (same_adapter_trans _ _ _ Hsame Hk)|]. split; [exact Hq|].
    right. split; [eauto|]. rewrite Ht, Hf, Hp. subst w2.
    rewrite rate_limit_spec in *. simpl. auto.
Qed.

Lemma extends_refl w : extends self w w [].
Proof.
  constructor; simpl; [now rewrite app_nil_r | reflexivity | apply same_adapter_refl | lia].
Qed.

Lemma extends_trans w w1 w2 a1 a2 :
  extends self w w1 a1 -> extends self w1 w2 a2 -> extends self w w2 (a1 ++ a2).
Proof.
  intros [Ht1 Hf1 Ha1 Hp1] [Ht2 Hf2 Ha2 Hp2].
  assert (Hpath : _temp_filename self (chatbot w1) = _temp_filename self (chatbot w))
    by (apply temp_filename_name; exact (proj1 Ha1)).
  constructor.
  - now rewrite Ht2, Ht1, <- app_assoc.
  - rewrite Hpath in Hf2. destruct a2 as [|r2 a2].
    + rewrite app_nil_r. rewrite Hf2. rewrite app_nil_r in Ht2. now rewrite Ht2.
    + rewrite Hf2, Hf1. destruct a1 as [|r1 a1]; simpl; [reflexivity|].
      apply insert_insert_eq.
  - exact (same_adapter_trans _ _ _ Ha1 Ha2).
  - rewrite Hp2, Hp1, length_app. lia.
Qed.

Lemma made_in_adapter cb cb' script p r :
  same_adapter cb cb' -> made_in cb' script p r -> made_in cb script p r.
Proof.
  intros (Hn & Ht & _) (H1 & H2 & H3 & H4). unfold made_in.
  rewrite <- Hn, <- Ht. auto.
Qed.

Lemma made_in_earlier cb used script p r :
  made_in cb script p r -> made_in cb (used ++ script) p r.
Proof.
  intros (H1 & H2 & H3 & t & Hin & Ht). repeat split; try assumption.
  exists t. split; [apply in_or_app; now right | exact Ht].
Qed.

(** The [while] loop of a prompt, record by record: every record comes from
    an answered turn among the turns used, and every turn used is one
    query. *)
Lemma while_runs_exact p bound : forall script w run ec,
  exists added used,
    script = used ++ snd (while_runs self p bound script w run ec)
    /\ extends self w (worker_of (fst (while_runs self p bound script w run ec))) added
    /\ Forall (made_in (chatbot w) used p) added
    /\ queries (trace (worker_of (fst (while_runs self p bound script w run ec))))
       = (queries (trace w) + length used)%nat
    /\ (length added <= length used)%nat.
Proof.
  induction script as [|t script IH]; intros w run ec; cbn [while_runs].
  - destruct (run <? bound); simpl;
      (exists [], []; split; [reflexivity|]; split; [apply extends_refl|];
       split; [constructor|]; simpl; split; lia).
  - destruct (run <? bound); simpl.
    2:{ exists [], []. split; [reflexivity|]. split; [apply extends_refl|].
        split; [constructor|]. simpl. split; lia. }
    destruct (attempt_exact w p run ec t) as (Hsame & Hq & Hcase).
    destruct (attempt self w p run ec t) as [w' run' ec'|w' ex] eqn:Ha; simpl in *.
    + destruct (IH w' run' ec') as (added & used & Hs & Hext & Hmade & Hqs & Hlen).
      assert (Hmade' : Forall (made_in (chatbot w) (t :: used) p) added).
      { eapply Forall_impl; [exact Hmade|]. intros r Hr.
        apply (made_in_earlier _ [t]). eapply made_in_adapter; eassumption. }
      destruct Hcase as [(response & w0 & Hb & Heq & Ht & Hf & Hp)
                        | (_ & Ht & Hf & Hp & _)].
      * injection Heq as <- -> ->.
        exists (mkRecord (now t) (Bot.name (chatbot w)) p
                  (record_temperature (chatbot w)) response :: added), (t :: used).
        split; [simpl; now rewrite <- Hs|]. split; [|split; [|split]].
        -- apply (extends_trans w w' _ [_] added); [|exact Hext].
           constructor; simpl; [exact Ht | now rewrite Hf | exact Hsame | lia].
        -- constructor; [|exact Hmade'].
           repeat split. exists t. split; [now left | split; [exact Hb | reflexivity]].
        -- rewrite Hqs, Hq. simpl. lia.
        -- simpl. lia.
      * exists added, (t :: used).
        split; [simpl; now rewrite <- Hs|]. split; [|split; [|split]].
        -- apply (extends_trans w w' _ [] added); [|exact Hext].
           constructor; simpl; [now rewrite app_nil_r | exact Hf | exact Hsame | lia].
        -- exact Hmade'.
        -- rewrite Hqs, Hq. simpl. lia.
        -- simpl. lia.
    + exists [], [t]. split; [reflexivity|].
      destruct Hcase as [(response & w0 & _ & Hn & _) | (_ & Ht & Hf & Hp & _)];
        [discriminate|].
      split; [|split; [constructor|]].
      * constructor; simpl; [now rewrite app_nil_r | exact Hf | exact Hsame | lia].
      * simpl. split; lia.
Qed.

End Exact.

Section ExactPrompts.

Variable self : MultiChatbot.

Lemma map_prompt_replicate cb used p added :
  Forall (made_in cb used p) added ->
  map r_prompt added = replicate (length added) p.
Proof.
  induction 1 as [|r l (_ & Hp & _) _ IH]; [reflexivity|].
  simpl. now rewrite Hp, IH.
Qed.

Lemma zip_with_no_records (ps : list string) :
  concat (zip_with (fun k p => replicate k p) (replicate (length ps) 0%nat) ps) = [].
Proof. induction ps as [|p ps IH]; [reflexivity|]. simpl. exact IH. Qed.

(** The loop over the prompts, record by record. *)
Lemma for_prompts_exact results ps : forall script w,
  exists added used rest,
    script = used ++ rest
    /\ extends self w (worker_of (for_prompts self results ps script w)) added
    /\ Forall (fun r => exists p, In p ps /\ made_in (chatbot w) used p r) added
    /\ grouped ps added
    /\ queries (trace (worker_of (for_prompts self results ps script w)))
       = (queries (trace w) + length used)%nat
    /\ (length added <= length used)%nat.
Proof.
  induction ps as [|p ps IH]; intros script w.
  - exists [], [], script. simpl. split; [reflexivity|]. split; [apply extends_refl|].
    split; [constructor|]. split; [exists []; split; reflexivity|]. split; lia.
  - cbn [for_prompts].
    set (bound := runs self - prompt_runs self (temp_results w) results
                                (Bot.name (chatbot w)) p).
    destruct (while_runs_exact self p bound script w 0 0)
      as (a1 & u1 & Hs1 & He1 & Hm1 & Hq1 & Hl1).
    assert (Hm1' : Forall (fun r => exists q, In q (p :: ps)
                                             /\ made_in (chatbot w) u1 q r) a1).
    { eapply Forall_impl; [exact Hm1|]. intros r Hr. exists p. split; [now left|exact Hr]. }
    destruct (while_runs self p bound script w 0 0) as [r1 rest1] eqn:Hw.
    simpl in Hs1, He1, Hq1.
    assert (Hstop : forall r, worker_of r = worker_of r1 ->
              exists added used rest,
                script = used ++ rest
                /\ extends self w (worker_of r) added
                /\ Forall (fun r => exists q, In q (p :: ps)
                                             /\ made_in (chatbot w) used q r) added
                /\ grouped (p :: ps) added
                /\ queries (trace (worker_of r)) = (queries (trace w) + length used)%nat
                /\ (length added <= length used)%nat).
    { intros r ->. exists a1, u1, rest1. split; [exact Hs1|]. split; [exact He1|].
      split; [exact Hm1'|]. split; [|split; [exact Hq1 | exact Hl1]].
      exists (length a1 :: replicate (length ps) 0%nat). split.
      - simpl. now rewrite length_replicate.
      - simpl. rewrite zip_with_no_records, app_nil_r.
        exact (map_prompt_replicate _ _ _ _ Hm1). }
    destruct r1 as [w1|w1 ex|w1]; simpl; [|apply (Hstop (Raised w1 ex) eq_refl)
                                          |apply (Hstop (Stopped w1) eq_refl)].
    simpl in He1, Hq1. clear Hstop.
    destruct (IH rest1 w1) as (a2 & u2 & rest2 & Hs2 & He2 & Hm2 & (ks & Hk & Hg) & Hq2 & Hl2).
    exists (a1 ++ a2), (u1 ++ u2), rest2.
    split; [rewrite Hs1, Hs2, <- app_assoc; reflexivity|].
    split; [exact (extends_trans self _ _ _ _ _ He1 He2)|].
    split; [|split; [|split]].
    + apply Forall_app. split.
      * eapply Forall_impl; [exact Hm1'|]. intros r (q & Hin & (H1 & H2 & H3 & t & Ht & Hb)).
        exists q. split; [exact Hin|]. repeat split; try assumption.
        exists t. split; [apply in_or_app; now left | exact Hb].
      * eapply Forall_impl; [exact Hm2|]. intros r (q & Hin & Hr).
        exists q. split; [now right|]. apply made_in_earlier.
        eapply made_in_adapter; [exact (ext_adapter _ _ _ _ He1) | exact Hr].
    + exists (length a1 :: ks). split; [simpl; now rewrite Hk|].
      rewrite map_app, Hg, (map_prompt_replicate _ _ _ _ Hm1). reflexivity.
    + rewrite Hq2, Hq1, length_app. lia.
    + rewrite !length_app. lia.
Qed.

End ExactPrompts.



(** X9. Every record a worker appends is made of a turn the backend
    answered: it carries the adapter's name, a prompt of the list, the
    adapter's temperature as line 135 renders it, the answer of that turn
    and the clock of that turn. The new records come in the order of the
    prompt list: those of the first prompt, then those of the second, and
    so on. *)
Theorem worker_records (self : MultiChatbot) (cb : Chatbot)
    (script : list Turn) (fs0 : gmap string FileContent) :
  readable fs0 (_temp_filename self cb) ->
  readable fs0 (output_path self) ->
  let checkpoint := document fs0 (_temp_filename self cb) in
  let w' := worker_of (_query_chatbot self cb script fs0) in
  exists added,
    temp_results w' = checkpoint ++ added
    /\ Forall (fun r => exists p, In p (prompts self) /\ made_in cb script p r) added
    /\ grouped (prompts self) added.
Proof.
  intros Ht Ho checkpoint w'. subst w'.
  rewrite (query_chatbot_start self cb script fs0 Ht Ho). fold checkpoint.
  set (w0 := mkWorker checkpoint fs0 cb _ []).
  destruct (for_prompts_exact self (document fs0 (output_path self)) (prompts self)
              script w0) as (added & used & rest & Hs & [Het _ _ _] & Hm & Hg & _).
  simpl in Het, Hm. exists added. split; [exact Het|]. split; [|exact Hg].
  eapply Forall_impl; [exact Hm|]. intros r (p & Hin & (H1 & H2 & H3 & t & Hint & Hb)).
  exists p. split; [exact Hin|]. repeat split; try assumption.
  exists t. split; [rewrite Hs; apply in_or_app; now left | exact Hb].
Qed.

Lemma worker_records_witness :
  let r := _query_chatbot Samples.config Samples.gpt
             [Samples.answers; Samples.broken; Samples.answers; Samples.answers] ∅ in
  exists added,
    temp_results (worker_of r) = [] ++ added
    /\ Forall (fun r => r_chatbot r = "GPT-3.5" /\ r_response r = "hello") added
    /\ map r_prompt added = ["a"; "a"; "b"].
Proof.
  intros r.
  destruct (worker_records Samples.config Samples.gpt
              [Samples.answers; Samples.broken; Samples.answers; Samples.answers] ∅)
    as (added & Ht & _ & _).
  - left. reflexivity.
  - left. reflexivity.
  - exists added. split; [exact Ht|].
    assert (Hadded : added = temp_results (worker_of r)) by (symmetry; exact Ht).
    rewrite Hadded. split; [repeat constructor | reflexivity].
Defined.

(* ===================================================================== *)
(** ** Nothing to do, and nothing but failures                            *)
(* ===================================================================== *)

Lemma for_prompts_nothing_owed (self : MultiChatbot) results ps : forall script w,
  (forall p, In p ps ->
     runs self - prompt_runs self (temp_results w) results (Bot.name (chatbot w)) p <= 0) ->
  for_prompts self results ps script w = Completed w.
Proof.
  induction ps as [|p ps IH]; intros script w Hnone; [reflexivity|].
  cbn [for_prompts].
  assert (Hp : while_runs self p
                 (runs self - prompt_runs self (temp_results w) results
                                (Bot.name (chatbot w)) p) script w 0 0
               = (Completed w, script)).
  { pose proof (Hnone p (or_introl eq_refl)) as Hle.
    destruct script; cbn [while_runs];
      destruct (Z.ltb_spec 0 (runs self - prompt_runs self (temp_results w) results
                                (Bot.name (chatbot w)) p)); try lia; reflexivity. }
  rewrite Hp. simpl. apply IH. intros q Hq. apply Hnone. now right.
Qed.



Section Failing.

Variable self : MultiChatbot.







End Failing.



(* ===================================================================== *)
(** ** What ends a worker                                                 *)
(* ===================================================================== *)

Lemma kind_of_none cb ex :
  kind_of cb ex = None ->
  exn_class ex = BaseExceptionOnly
  \/ (exn_class ex = OtherException /\ exn_args ex = []).
Proof.
  unfold kind_of. destruct (exn_class ex); try discriminate; [|now left].
  destruct (exn_args ex); [now right|]. destruct cb; discriminate.
Qed.

Lemma handle_no_args w ex run ec :
  exn_class ex = OtherException -> exn_args ex = [] ->
  handle w ex run ec = Abort (emit w [EvLogError []]) IndexError.
Proof.
  intros Hc Ha. unfold handle, handle_exception, first_arg_has. rewrite Hc, Ha.
  destruct w as [temp fs0 cb pr tr]. destruct cb; reflexivity.
Qed.

Lemma kill_more cb ex :
  kind_of cb ex = Some AuthExhausted -> (1 < credentials cb)%nat ->
  snd (Bot.kill_cookie_file cb) = None
  /\ credentials (fst (Bot.kill_cookie_file cb)) = (credentials cb - 1)%nat.
Proof.
  intros Hk Hc. unfold kind_of in Hk.
  destruct (exn_class ex); try discriminate.
  destruct (exn_args ex) as [|a args]; [discriminate|].
  unfold credentials in *.
  destruct cb as [k n m to te mt | cm n to te | cm n to | k n m to te mt tp tk];
    simpl in *; try lia;
    rewrite (CookieFacts.kill_many cm _ (cookie_files_some cm Hc) Hc); simpl;
    unfold CookieManager.files at 1; simpl; rewrite length_drop; auto.
Qed.

(** X12. An exception leaves the worker in exactly three cases: the query
    raised something [except Exception] does not catch, which goes through
    as it is; the query raised an [Exception] without arguments, on which
    the handler's [ex.args[0]] raises [IndexError]; or the query of a Gemini
    or Copilot adapter failed on its session while at most one cookie file
    was stored, on which [kill_cookie_file] raises. Every other failure,
    and every answer, lets the loop go on. *)
Theorem attempt_aborts_iff (self : MultiChatbot) (w : Worker) (p : string)
    (run counter : Z) (t : Turn) :
  (forall w' ex',
     attempt self w p run counter t = Abort w' ex' ->
     exists ex,
       snd (Bot.query (chatbot w) p (backend t)) = Raise ex
       /\ ((exn_class ex = BaseExceptionOnly /\ ex' = ex)
           \/ (exn_class ex = OtherException /\ exn_args ex = []
               /\ ex' = IndexError)
           \/ (kind_of (chatbot w) ex = Some AuthExhausted
               /\ (credentials (chatbot w) <= 1)%nat
               /\ ex' = Exception "Cannot kill the last cookie file.")))
  /\ (forall ex,
        snd (Bot.query (chatbot w) p (backend t)) = Raise ex ->
        (exn_class ex = BaseExceptionOnly ->
         exists w', attempt self w p run counter t = Abort w' ex)
        /\ (exn_class ex = OtherException -> exn_args ex = [] ->
            exists w', attempt self w p run counter t = Abort w' IndexError)
        /\ (kind_of (chatbot w) ex = Some AuthExhausted ->
            (credentials (chatbot w) <= 1)%nat ->
            exists w', attempt self w p run counter t
                       = Abort w' (Exception "Cannot kill the last cookie file."))).
Proof.
  assert (Hcases : forall ex,
            snd (Bot.query (chatbot w) p (backend t)) = Raise ex ->
            let w2 := set_chatbot (emit (rate_limit self w counter t) [EvQuery p])
                        (fst (Bot.query (chatbot w) p (backend t))) in
            attempt self w p run counter t = handle w2 ex run counter
            /\ kind_of (chatbot w2) ex = kind_of (chatbot w) ex
            /\ credentials (chatbot w2) = credentials (chatbot w)).
  { intros ex Hq w2. split; [exact (attempt_raise self w p run counter t ex Hq)|].
    subst w2. simpl. split; [apply kind_of_query | apply query_credentials]. }
  split.
  - intros w' ex' Ha.
    destruct (snd (Bot.query (chatbot w) p (backend t))) as [response|ex] eqn:Hq.
    { rewrite (attempt_return self w p run counter t response Hq) in Ha. discriminate. }
    exists ex. split; [reflexivity|].
    destruct (Hcases ex eq_refl) as (Hh & Hk & Hc). rewrite Hh in Ha.
    set (w2 := set_chatbot _ _) in *.
    destruct (kind_of (chatbot w) ex) as [k|] eqn:Hkind.
    + rewrite (handle_by_kind w2 ex run counter k Hk) in Ha.
      destruct k; try discriminate.
      right; right. split; [reflexivity|].
      destruct (le_lt_dec (credentials (chatbot w)) 1) as [Hfew|Hmany].
      * split; [exact Hfew|].
        rewrite (kill_last (chatbot w2) ex Hk) in Ha by (rewrite Hc; exact Hfew).
        now injection Ha as _ <-.
      * destruct (kill_more (chatbot w2) ex Hk) as [Hnone _]; [rewrite Hc; exact Hmany|].
        destruct (Bot.kill_cookie_file (chatbot w2)) as [cb' [e|]];
          simpl in Hnone; discriminate.
    + destruct (kind_of_none _ _ Hkind) as [Hb|[Ho Hargs]].
      * left. split; [exact Hb|]. unfold handle in Ha. rewrite Hb in Ha.
        now injection Ha as _ <-.
      * right; left. rewrite (handle_no_args w2 ex run counter Ho Hargs) in Ha.
        injection Ha as _ <-. auto.
  - intros ex Hq. destruct (Hcases ex Hq) as (-> & Hk & Hc).
    set (w2 := set_chatbot _ _) in *. split; [|split].
    + intros Hb. unfold handle. rewrite Hb. eauto.
    + intros Ho Hargs. rewrite (handle_no_args w2 ex run counter Ho Hargs). eauto.
    + intros Hkind Hfew. rewrite <- Hk in Hkind.
      rewrite (handle_by_kind w2 ex run counter AuthExhausted Hkind).
      rewrite (kill_last (chatbot w2) ex Hkind) by (rewrite Hc; exact Hfew). eauto.
Qed.

Lemma attempt_aborts_iff_witness :
  let w := mkWorker [] ∅ Samples.gpt 0 [] in
  let bare := mkTurn 20 60 1000 (Raise (mkExn OtherException [])) in
  let stop := mkTurn 20 60 1000 (Raise (mkExn BaseExceptionOnly [ArgStr "interrupt"])) in
  (exists w', attempt Samples.config w "a" 0 0 bare = Abort w' IndexError)
  /\ (exists w', attempt Samples.config w "a" 0 0 stop
                 = Abort w' (mkExn BaseExceptionOnly [ArgStr "interrupt"])).
Proof.
  intros w bare stop. split.
  - destruct (attempt_aborts_iff Samples.config w "a" 0 0 bare) as [_ H].
    destruct (H (mkExn OtherException []) eq_refl) as (_ & Hbare & _).
    exact (Hbare eq_refl eq_refl).
  - destruct (attempt_aborts_iff Samples.config w "a" 0 0 stop) as [_ H].
    destruct (H (mkExn BaseExceptionOnly [ArgStr "interrupt"]) eq_refl) as (Hstop & _).
    exact (Hstop eq_refl).
Defined.

(* ===================================================================== *)
(** ** Running out of credentials                                         *)
(* ===================================================================== *)








(** X14. The cookie file a failed query was made with is the one that is
    dropped. With files [a, b, ...] stored and [a] current, the query
    rotates to [b]; when it fails on the session, [b] is removed, the files
    left are [..., a] with their first one current, and the loop goes on
    with run count and failure counter unchanged. *)
Theorem failed_credential_is_dropped (self : MultiChatbot) (w : Worker) (p : string)
    (run counter : Z) (t : Turn) (cm : CookieManager.t) (a b : string)
    (rest : list string) :
  Bot.cookie_manager (chatbot w) = Some cm ->
  CookieManager.wf cm ->
  CookieManager.files cm = a :: b :: rest ->
  b <> "" ->
  denies (chatbot w) t ->
  exists w' cm',
    attempt self w p run counter t = Next w' run counter
    /\ Bot.cookie_manager (chatbot w') = Some cm'
    /\ CookieManager.files cm' = rest ++ [a]
    /\ CookieManager.current_cookie_file cm' = head (rest ++ [a])
    /\ (NoDup (a :: b :: rest) -> ~ In b (CookieManager.files cm')).
Proof.
  intros Hcm Hwf Hfiles Hb (ex & Hback & Hk).
  assert (Hf : CookieManager.cookie_files cm = Some (a :: b :: rest)).
  { unfold CookieManager.files in Hfiles.
    destruct (CookieManager.cookie_files cm); [simpl in Hfiles; congruence | discriminate]. }
  assert (Hrot : CookieManager.rotate_cookie_file cm
                 = CookieManager.mk (CookieManager.domain_name cm)
                     (Some (b :: rest ++ [a])) (Some b)).
  { rewrite (CookieFacts.rotate_many cm _ Hf) by (simpl; lia).
    now rewrite CookieFacts.rotl_cons. }
  assert (Hnc : CookieManager.no_current (CookieManager.rotate_cookie_file cm) = false).
  { rewrite Hrot. unfold CookieManager.no_current. simpl. now apply String.eqb_neq. }
  assert (Hkill : CookieManager.kill_cookie_file (CookieManager.rotate_cookie_file cm)
                  = (CookieManager.mk (CookieManager.domain_name cm)
                       (Some (rest ++ [a])) (head (rest ++ [a])), None)).
  { rewrite Hrot. erewrite CookieFacts.kill_many; [|reflexivity|].
    - simpl. now rewrite drop_0.
    - simpl. rewrite length_app. simpl. lia. }
  assert (Hq : snd (Bot.query (chatbot w) p (backend t)) = Raise ex).
  { destruct (chatbot w); simpl in *; try discriminate;
      injection Hcm as ->; now rewrite Hnc. }
  rewrite (attempt_raise self w p run counter t ex Hq).
  set (w2 := set_chatbot _ _).
  assert (Hk2 : kind_of (chatbot w2) ex = Some AuthExhausted).
  { subst w2. simpl. rewrite kind_of_query. exact Hk. }
  rewrite (handle_by_kind w2 ex run counter AuthExhausted Hk2).
  assert (Hfinal : exists cb',
             Bot.kill_cookie_file (chatbot w2) = (cb', None)
             /\ Bot.cookie_manager cb'
                = Some (CookieManager.mk (CookieManager.domain_name cm)
                          (Some (rest ++ [a])) (head (rest ++ [a])))).
  { subst w2. simpl. destruct (chatbot w); simpl in *; try discriminate;
      injection Hcm as ->; rewrite Hkill; eexists; split; reflexivity. }
  destruct Hfinal as (cb' & -> & Hcm').
  eexists. eexists. split; [reflexivity|]. simpl. split; [exact Hcm'|].
  split; [reflexivity|]. split; [reflexivity|].
  unfold CookieManager.files. simpl. intros Hnd Hin.
  apply NoDup_cons in Hnd as [Ha Hnd]. apply NoDup_cons in Hnd as [Hbr _].
  apply in_app_or in Hin as [Hin|[E|[]]].
  - apply Hbr. now apply list_elem_of_In.
  - apply Ha. subst. now left.
Qed.

Lemma failed_credential_is_dropped_witness :
  let cm := CookieManager.init "google.com" false [] (Some ["c1"; "c2"; "c3"]) in
  let w := mkWorker [] ∅ (Gemini cm "Gemini" 60) 0 [] in
  exists w' cm',
    attempt Samples.config w "a" 0 0 Samples.denied = Next w' 0 0
    /\ Bot.cookie_manager (chatbot w') = Some cm'
    /\ CookieManager.files cm' = ["c3"; "c1"].
Proof.
  intros cm w.
  destruct (failed_credential_is_dropped Samples.config w "a" 0 0 Samples.denied
              cm "c1" "c2" ["c3"] eq_refl eq_refl eq_refl)
    as (w' & cm' & Ha & Hcm & Hfiles & _).
  - discriminate.
  - eexists. split; reflexivity.
  - exists w', cm'. auto.
Defined.

(* ===================================================================== *)
(** ** A negative run count                                               *)
(* ===================================================================== *)

Lemma prompt_runs_negative (self : MultiChatbot) temp results name p :
  runs self < 0 -> runs self - prompt_runs self temp results name p = - runs self.
Proof.
  intros Hneg. unfold prompt_runs.
  pose proof (temp_count_nonneg temp p).
  pose proof (results_count_nonneg results name p). lia.
Qed.

Lemma for_prompts_negative (self : MultiChatbot) results ps : forall script w,
  runs self < 0 ->
  all_answered script -> can_query (chatbot w) ->
  Z.of_nat (length ps) * - runs self <= Z.of_nat (length script) ->
  exists w',
    for_prompts self results ps script w = Completed w'
    /\ Z.of_nat (length (temp_results w'))
       = Z.of_nat (length (temp_results w)) + Z.of_nat (length ps) * - runs self.
Proof.
  induction ps as [|p ps IH]; intros script w Hneg Hall Hcan Hlen.
  - exists w. split; [reflexivity|]. simpl length. lia.
  - cbn [for_prompts]. rewrite prompt_runs_negative by exact Hneg.
    change (length (p :: ps)) with (S (length ps)) in *.
    rewrite Nat2Z.inj_succ, Z.mul_succ_l in *.
    destruct (while_runs_answered self p (- runs self) script w 0 0 Hall Hcan)
      as (w1 & rest & Hw & Hcan1 & Hall1 & Hrest); [lia|].
    destruct (while_runs_spec self p (- runs self) script w 0 0)
      as (added & Ht & _ & _ & _ & Heq).
    rewrite Hw in *. simpl in Ht, Heq. specialize (Heq eq_refl).
    destruct (IH rest w1 Hneg Hall1 Hcan1) as (w' & Hw' & Hl'); [lia|].
    simpl. exists w'. split; [exact Hw'|].
    rewrite Hl', Ht, length_app. lia.
Qed.

(** X15. A negative run count is not rejected and does not mean "nothing to
    do": the capped counts are then both [runs], the loop bound is [-runs],
    and a worker whose backend answers appends [-runs] records for every
    position of the prompt list, whatever the checkpoint and the output file
    already hold, so every further call appends as many again. *)
Theorem negative_runs_still_query (self : MultiChatbot) (cb : Chatbot)
    (script : list Turn) (fs0 : gmap string FileContent) :
  runs self < 0 ->
  readable fs0 (_temp_filename self cb) ->
  readable fs0 (output_path self) ->
  can_query cb -> all_answered script ->
  Z.of_nat (length (prompts self)) * - runs self <= Z.of_nat (length script) ->
  exists w,
    _query_chatbot self cb script fs0 = Completed w
    /\ Z.of_nat (length (temp_results w))
       = Z.of_nat (length (document fs0 (_temp_filename self cb)))
         + Z.of_nat (length (prompts self)) * - runs self.
Proof.
  intros Hneg Ht Ho Hcan Hall Hlen.
  rewrite (query_chatbot_start self cb script fs0 Ht Ho).
  now apply for_prompts_negative.
Qed.

Lemma negative_runs_still_query_witness :
  let self := mkMultiChatbot [Samples.gpt] ["a"; "b"] "temp" "output" "results.json"
                (-1) 5 in
  let first := _query_chatbot self Samples.gpt [Samples.answers; Samples.answers] ∅ in
  let again := _query_chatbot self Samples.gpt [Samples.answers; Samples.answers]
                 (fs (worker_of first)) in
  exists w, again = Completed w /\ Z.of_nat (length (temp_results w)) = 4.
Proof.
  intros self first again.
  destruct (negative_runs_still_query self Samples.gpt
              [Samples.answers; Samples.answers] (fs (worker_of first)))
    as (w & Hw & Hl).
  - simpl. lia.
  - right. eexists. reflexivity.
  - left. reflexivity.
  - exact I.
  - repeat constructor; exists "hello"; reflexivity.
  - simpl. lia.
  - exists w. split; [exact Hw|]. rewrite Hl. reflexivity.
Defined.

(* ===================================================================== *)
(** ** Files that cannot be read                                          *)
(* ===================================================================== *)





(* ===================================================================== *)
(** ** The merge, again                                                   *)
(* ===================================================================== *)

Section MergeAgain.

Variable self : MultiChatbot.

(** A merge loop that returned has removed every checkpoint and changed
    nothing else. *)
Lemma combine_temp_ok cbs : forall results results' (fs0 fs1 : gmap string FileContent),
  combine_temp self cbs results fs0 = Ok (results', fs1) ->
  (forall cb, In cb cbs -> fs1 !! _temp_filename self cb = None)
  /\ (forall path, ~ In path (map (_temp_filename self) cbs) -> fs1 !! path = fs0 !! path).
Proof.
  induction cbs as [|cb cbs IH]; intros results results' fs0 fs1 Hc.
  - injection Hc as <- <-. split; [intros cb []|reflexivity].
  - cbn [combine_temp] in Hc. unfold Fs.exists_, Fs.json_load, Fs.remove in Hc.
    destruct (fs0 !! _temp_filename self cb) as [[rs| |rs n]|] eqn:Hl; simpl in Hc;
      try discriminate.
    + destruct (IH _ _ _ _ Hc) as [Hgone Hkeep]. split.
      * intros cb' [<-|Hin]; [|now apply Hgone].
        destruct (in_dec string_dec (_temp_filename self cb)
                    (map (_temp_filename self) cbs)) as [Hin'|Hnin].
        -- apply in_map_iff in Hin' as (cb' & E & Hin'). rewrite <- E. now apply Hgone.
        -- rewrite (Hkeep _ Hnin). apply lookup_delete_eq.
      * intros path Hnin. rewrite Hkeep by (intros Hin; apply Hnin; now right).
        apply lookup_delete_ne. intros E. apply Hnin. now left.
    + destruct (IH _ _ _ _ Hc) as [Hgone Hkeep]. split.
      * intros cb' [<-|Hin]; [|now apply Hgone].
        destruct (in_dec string_dec (_temp_filename self cb)
                    (map (_temp_filename self) cbs)) as [Hin'|Hnin].
        -- apply in_map_iff in Hin' as (cb' & E & Hin'). rewrite <- E. now apply Hgone.
        -- rewrite (Hkeep _ Hnin). exact Hl.
      * intros path Hnin. apply Hkeep. intros Hin. apply Hnin. now right.
Qed.

Lemma combine_temp_absent cbs : forall results (fs0 : gmap string FileContent),
  (forall cb, In cb cbs -> fs0 !! _temp_filename self cb = None) ->
  combine_temp self cbs results fs0 = Ok (results, fs0).
Proof.
  induction cbs as [|cb cbs IH]; intros results fs0 Hnone; [reflexivity|].
  cbn [combine_temp]. unfold Fs.exists_. rewrite (Hnone cb (or_introl eq_refl)).
  apply IH. intros cb' Hin. apply Hnone. now right.
Qed.



End MergeAgain.

(** X17. A merge that has returned leaves nothing to merge: when no
    checkpoint path is the output path, merging again returns the same file
    system, with the output document as it is and no checkpoint. *)
Theorem merge_again_changes_nothing (self : MultiChatbot)
    (fs0 fs1 : gmap string FileContent) :
  ~ In (output_path self) (map (_temp_filename self) (chatbots self)) ->
  merge self fs0 = Ok fs1 ->
  merge self fs1 = Ok fs1
  /\ (exists results, fs1 !! output_path self = Some (Json results))
  /\ (forall cb, In cb (chatbots self) -> fs1 !! _temp_filename self cb = None).
Proof.
  intros Hout Hm. unfold merge in Hm.
  destruct (Fs.load_if_exists fs0 (output_path self)) as [results|ex]; [|discriminate].
  simpl in Hm.
  destruct (combine_temp self (chatbots self) results fs0) as [[results' fs']|ex] eqn:Hc;
    [|discriminate].
  simpl in Hm. injection Hm as <-.
  destruct (combine_temp_ok self _ _ _ _ _ Hc) as [Hgone Hkeep].
  assert (Hgone' : forall cb, In cb (chatbots self) ->
            Fs.write_json fs' (output_path self) results' !! _temp_filename self cb = None).
  { intros cb Hin. rewrite write_json_other; [now apply Hgone|].
    intros E. apply Hout. rewrite <- E. now apply in_map. }
  split; [|split; [exists results'; apply write_json_lookup | exact Hgone']].
  unfold merge.
  assert (Hload : Fs.load_if_exists (Fs.write_json fs' (output_path self) results')
                    (output_path self) = Ok results').
  { unfold Fs.load_if_exists, Fs.exists_, Fs.json_load. now rewrite write_json_lookup. }
  rewrite Hload. simpl. rewrite (combine_temp_absent self _ _ _ Hgone'). simpl.
  f_equal. rewrite !write_json_insert. apply insert_insert_eq.
Qed.

Lemma merge_again_changes_nothing_witness :
  let r1 := mkRecord 1 "GPT-3.5" "a" (JNumber 1) "one" in
  let fs0 : gmap string FileContent := {[ "temp/gpt-3.5.json" := Json [r1] ]} in
  exists fs1, merge Samples.config fs0 = Ok fs1 /\ merge Samples.config fs1 = Ok fs1.
Proof.
  intros r1 fs0.
  destruct (merge Samples.config fs0) as [fs1|ex] eqn:Hm; [|vm_compute in Hm; discriminate].
  exists fs1. split; [reflexivity|].
  refine (proj1 (merge_again_changes_nothing Samples.config fs0 fs1 _ Hm)).
  vm_compute. intros [E|[E|[]]]; discriminate.
Defined.



(* ===================================================================== *)
(** ** Workers side by side                                               *)
(* ===================================================================== *)

Section SideBySide.

Variable self : MultiChatbot.

Ltac same_step_tac := simpl; repeat split; reflexivity.

(** The handlers do not read the file system. *)
Lemma handle_same_step temp cb pr tr (f1 f2 : gmap string FileContent) ex run ec :
  same_step (handle (mkWorker temp f1 cb pr tr) ex run ec)
            (handle (mkWorker temp f2 cb pr tr) ex run ec).
Proof.
  unfold handle. destruct (exn_class ex); try same_step_tac.
  unfold handle_exception, first_arg_has.
  destruct cb as [k n m to te mt | cm n to te | cm n to | k n m to te mt tp tk];
    simpl; destruct (exn_args ex) as [|[s|] args]; simpl; try same_step_tac.
  - destruct (Py.contains "Rate limit reached" s || false)%bool; same_step_tac.
  - destruct (Py.contains "CaptchaChallenge" s
              || (Py.contains "Authentication failed" s || false))%bool; simpl.
    + destruct (CookieManager.kill_cookie_file cm) as [cm' [ex'|]]; same_step_tac.
    + same_step_tac.
  - destruct (Py.contains "SNlM0e value not found" s || false)%bool; simpl.
    + destruct (CookieManager.kill_cookie_file cm) as [cm' [ex'|]]; same_step_tac.
    + same_step_tac.
  - destruct (Py.contains "Model is overloaded" s || false)%bool; same_step_tac.
Qed.

(** Nor does a turn: it only writes. *)
Lemma attempt_same_step w1 w2 p run ec t :
  without_fs w1 = without_fs w2 ->
  same_step (attempt self w1 p run ec t) (attempt self w2 p run ec t).
Proof.
  destruct w1 as [temp f1 cb pr tr], w2 as [temp2 f2 cb2 pr2 tr2].
  unfold without_fs. simpl. intros [= <- <- <- <-].
  unfold attempt, rate_limit, emit, set_chatbot. simpl.
  destruct (Bot.is_unofficial cb), (max_errors self <=? ec); simpl;
    destruct (Bot.query cb p (backend t)) as [cb' [response|ex]];
    try apply handle_same_step; same_step_tac.
Qed.

Lemma without_fs_fields w1 w2 :
  without_fs w1 = without_fs w2 ->
  temp_results w1 = temp_results w2 /\ chatbot w1 = chatbot w2.
Proof. unfold without_fs. intros [= -> -> _ _]. auto. Qed.

(** Two turns in step: they end alike and write alike. *)
Lemma attempt_lockstep (f1 f2 : gmap string FileContent) w1 w2 p run ec t :
  without_fs w1 = without_fs w2 ->
  written_alike f1 f2 (_temp_filename self (chatbot w1)) w1 w2 ->
  same_step (attempt self w1 p run ec t) (attempt self w2 p run ec t)
  /\ written_alike f1 f2 (_temp_filename self (chatbot w1))
       (step_worker (attempt self w1 p run ec t))
       (step_worker (attempt self w2 p run ec t)).
Proof.
  intros Hw Hrel.
  pose proof (attempt_same_step w1 w2 p run ec t Hw) as Hs.
  split; [exact Hs|].
  destruct (without_fs_fields _ _ Hw) as [Htemp Hcb].
  destruct (attempt_exact self w1 p run ec t) as (_ & _ & Hc1).
  destruct (attempt_exact self w2 p run ec t) as (_ & _ & Hc2).
  rewrite <- Hcb in Hc2.
  destruct Hc1 as [(r1 & u1 & _ & Ha1 & Ht1 & Hf1 & _) | (_ & Ht1 & Hf1 & _ & Hr1)];
    destruct Hc2 as [(r2 & u2 & _ & Ha2 & Ht2 & Hf2 & _) | (_ & Ht2 & Hf2 & _ & Hr2)].
  - rewrite Ha1, Ha2 in *. simpl. right.
    rewrite Hf1, Hf2.
    destruct Hrel as [[-> ->]|[-> ->]]; rewrite ?insert_insert_eq; auto.
  - rewrite Ha1 in *. destruct (attempt self w2 p run ec t); simpl in Hs;
      [destruct Hs as (_ & Hrun & _); lia | contradiction].
  - rewrite Ha2 in *. destruct (attempt self w1 p run ec t); simpl in Hs;
      [destruct Hs as (_ & Hrun & _); lia | contradiction].
  - unfold written_alike. rewrite Hf1, Hf2, Ht1, Ht2. exact Hrel.
Qed.

Lemma while_runs_lockstep (f1 f2 : gmap string FileContent) p bound :
  forall script w1 w2 run ec,
  without_fs w1 = without_fs w2 ->
  written_alike f1 f2 (_temp_filename self (chatbot w1)) w1 w2 ->
  same_run (fst (while_runs self p bound script w1 run ec))
           (fst (while_runs self p bound script w2 run ec))
  /\ snd (while_runs self p bound script w1 run ec)
     = snd (while_runs self p bound script w2 run ec)
  /\ written_alike f1 f2 (_temp_filename self (chatbot w1))
       (worker_of (fst (while_runs self p bound script w1 run ec)))
       (worker_of (fst (while_runs self p bound script w2 run ec))).
Proof.
  induction script as [|t script IH]; intros w1 w2 run ec Hw Hrel; cbn [while_runs].
  - destruct (run <? bound); simpl; auto.
  - destruct (run <? bound); simpl; [|auto].
    destruct (attempt_lockstep f1 f2 w1 w2 p run ec t Hw Hrel) as [Hs Hrel'].
    pose proof (attempt_exact self w1 p run ec t) as ((Hname & _) & _).
    destruct (attempt self w1 p run ec t) as [a r e|a x],
             (attempt self w2 p run ec t) as [b r' e'|b y]; simpl in Hs;
      try contradiction; simpl in *.
    + destruct Hs as (Hab & <- & <-).
      rewrite <- (temp_filename_name self _ _ Hname) in *. now apply IH.
    + destruct Hs as [Hab ->]. auto.
Qed.

Lemma for_prompts_lockstep (f1 f2 : gmap string FileContent) results ps :
  forall script w1 w2,
  without_fs w1 = without_fs w2 ->
  written_alike f1 f2 (_temp_filename self (chatbot w1)) w1 w2 ->
  same_run (for_prompts self results ps script w1)
           (for_prompts self results ps script w2)
  /\ written_alike f1 f2 (_temp_filename self (chatbot w1))
       (worker_of (for_prompts self results ps script w1))
       (worker_of (for_prompts self results ps script w2)).
Proof.
  induction ps as [|p ps IH]; intros script w1 w2 Hw Hrel; [simpl; auto|].
  cbn [for_prompts].
  destruct (without_fs_fields _ _ Hw) as [Htemp Hcb].
  rewrite <- Htemp, <- Hcb.
  set (bound := runs self - prompt_runs self (temp_results w1) results
                              (Bot.name (chatbot w1)) p).
  destruct (while_runs_lockstep f1 f2 p bound script w1 w2 0 0 Hw Hrel)
    as (Hr & Hrest & Hrel').
  destruct (while_runs_exact self p bound script w1 0 0)
    as (_ & _ & _ & [_ _ (Hname & _) _] & _).
  destruct (while_runs self p bound script w1 0 0) as [r1 rest1],
           (while_runs self p bound script w2 0 0) as [r2 rest2].
  simpl in Hr, Hrest, Hrel', Hname. subst rest2.
  destruct r1, r2; simpl in Hr; try contradiction; simpl; auto.
  rewrite <- (temp_filename_name self _ _ Hname) in *. now apply IH.
Qed.

(** What a call of the worker does to the file system: nothing, or the
    checkpoint is replaced by the document of [temp_results]. *)
Lemma query_chatbot_files cb script (fs0 : gmap string FileContent) :
  let w := worker_of (_query_chatbot self cb script fs0) in
  fs w = fs0 \/ fs w = <[_temp_filename self cb := Json (temp_results w)]> fs0.
Proof.
  unfold _query_chatbot.
  destruct (Fs.load_if_exists fs0 (_temp_filename self cb)) as [temp|ex]; [|now left].
  destruct (Fs.load_if_exists fs0 (output_path self)) as [results|ex]; [|now left].
  set (w0 := mkWorker temp fs0 cb _ []).
  destruct (for_prompts_exact self results (prompts self) script w0)
    as (added & _ & _ & _ & [_ Hf _ _] & _).
  simpl in *. destruct added; [now left | now right].
Qed.

Lemma same_run_temp r1 r2 :
  same_run r1 r2 -> temp_results (worker_of r1) = temp_results (worker_of r2).
Proof.
  destruct r1 as [u|u e|u], r2 as [v|v e'|v]; simpl; try contradiction;
    try (intros [H _]); try (intros H); exact (proj1 (without_fs_fields _ _ H)).
Qed.

(** The frame of a worker: on a file system [fx] that agrees with [fs0] on
    its checkpoint and on the output file it runs as on [fs0], and changes
    its checkpoint in the same way and nothing else. *)
Lemma query_chatbot_frame y sy (fs0 fx : gmap string FileContent) :
  fx !! _temp_filename self y = fs0 !! _temp_filename self y ->
  fx !! output_path self = fs0 !! output_path self ->
  same_run (_query_chatbot self y sy fx) (_query_chatbot self y sy fs0)
  /\ forall path,
       fs (worker_of (_query_chatbot self y sy fx)) !! path
       = if decide (path = _temp_filename self y)
         then fs (worker_of (_query_chatbot self y sy fs0)) !! path
         else fx !! path.
Proof.
  intros Ht Ho.
  assert (Hboth : same_run (_query_chatbot self y sy fx) (_query_chatbot self y sy fs0)
                  /\ written_alike fx fs0 (_temp_filename self y)
                       (worker_of (_query_chatbot self y sy fx))
                       (worker_of (_query_chatbot self y sy fs0))).
  { unfold _query_chatbot, Fs.load_if_exists, Fs.exists_, Fs.json_load.
    rewrite Ht, Ho.
    destruct (fs0 !! _temp_filename self y) as [[temp| |rs n]|]; simpl;
      try (split; [split; reflexivity | left; split; reflexivity]);
      destruct (fs0 !! output_path self) as [[results| |rs' n']|]; simpl;
      try (split; [split; reflexivity | left; split; reflexivity]);
      match goal with
      | |- same_run (for_prompts self ?res ?ps ?s ?w1) (for_prompts self _ _ _ ?w2) /\ _ =>
          apply (for_prompts_lockstep fx fs0 res ps s w1 w2);
            [reflexivity | left; split; reflexivity]
      end. }
  destruct Hboth as [Hsame Hrel]. split; [exact Hsame|].
  pose proof (same_run_temp _ _ Hsame) as Htemp.
  intros path. destruct (decide (path = _temp_filename self y)) as [->|Hne].
  - destruct Hrel as [[-> ->]|[-> ->]]; [exact Ht|].
    now rewrite !lookup_insert_eq, Htemp.
  - destruct Hrel as [[-> _]|[-> _]]; [reflexivity|]. now apply lookup_insert_ne.
Qed.

End SideBySide.



(* ===================================================================== *)
(** ** The whole of [query]                                               *)
(* ===================================================================== *)

Section WholeQuery.

Variable self : MultiChatbot.

Lemma results_count_app l1 l2 name p :
  results_count (l1 ++ l2) name p = results_count l1 name p + results_count l2 name p.
Proof. unfold results_count, Py.count. rewrite List.filter_app, length_app. lia. Qed.

Lemma results_count_other l name name' p :
  Forall (fun r => r_chatbot r = name') l -> name' <> name ->
  results_count l name p = 0.
Proof.
  unfold results_count, Py.count. intros Hall Hne.
  induction Hall as [|r l Hr _ IH]; [reflexivity|].
  simpl. rewrite Hr. destruct (String.eqb_spec name' name) as [E|_]; [congruence|].
  rewrite andb_false_r. exact IH.
Qed.

Lemma results_count_own l name p :
  Forall (fun r => r_chatbot r = name) l ->
  results_count l name p = temp_count l p.
Proof.
  unfold results_count, temp_count, Py.count. intros Hall.
  induction Hall as [|r l Hr _ IH]; [reflexivity|].
  simpl. rewrite Hr, String.eqb_refl, andb_true_r.
  destruct (String.eqb (r_prompt r) p); simpl; lia.
Qed.

(** The checkpoint a worker leaves when it starts from a readable
    checkpoint of its own records and a readable output file. *)
Lemma query_chatbot_checkpoint cb script (fs0 : gmap string FileContent) :
  0 <= runs self ->
  readable fs0 (_temp_filename self cb) ->
  readable fs0 (output_path self) ->
  Forall (fun r => r_chatbot r = Bot.name cb) (document fs0 (_temp_filename self cb)) ->
  let w := worker_of (_query_chatbot self cb script fs0) in
  readable (fs w) (_temp_filename self cb)
  /\ Forall (fun r => r_chatbot r = Bot.name cb) (document (fs w) (_temp_filename self cb))
  /\ (is_completed (_query_chatbot self cb script fs0) = true ->
      forall p, In p (prompts self) ->
        temp_count (document (fs w) (_temp_filename self cb)) p
        = temp_count (document fs0 (_temp_filename self cb)) p
          + deficit self (document fs0 (_temp_filename self cb))
              (document fs0 (output_path self)) (Bot.name cb) p).
Proof.
  intros Hruns Ht Ho Hown w.
  destruct (query_chatbot_spec self cb script fs0 Hruns Ht Ho)
    as (_ & _ & Heq & Hr & Hd & _).
  fold w in Heq, Hr, Hd. split; [exact Hr|]. rewrite Hd. split.
  - subst w. rewrite (query_chatbot_start self cb script fs0 Ht Ho).
    set (w0 := mkWorker _ fs0 cb _ []).
    destruct (for_prompts_exact self (document fs0 (output_path self)) (prompts self)
                script w0) as (added & used & rest & Hs & [Het _ _ _] & Hm & _).
    simpl in Het, Hm. rewrite Het. apply Forall_app. split; [exact Hown|].
    eapply Forall_impl; [exact Hm|]. intros rec0 (q & Hq & Hn & Hrest). exact Hn.
  - intros Hc p Hin. specialize (Heq Hc p Hin). unfold successes in Heq. lia.
Qed.

(** The workers of [query], with checkpoints that are different files and
    not the output file: every checkpoint ends as if its worker had run
    alone, and nothing else changes. *)
Lemma run_workers_spec cbs : forall scripts i (fs0 : gmap string FileContent),
  NoDup (map (_temp_filename self) cbs) ->
  ~ In (output_path self) (map (_temp_filename self) cbs) ->
  let fs' := run_workers self cbs scripts i fs0 in
  (forall path, ~ In path (map (_temp_filename self) cbs) -> fs' !! path = fs0 !! path)
  /\ (forall j cb, cbs !! j = Some cb ->
        fs' !! _temp_filename self cb
        = fs (worker_of (_query_chatbot self cb (scripts (i + j)%nat) fs0))
            !! _temp_filename self cb).
Proof.
  induction cbs as [|cb0 cbs IH]; intros scripts i fs0 Hnd Hout fs'.
  - split; [reflexivity | intros j cb Hj; discriminate].
  - subst fs'. cbn [run_workers].
    apply NoDup_cons in Hnd as [Hnotin Hnd].
    assert (Hout' : ~ In (output_path self) (map (_temp_filename self) cbs))
      by (intros Hin; apply Hout; now right).
    set (fs1 := fs (worker_of (_query_chatbot self cb0 (scripts i) fs0))).
    assert (Hkeeps : forall path, path <> _temp_filename self cb0 ->
              fs1 !! path = fs0 !! path).
    { intros path Hne. subst fs1.
      destruct (query_chatbot_files self cb0 (scripts i) fs0) as [E|E]; rewrite E;
        [reflexivity|]. now apply lookup_insert_ne. }
    destruct (IH scripts (S i) fs1 Hnd Hout') as [Hother Heach].
    split.
    + intros path Hnin. rewrite Hother by (intros Hin; apply Hnin; now right).
      apply Hkeeps. intros E. apply Hnin. now left.
    + intros j cb Hj. destruct j as [|j]; simpl in Hj.
      * injection Hj as <-. rewrite Nat.add_0_r.
        apply Hother. intros Hin. apply Hnotin. now apply list_elem_of_In.
      * pose proof (Heach j cb Hj) as Hfile.
        replace (i + S j)%nat with (S i + j)%nat by lia.
        rewrite Hfile.
        assert (Hne : _temp_filename self cb <> _temp_filename self cb0).
        { intros E. apply Hnotin. rewrite <- E. apply list_elem_of_In.
          apply in_map. apply list_elem_of_In. eapply list_elem_of_lookup_2. exact Hj. }
        destruct (query_chatbot_frame self cb (scripts (S i + j)%nat) fs0 fs1)
          as [_ Hf].
        -- now apply Hkeeps.
        -- apply Hkeeps. intros E. apply Hout. now left.
        -- rewrite Hf. destruct (decide _) as [_|Hn]; [reflexivity | congruence].
Qed.

Lemma results_count_strangers cbs (docs : Chatbot -> list ResultRecord) name p :
  (forall cb', In cb' cbs -> Forall (fun r => r_chatbot r = Bot.name cb') (docs cb')) ->
  (forall cb', In cb' cbs -> Bot.name cb' <> name) ->
  results_count (concat (map docs cbs)) name p = 0.
Proof.
  induction cbs as [|cb0 cbs IH]; intros Hown Hne; [reflexivity|].
  simpl. rewrite results_count_app.
  rewrite (results_count_other _ name (Bot.name cb0));
    [|apply Hown; now left | apply Hne; now left].
  rewrite IH; [reflexivity| |]; intros cb' Hin; [apply Hown | apply Hne]; now right.
Qed.

(** Among checkpoints of their own records, only the adapter's own one
    counts for the adapter. *)
Lemma results_count_concat cbs (docs : Chatbot -> list ResultRecord) cb p :
  NoDup (map (_temp_filename self) cbs) -> In cb cbs ->
  (forall cb', In cb' cbs -> Forall (fun r => r_chatbot r = Bot.name cb') (docs cb')) ->
  results_count (concat (map docs cbs)) (Bot.name cb) p = temp_count (docs cb) p.
Proof.
  induction cbs as [|cb0 cbs IH]; intros Hnd Hin Hown; [destruct Hin|].
  apply NoDup_cons in Hnd as [Hnotin Hnd]. simpl. rewrite results_count_app.
  assert (Hrest : forall cb', In cb' cbs -> Bot.name cb' <> Bot.name cb0).
  { intros cb' Hin' E. apply Hnotin. apply list_elem_of_In.
    rewrite <- (temp_filename_name self cb0 cb' E). now apply in_map. }
  destruct Hin as [->|Hin].
  - rewrite (results_count_own _ _ _ (Hown cb (or_introl eq_refl))).
    rewrite (results_count_strangers cbs docs (Bot.name cb) p);
      [lia | intros cb' Hin'; apply Hown; now right | exact Hrest].
  - rewrite (results_count_other _ (Bot.name cb) (Bot.name cb0));
      [|apply Hown; now left | intros E; exact (Hrest cb Hin (eq_sym E))].
    rewrite IH; [lia | exact Hnd | exact Hin |].
    intros cb' Hin'. apply Hown. now right.
Qed.

End WholeQuery.

Lemma query_chatbot_nothing_owed (self : MultiChatbot) cb script
    (fs0 : gmap string FileContent) :
  readable fs0 (_temp_filename self cb) ->
  readable fs0 (output_path self) ->
  nothing_owed self (document fs0 (_temp_filename self cb))
               (document fs0 (output_path self)) (Bot.name cb) ->
  exists w, _query_chatbot self cb script fs0 = Completed w
            /\ trace w = [] /\ fs w = fs0.
Proof.
  intros Ht Ho Hnone.
  rewrite (query_chatbot_start self cb script fs0 Ht Ho).
  rewrite for_prompts_nothing_owed by exact Hnone.
  eexists. split; [reflexivity|]. simpl. auto.
Qed.

(** X20. [query] from end to end, the workers taken one after the other.
    With a run count [n >= 0], checkpoints that are different files and not
    the output file, a readable output file, readable checkpoints holding
    records of their own adapter (or no checkpoints), and backends that
    answer, [query] returns; no checkpoint is left; the output document is
    the prior one followed by new records; and for every adapter and every
    prompt it holds [max(n, t + r)] records of the pair, where [t] and [r]
    count the records the pair had in the checkpoint and in the output
    file: exactly [n] when it had at most [n]. *)
Theorem query_end_to_end (self : MultiChatbot) (scripts : nat -> list Turn)
    (fs0 : gmap string FileContent) :
  0 <= runs self ->
  NoDup (map (_temp_filename self) (chatbots self)) ->
  ~ In (output_path self) (map (_temp_filename self) (chatbots self)) ->
  readable fs0 (output_path self) ->
  (forall cb, In cb (chatbots self) ->
     readable fs0 (_temp_filename self cb)
     /\ Forall (fun r => r_chatbot r = Bot.name cb)
               (document fs0 (_temp_filename self cb))) ->
  (forall i cb, chatbots self !! i = Some cb ->
     can_query cb /\ all_answered (scripts i)
     /\ Z.of_nat (length (prompts self)) * runs self <= Z.of_nat (length (scripts i))) ->
  let prior := document fs0 (output_path self) in
  exists fs' new,
    query self scripts fs0 = Ok fs'
    /\ fs' !! output_path self = Some (Json (prior ++ new))
    /\ (forall cb, In cb (chatbots self) -> fs' !! _temp_filename self cb = None)
    /\ (forall cb p, In cb (chatbots self) -> In p (prompts self) ->
          results_count (prior ++ new) (Bot.name cb) p
          = Z.max (runs self)
                  (temp_count (document fs0 (_temp_filename self cb)) p
                   + results_count prior (Bot.name cb) p)).
Proof.
  intros Hruns Hnd Hout Ho Hcheck Hlive prior.
  unfold query.
  set (fs1 := run_workers self (chatbots self) scripts 0 fs0).
  destruct (run_workers_spec self (chatbots self) scripts 0 fs0 Hnd Hout)
    as [Hother Heach].
  fold fs1 in Hother, Heach.
  assert (Hout1 : fs1 !! output_path self = fs0 !! output_path self)
    by now apply Hother.
  (* every checkpoint after the workers *)
  assert (Hafter : forall cb, In cb (chatbots self) ->
            readable fs1 (_temp_filename self cb)
            /\ Forall (fun r => r_chatbot r = Bot.name cb)
                      (document fs1 (_temp_filename self cb))
            /\ forall p, In p (prompts self) ->
                 temp_count (document fs1 (_temp_filename self cb)) p
                 = temp_count (document fs0 (_temp_filename self cb)) p
                   + deficit self (document fs0 (_temp_filename self cb)) prior
                       (Bot.name cb) p).
  { intros cb Hin. apply list_elem_of_In, list_elem_of_lookup in Hin as [j Hj].
    assert (Hincb : In cb (chatbots self))
      by (apply list_elem_of_In; eapply list_elem_of_lookup_2; exact Hj).
    destruct (Hcheck cb Hincb) as [Hr Hown].
    destruct (Hlive j cb Hj) as (Hcan & Hall & Hlen).
    pose proof (Heach j cb Hj) as Hfile. simpl in Hfile.
    destruct (query_chatbot_checkpoint self cb (scripts j) fs0 Hruns Hr Ho Hown)
      as (Hr' & Hown' & Hcount).
    assert (Hdoc : document fs1 (_temp_filename self cb)
                   = document (fs (worker_of (_query_chatbot self cb (scripts j) fs0)))
                              (_temp_filename self cb))
      by (unfold document; now rewrite Hfile).
    split; [unfold readable; rewrite Hfile; exact Hr'|].
    rewrite Hdoc. split; [exact Hown'|].
    apply Hcount. rewrite (query_chatbot_start self cb (scripts j) fs0 Hr Ho).
    now apply for_prompts_answered. }
  destruct (merge_spec self fs1 Hnd Hout) as (fs' & Hm & Hfile & Hgone & _).
  - unfold readable. rewrite Hout1. exact Ho.
  - apply Forall_forall. intros cb Hin. apply list_elem_of_In in Hin.
    exact (proj1 (Hafter cb Hin)).
  - assert (Hprior : document fs1 (output_path self) = prior)
      by (unfold prior, document; now rewrite Hout1).
    rewrite Hprior in Hfile.
    exists fs', (concat (map (fun cb => document fs1 (_temp_filename self cb))
                             (chatbots self))).
    split; [exact Hm|]. split; [exact Hfile|]. split; [exact Hgone|].
    intros cb p Hcb Hp. rewrite results_count_app.
    rewrite (results_count_concat self (chatbots self)
               (fun cb => document fs1 (_temp_filename self cb)) cb p Hnd Hcb)
      by (intros cb' Hin'; exact (proj1 (proj2 (Hafter cb' Hin')))).
    destruct (Hafter cb Hcb) as (_ & _ & Hcount). rewrite (Hcount p Hp).
    unfold deficit, prompt_runs.
    pose proof (temp_count_nonneg (document fs0 (_temp_filename self cb)) p).
    pose proof (results_count_nonneg prior (Bot.name cb) p). lia.
Qed.

Lemma query_end_to_end_witness :
  let scripts := fun i : nat =>
    match i with
    | 0%nat => repeat Samples.answers 4
    | _ => [Samples.answers; Samples.answers; Samples.answers; Samples.answers]
    end in
  exists fs' new,
    query Samples.config scripts ∅ = Ok fs'
    /\ fs' !! "output/results.json" = Some (Json ([] ++ new))
    /\ results_count ([] ++ new) "Gemini" "b" = 2
    /\ fs' !! "temp/gemini.json" = None.
Proof.
  intros scripts.
  destruct (query_end_to_end Samples.config scripts ∅)
    as (fs' & new & Hq & Hout & Hgone & Hcount).
  - simpl. lia.
  - repeat constructor; vm_compute; intros H; inversion H; subst;
      match goal with Hx : _ ∈ _ |- _ => inversion Hx end.
  - vm_compute. intros [E|[E|[]]]; discriminate.
  - left. reflexivity.
  - intros cb Hin. split; [left|]; simpl in Hin;
      destruct Hin as [<-|[<-|[]]]; try reflexivity; constructor.
  - intros i cb Hi. destruct i as [|[|i]]; simpl in Hi; [| |discriminate];
      injection Hi as <-.
    + split; [exact I|]. split; [|simpl; lia].
      repeat constructor; exists "hello"; reflexivity.
    + split; [|split; [|simpl; lia]].
      * split; [discriminate|]. split; [|reflexivity].
        repeat constructor; discriminate.
      * repeat constructor; exists "hello"; reflexivity.
  - exists fs', new. split; [exact Hq|]. split; [exact Hout|]. split.
    + exact (Hcount Samples.gemini "b" (or_intror (or_introl eq_refl))
               (or_intror (or_introl eq_refl))).
    + exact (Hgone Samples.gemini (or_intror (or_introl eq_refl))).
Defined.

(** X21. Once every pair of an adapter and a prompt has its [n >= 0] records
    in the output file and no checkpoint is left (the state [query] leaves
    when its workers got through), a further call of [query] makes no query
    at all and leaves every file as it is, whatever the backends would
    do. *)
Theorem query_again_is_noop (self : MultiChatbot) (scripts : nat -> list Turn)
    (fs1 : gmap string FileContent) (output : list ResultRecord) :
  0 <= runs self ->
  fs1 !! output_path self = Some (Json output) ->
  (forall cb, In cb (chatbots self) -> fs1 !! _temp_filename self cb = None) ->
  (forall cb p, In cb (chatbots self) -> In p (prompts self) ->
     runs self <= results_count output (Bot.name cb) p) ->
  query self scripts fs1 = Ok fs1
  /\ queries_of_workers self (chatbots self) scripts 0 fs1 = 0%nat.
Proof.
  intros Hruns Hout Hnone Hhave.
  assert (Hidle : forall cbs i,
            (forall cb, In cb cbs -> In cb (chatbots self)) ->
            run_workers self cbs scripts i fs1 = fs1
            /\ queries_of_workers self cbs scripts i fs1 = 0%nat).
  { induction cbs as [|cb cbs IH]; intros i Hsub; [split; reflexivity|].
    cbn [run_workers queries_of_workers].
    destruct (query_chatbot_nothing_owed self cb (scripts i) fs1)
      as (w & Hw & Htr & Hfs).
    - left. apply Hnone, Hsub. now left.
    - right. eauto.
    - intros p Hp. unfold document. rewrite Hout, (Hnone cb (Hsub cb (or_introl eq_refl))).
      pose proof (Hhave cb p (Hsub cb (or_introl eq_refl)) Hp).
      unfold prompt_runs, temp_count, Py.count. simpl. lia.
    - rewrite Hw. simpl. rewrite Htr, Hfs.
      destruct (IH (S i)) as [-> ->]; [intros cb' Hin; apply Hsub; now right|].
      split; reflexivity. }
  destruct (Hidle (chatbots self) 0%nat (fun cb H => H)) as [Hrun Hq].
  split; [|exact Hq].
  unfold query. rewrite Hrun. unfold merge, Fs.load_if_exists, Fs.exists_, Fs.json_load.
  rewrite Hout. simpl. rewrite (combine_temp_absent self _ _ _ Hnone). simpl.
  f_equal. rewrite write_json_insert. now apply insert_id.
Qed.

Lemma query_again_is_noop_witness :
  match query Samples.config (fun _ => repeat Samples.answers 4) ∅ with
  | Ok fs1 =>
      query Samples.config (fun _ => [Samples.broken]) fs1 = Ok fs1
      /\ queries_of_workers Samples.config (chatbots Samples.config)
           (fun _ => [Samples.broken]) 0 fs1 = 0%nat
  | Raise _ => False
  end.
Proof.
  destruct (query Samples.config (fun _ => repeat Samples.answers 4) ∅)
    as [fs1|ex] eqn:Hq; vm_compute in Hq; [|discriminate].
  injection Hq as <-.
  eapply (query_again_is_noop Samples.config (fun _ => [Samples.broken])).
  - simpl. lia.
  - vm_compute. reflexivity.
  - intros cb [<-|[<-|[]]]; reflexivity.
  - intros cb p [<-|[<-|[]]] [<-|[<-|[]]]; vm_compute; discriminate.
Defined.

(** X22. [generate_edge_cookie_files] with and without the default profile.
    When the call without the default profile returns a list, the platform
    is one of the three known ones and its directory exists; the list has
    one file per listed folder whose name starts with "Profile ", in
    listing order, whether or not that file exists; and the call with the
    default profile returns the same list, followed by the default
    profile's file exactly when that file exists. *)
Theorem edge_cookie_files_default_last (h : Host) (files : list string) :
  Edge.generate_edge_cookie_files h false = Ok files ->
  exists dir1 dir2,
    Edge.directories h = Ok (dir1, dir2)
    /\ path_exists h dir1 = true
    /\ files = map (fun folder => join3 h dir1 folder dir2)
                   (List.filter (String.prefix "Profile ") (listdir h dir1))
    /\ ~ In "Default" (List.filter (String.prefix "Profile ") (listdir h dir1))
    /\ Edge.generate_edge_cookie_files h true
       = Ok (if path_exists h (join3 h dir1 "Default" dir2)
             then files ++ [join3 h dir1 "Default" dir2] else files).
Proof.
  unfold Edge.generate_edge_cookie_files. intros Hfiles.
  destruct (Edge.directories h) as [[dir1 dir2]|ex] eqn:Hdirs; [|discriminate].
  simpl in *. destruct (path_exists h dir1) eqn:Hex; [|discriminate].
  simpl in *. injection Hfiles as <-.
  exists dir1, dir2. split; [reflexivity|]. split; [exact Hex|].
  split; [reflexivity|]. split; [|reflexivity].
  intros Hin. apply filter_In in Hin as [_ Hpre]. discriminate.
Qed.

Lemma edge_cookie_files_default_last_witness :
  Edge.generate_edge_cookie_files Hosts.laptop true
  = Ok ["/home/u/.config/microsoft-edge/Profile 1/Cookies";
        "/home/u/.config/microsoft-edge/Profile 2/Cookies";
        "/home/u/.config/microsoft-edge/Default/Cookies"].
Proof.
  destruct (edge_cookie_files_default_last Hosts.laptop _ eq_refl)
    as (dir1 & dir2 & Hdirs & _ & _ & _ & Hcall).
  vm_compute in Hdirs. injection Hdirs as <- <-. exact Hcall.
Defined.


Module HuggingFaceFacts.

Lemma lookup_in key items v :
  HuggingFaceQuery.lookup key items = Some v -> In (key, v) items.
Proof.
  induction items as [|[k x] items IH]; simpl; [discriminate|].
  destruct (String.eqb k key) eqn:E.
  - apply String.eqb_eq in E. intros [= ->]. subst. now left.
  - intros H. right. auto.
Qed.

End HuggingFaceFacts.

(** X24. The check of [HuggingFace.query] returns a value in one case only:
    the response is a list, none of its elements is the text "error", and
    its first element is an object with the key "generated_text", whose
    value is what is returned.  Every other response, a text and an object
    without the key "error" among them, raises. *)
Theorem huggingface_returns_iff (response v : Response) :
  HuggingFaceQuery.check response = Ok v
  <-> exists items rest,
        response = RList (RDict items :: rest)
        /\ existsb HuggingFaceQuery.is_error_text rest = false
        /\ HuggingFaceQuery.lookup "generated_text" items = Some v.
Proof.
  split.
  - unfold HuggingFaceQuery.check.
    destruct response as [| | | |s|l|items]; simpl; try discriminate.
    + destruct (Nat.eqb (String.length s) 0); [discriminate|].
      destruct (Py.contains "error" s); [discriminate|].
      destruct s; simpl; discriminate.
    + destruct l as [|first rest]; simpl; [discriminate|].
      destruct (HuggingFaceQuery.is_error_text first) eqn:Hfirst; simpl.
      { destruct first; discriminate. }
      destruct (existsb HuggingFaceQuery.is_error_text rest) eqn:Hrest; simpl;
        [discriminate|].
      destruct first as [| | | |s|l|items]; simpl; try discriminate.
      destruct (HuggingFaceQuery.lookup "generated_text" items) as [x|] eqn:Hx;
        [|discriminate].
      intros [= ->]. eauto.
    + destruct (Nat.eqb (length items) 0); [discriminate|].
      destruct (HuggingFaceQuery.lookup "error" items); simpl; discriminate.
  - intros (items & rest & -> & Hrest & Hv).
    unfold HuggingFaceQuery.check. simpl. rewrite Hrest. simpl. now rewrite Hv.
Qed.

(** X25. An error object of Hugging Face in the worker.  A response that is
    an object with the key "error" makes [HuggingFace.query] raise an
    exception whose argument is the value of the key.  In the worker of a
    Hugging Face adapter the exception is logged; when the value is a text
    that contains "Model is overloaded" the worker sleeps one second and
    leaves the failure counter as it is; in every other case, a value
    that is not a text among them, the failure counter goes up by one.  The
    run counter never moves. *)
Theorem huggingface_error_object (w : Worker) (items : list (string * Response))
    (v : Response) (run error_count : Z) :
  Bot.is_HuggingFace (chatbot w) = true ->
  HuggingFaceQuery.lookup "error" items = Some v ->
  exists ex,
    HuggingFaceQuery.query (Ok (RDict items)) = Raise ex
    /\ ex = HuggingFaceQuery.exception_of v
    /\ handle w ex run error_count
       = if HuggingFaceQuery.overloaded v
         then Next (emit w [EvLogError (exn_args ex); EvSleep 1%Q]) run error_count
         else Next (emit w [EvLogError (exn_args ex)]) run (error_count + 1).
Proof.
  intros Hhf Hv. exists (HuggingFaceQuery.exception_of v).
  split; [|split; [reflexivity|]].
  - unfold HuggingFaceQuery.query, HuggingFaceQuery.check. simpl.
    destruct items as [|item items]; [discriminate|].
    cbn [length Nat.eqb]. rewrite Hv. simpl. reflexivity.
  - unfold handle, handle_exception. cbn [HuggingFaceQuery.exception_of exn_class].
    destruct w as [temp fs0 cb progress0 trace0]. simpl in Hhf.
    destruct cb; try discriminate. unfold emit. simpl.
    destruct v as [| | | |s|l|its]; simpl; try reflexivity.
    destruct (Py.contains "Model is overloaded" s); simpl;
      rewrite <- ?app_assoc; reflexivity.
Qed.

Lemma huggingface_error_object_witness :
  let llama := HuggingFace "key" "Llama 2" "meta-llama/Llama-2-70b-chat-hf" 60
                           (6 # 10) 2048 (9 # 10) 0 in
  let w := mkWorker [] ∅ llama 0 [] in
  HuggingFaceQuery.query
    (Ok (RDict [("error", RStr "Model is overloaded, please wait"); ("error_type", RStr "overloaded")]))
  = Raise (Exception "Model is overloaded, please wait")
  /\ handle w (Exception "Model is overloaded, please wait") 0 1
     = Next (emit w [EvLogError [ArgStr "Model is overloaded, please wait"]; EvSleep 1%Q]) 0 1.
Proof.
  intros llama w.
  destruct (huggingface_error_object w
              [("error", RStr "Model is overloaded, please wait");
               ("error_type", RStr "overloaded")]
              (RStr "Model is overloaded, please wait") 0 1 eq_refl eq_refl)
    as (ex & Hq & -> & Hh).
  split; [exact Hq|exact Hh].
Defined.
